(** * Parque Berlin reservation controller

    A shallow embedding of the scheduling core of [controlador.c]: the
    hour-indexed occupancy table, the reservation store, the request
    handler [procesarSolicitudReserva] with its helpers
    [verificarDisponibilidad] and [buscarHoraAlternativa], and the clock
    step [avanzarHora].

    Conventions of the embedding.
    - A C [int] is a [Z] that holds a value of 32 bits in two's
      complement.  The sums and products the code computes on party sizes
      and occupancy counters, which no check bounds, wrap around as the
      compiled program does: they are written with [suma_int] and
      [producto_int].  The hours are checked by [validarHora] or bounded
      by the loops before any arithmetic on them, and the statistics and
      [numReservas] grow by one per handled message: their arithmetic is
      written with the operations of [Z].
    - The global variables of the controller are the fields of [Estado];
      the parameters read once from the command line are the fields of
      [Config].  Every function takes the state and returns the new one.
    - An access outside a fixed-size array is undefined in C; the model
      returns [None] there.  [ocupacionPorHora] has [MAX_HORAS] cells
      and [reservas] has [MAX_RESERVAS] cells.
    - Each handler runs as one step.  The pipes, the console output and
      the interleaving of the two threads are outside the model; the
      response record handed to [enviarRespuesta] is the second
      component of the handler's result. *)

From Stdlib Require Import ZArith Lia Ascii DecimalString DecimalZ.
From stdpp Require Import base tactics option list strings.

Local Open Scope Z_scope.

(** ** Constants *)

Definition MAX_AGENTES : Z := 50.
Definition MAX_NOMBRE : Z := 128.
Definition HORAS_MIN : Z := 7.
Definition HORAS_MAX : Z := 19.
Definition MAX_HORAS : Z := HORAS_MAX - HORAS_MIN + 1.
Definition DURACION_RESERVA : Z := 2.
(** The literal bound of [Reserva reservas[1000]]. *)
Definition MAX_RESERVAS : Z := 1000.

(** ** Machine integers *)

Definition INT_MIN : Z := -2147483648.
Definition INT_MAX : Z := 2147483647.

(** The value fits an [int]. *)
Definition en_int (z : Z) : Prop := INT_MIN <= z <= INT_MAX.

(** The [int] that an arithmetic expression of C leaves when its exact
    value is [z]: the value itself when it fits, and the value reduced
    modulo 2^32 into the range of [int] when it does not. *)
Definition a_int (z : Z) : Z := (z - INT_MIN) mod 2 ^ 32 + INT_MIN.

(** [a + b] and [a * b] on [int]. *)
Definition suma_int (a b : Z) : Z := a_int (a + b).
Definition producto_int (a b : Z) : Z := a_int (a * b).

(** ** Messages and records *)

Inductive TipoMensaje : Set :=
| MSG_REGISTRO
| MSG_SOLICITUD_RESERVA
| MSG_FIN_AGENTE.

Inductive TipoRespuesta : Set :=
| RESP_HORA_ACTUAL
| RESP_RESERVA_OK
| RESP_RESERVA_REPROG
| RESP_RESERVA_NEGADA
| RESP_FIN_DIA.

Record MensajeAgente : Set := {
  m_tipo : TipoMensaje;
  m_nombreAgente : string;
  m_pipeRespuesta : string;
  m_nombreFamilia : string;
  m_horaSolicitada : Z;
  m_numPersonas : Z
}.

(** The text of a response is one of the [snprintf] templates of the
    controller together with the values it prints. *)
Inductive Texto : Set :=
| TxtBienvenido (hora : Z)
| TxtFueraDeRango (minimo maximo : Z)
| TxtExcedeAforo (personas aforo : Z)
| TxtReprogExtemporanea (desde hasta : Z)
| TxtNegadaExtemporanea
| TxtFueraDePeriodo
| TxtAprobada (desde hasta personas : Z)
| TxtReprogSinCupo (desde hasta : Z)
| TxtNegadaSinCupo.

(** [resp] is a local of the handler that is never cleared: the field
    [horaAsignada] holds a value only on the paths that assign it. *)
Record RespuestaControlador : Set := {
  resp_tipo : TipoRespuesta;
  resp_horaAsignada : option Z;
  resp_horaActual : Z;
  resp_mensaje : Texto
}.

(** [activa] only ever holds 0 or 1 and is only tested for truth. *)
Record Reserva : Set := {
  r_nombreFamilia : string;
  r_nombreAgente : string;
  r_horaInicio : Z;
  r_horaFin : Z;
  r_numPersonas : Z;
  r_activa : bool
}.

Record AgenteInfo : Set := {
  a_nombre : string;
  a_pipeRespuesta : string;
  a_activo : bool
}.

Record Config : Set := {
  horaInicial : Z;
  horaFinal : Z;
  segundosPorHora : Z;
  aforoMaximo : Z
}.

(** [numReservas] and [numAgentes] are the lengths of the two lists. *)
Record Estado : Set := {
  horaActual : Z;
  ocupacionPorHora : list Z;
  reservas : list Reserva;
  agentesRegistrados : list AgenteInfo;
  solicitudesNegadas : Z;
  solicitudesAceptadas : Z;
  solicitudesReprogramadas : Z
}.

Definition numReservas (st : Estado) : Z := Z.of_nat (length (reservas st)).
Definition numAgentes (st : Estado) : Z := Z.of_nat (length (agentesRegistrados st)).

(** ** Utility functions *)

Definition validarHora (hora : Z) : bool :=
  (HORAS_MIN <=? hora) && (hora <=? HORAS_MAX).

Definition indiceHora (hora : Z) : Z := hora - HORAS_MIN.

(** [strncpy(dst, src, n)] into zeroed storage of more than [n] bytes. *)
Fixpoint strncpy (src : string) (n : nat) : string :=
  match n, src with
  | S n', String c resto => String c (strncpy resto n')
  | _, _ => EmptyString
  end.

Definition copiarNombre (src : string) : string :=
  strncpy src (Z.to_nat (MAX_NOMBRE - 1)).

(** ** Array accesses *)

Definition leer (tabla : list Z) (i : Z) : option Z :=
  if 0 <=? i then tabla !! Z.to_nat i else None.

Definition escribir (tabla : list Z) (i v : Z) : option (list Z) :=
  if (0 <=? i) && (i <? Z.of_nat (length tabla))
  then Some (<[Z.to_nat i := v]> tabla)
  else None.

(** ** Command line and start-up *)

(** The range checks of [procesarArgumentos]; a configuration that fails
    one of them ends the process before the server starts. *)
Definition config_valida (cfg : Config) : Prop :=
  validarHora (horaInicial cfg) = true /\
  validarHora (horaFinal cfg) = true /\
  horaInicial cfg < horaFinal cfg /\
  0 < segundosPorHora cfg /\
  0 < aforoMaximo cfg.

Definition inicializarServidor (cfg : Config) : Estado :=
  {| horaActual := horaInicial cfg;
     ocupacionPorHora := replicate (Z.to_nat MAX_HORAS) 0;
     reservas := [];
     agentesRegistrados := [];
     solicitudesNegadas := 0;
     solicitudesAceptadas := 0;
     solicitudesReprogramadas := 0 |}.

(** ** Availability *)

(** [for (h = hora; h < hora + DURACION_RESERVA && validarHora(h); h++)]:
    [k] counts the iterations left before [h] reaches the upper bound. *)
Fixpoint verificar_desde (tabla : list Z) (aforo numPersonas : Z)
    (k : nat) (h : Z) : option bool :=
  match k with
  | O => Some true
  | S k' =>
      if validarHora h then
        c ← leer tabla (indiceHora h);
        if suma_int c numPersonas >? aforo then Some false
        else verificar_desde tabla aforo numPersonas k' (h + 1)
      else Some true
  end.

Definition verificarDisponibilidad (cfg : Config) (st : Estado)
    (hora numPersonas : Z) : option bool :=
  verificar_desde (ocupacionPorHora st) (aforoMaximo cfg) numPersonas
    (Z.to_nat DURACION_RESERVA) hora.

(** ** Alternative hour *)

(** The inner loop over [offset]; [Some false] is [disponible = 0]. *)
Fixpoint ventana_disponible (tabla : list Z) (aforo numPersonas h : Z)
    (k : nat) (offset : Z) : option bool :=
  match k with
  | O => Some true
  | S k' =>
      if negb (validarHora (h + offset)) then Some false
      else
        c ← leer tabla (indiceHora (h + offset));
        if suma_int c numPersonas >? aforo then Some false
        else ventana_disponible tabla aforo numPersonas h k' (offset + 1)
  end.

(** The outer loop [for (h = horaActual; h <= horaFinal - DURACION_RESERVA + 1; h++)];
    the inner [option] is the found hour, written through [horaEncontrada]. *)
Fixpoint buscar_desde (tabla : list Z) (aforo numPersonas : Z)
    (k : nat) (h : Z) : option (option Z) :=
  match k with
  | O => Some None
  | S k' =>
      disponible ← ventana_disponible tabla aforo numPersonas h
                     (Z.to_nat DURACION_RESERVA) 0;
      if disponible : bool then Some (Some h)
      else buscar_desde tabla aforo numPersonas k' (h + 1)
  end.

Definition buscarHoraAlternativa (cfg : Config) (st : Estado)
    (numPersonas : Z) : option (option Z) :=
  buscar_desde (ocupacionPorHora st) (aforoMaximo cfg) numPersonas
    (Z.to_nat (horaFinal cfg - DURACION_RESERVA + 1 - horaActual st + 1))
    (horaActual st).

(** ** Committing a reservation *)

(** The loop that updates the occupancy,
    [for (h = hora; h < hora + DURACION_RESERVA && validarHora(h); h++)
       ocupacionPorHora[indiceHora(h)] += numPersonas]. *)
Fixpoint ocupar (tabla : list Z) (numPersonas : Z) (k : nat) (h : Z)
    : option (list Z) :=
  match k with
  | O => Some tabla
  | S k' =>
      if validarHora h then
        c ← leer tabla (indiceHora h);
        tabla' ← escribir tabla (indiceHora h) (suma_int c numPersonas);
        ocupar tabla' numPersonas k' (h + 1)
      else Some tabla
  end.

Definition nuevaReserva (msg : MensajeAgente) (hora : Z) : Reserva :=
  {| r_nombreFamilia := copiarNombre (m_nombreFamilia msg);
     r_nombreAgente := copiarNombre (m_nombreAgente msg);
     r_horaInicio := hora;
     r_horaFin := hora + DURACION_RESERVA - 1;
     r_numPersonas := m_numPersonas msg;
     r_activa := false |}.

(** The block under [mutexReservas] that the handler repeats on its
    three accepting paths: fill [reservas[numReservas]], update the
    occupancy, increment [numReservas]. *)
Definition reservar (st : Estado) (msg : MensajeAgente) (hora : Z)
    : option Estado :=
  if numReservas st <? MAX_RESERVAS then
    tabla' ← ocupar (ocupacionPorHora st) (m_numPersonas msg)
               (Z.to_nat DURACION_RESERVA) hora;
    Some {| horaActual := horaActual st;
            ocupacionPorHora := tabla';
            reservas := reservas st ++ [nuevaReserva msg hora];
            agentesRegistrados := agentesRegistrados st;
            solicitudesNegadas := solicitudesNegadas st;
            solicitudesAceptadas := solicitudesAceptadas st;
            solicitudesReprogramadas := solicitudesReprogramadas st |}
  else None.

(** ** Statistics *)

Definition contarNegada (st : Estado) : Estado :=
  {| horaActual := horaActual st;
     ocupacionPorHora := ocupacionPorHora st;
     reservas := reservas st;
     agentesRegistrados := agentesRegistrados st;
     solicitudesNegadas := solicitudesNegadas st + 1;
     solicitudesAceptadas := solicitudesAceptadas st;
     solicitudesReprogramadas := solicitudesReprogramadas st |}.

Definition contarAceptada (st : Estado) : Estado :=
  {| horaActual := horaActual st;
     ocupacionPorHora := ocupacionPorHora st;
     reservas := reservas st;
     agentesRegistrados := agentesRegistrados st;
     solicitudesNegadas := solicitudesNegadas st;
     solicitudesAceptadas := solicitudesAceptadas st + 1;
     solicitudesReprogramadas := solicitudesReprogramadas st |}.

Definition contarReprogramada (st : Estado) : Estado :=
  {| horaActual := horaActual st;
     ocupacionPorHora := ocupacionPorHora st;
     reservas := reservas st;
     agentesRegistrados := agentesRegistrados st;
     solicitudesNegadas := solicitudesNegadas st;
     solicitudesAceptadas := solicitudesAceptadas st;
     solicitudesReprogramadas := solicitudesReprogramadas st + 1 |}.

(** ** The request handler *)

Definition respNegada (st : Estado) (txt : Texto) : RespuestaControlador :=
  {| resp_tipo := RESP_RESERVA_NEGADA;
     resp_horaAsignada := None;
     resp_horaActual := horaActual st;
     resp_mensaje := txt |}.

Definition respReprog (st : Estado) (hora : Z) (txt : Texto)
    : RespuestaControlador :=
  {| resp_tipo := RESP_RESERVA_REPROG;
     resp_horaAsignada := Some hora;
     resp_horaActual := horaActual st;
     resp_mensaje := txt |}.

Definition respOk (st : Estado) (msg : MensajeAgente) : RespuestaControlador :=
  {| resp_tipo := RESP_RESERVA_OK;
     resp_horaAsignada := Some (m_horaSolicitada msg);
     resp_horaActual := horaActual st;
     resp_mensaje :=
       TxtAprobada (m_horaSolicitada msg)
         (m_horaSolicitada msg + DURACION_RESERVA) (m_numPersonas msg) |}.

Definition procesarSolicitudReserva (cfg : Config) (st : Estado)
    (msg : MensajeAgente) : option (Estado * RespuestaControlador) :=
  if negb (validarHora (m_horaSolicitada msg)) then
    Some (contarNegada st, respNegada st (TxtFueraDeRango HORAS_MIN HORAS_MAX))
  else if m_numPersonas msg >? aforoMaximo cfg then
    Some (contarNegada st,
          respNegada st (TxtExcedeAforo (m_numPersonas msg) (aforoMaximo cfg)))
  else if m_horaSolicitada msg <? horaActual st then
    alternativa ← buscarHoraAlternativa cfg st (m_numPersonas msg);
    match alternativa with
    | Some horaAlternativa =>
        st' ← reservar (contarReprogramada st) msg horaAlternativa;
        Some (st', respReprog st horaAlternativa
                     (TxtReprogExtemporanea horaAlternativa
                        (horaAlternativa + DURACION_RESERVA)))
    | None => Some (contarNegada st, respNegada st TxtNegadaExtemporanea)
    end
  else if m_horaSolicitada msg >? horaFinal cfg then
    Some (contarNegada st, respNegada st TxtFueraDePeriodo)
  else
    disponible ← verificarDisponibilidad cfg st (m_horaSolicitada msg)
                   (m_numPersonas msg);
    if disponible : bool then
      st' ← reservar (contarAceptada st) msg (m_horaSolicitada msg);
      Some (st', respOk st msg)
    else
      alternativa ← buscarHoraAlternativa cfg st (m_numPersonas msg);
      match alternativa with
      | Some horaAlternativa =>
          st' ← reservar (contarReprogramada st) msg horaAlternativa;
          Some (st', respReprog st horaAlternativa
                       (TxtReprogSinCupo horaAlternativa
                          (horaAlternativa + DURACION_RESERVA)))
      | None => Some (contarNegada st, respNegada st TxtNegadaSinCupo)
      end.

(** ** Agent registration and dispatch *)

Definition registrarAgente (st : Estado) (msg : MensajeAgente)
    : Estado * RespuestaControlador :=
  let agentes :=
    if numAgentes st <? MAX_AGENTES then
      agentesRegistrados st ++
        [{| a_nombre := copiarNombre (m_nombreAgente msg);
            a_pipeRespuesta := copiarNombre (m_pipeRespuesta msg);
            a_activo := true |}]
    else agentesRegistrados st in
  ({| horaActual := horaActual st;
      ocupacionPorHora := ocupacionPorHora st;
      reservas := reservas st;
      agentesRegistrados := agentes;
      solicitudesNegadas := solicitudesNegadas st;
      solicitudesAceptadas := solicitudesAceptadas st;
      solicitudesReprogramadas := solicitudesReprogramadas st |},
   {| resp_tipo := RESP_HORA_ACTUAL;
      resp_horaAsignada := None;
      resp_horaActual := horaActual st;
      resp_mensaje := TxtBienvenido (horaActual st) |}).

Definition procesarMensaje (cfg : Config) (st : Estado) (msg : MensajeAgente)
    : option (Estado * option RespuestaControlador) :=
  match m_tipo msg with
  | MSG_REGISTRO =>
      let '(st', resp) := registrarAgente st msg in Some (st', Some resp)
  | MSG_SOLICITUD_RESERVA =>
      '(st', resp) ← procesarSolicitudReserva cfg st msg;
      Some (st', Some resp)
  | MSG_FIN_AGENTE => Some (st, None)
  end.

(** ** The clock *)

Definition activarReserva (hora : Z) (r : Reserva) : Reserva :=
  if (r_horaInicio r =? hora) && negb (r_activa r) then
    {| r_nombreFamilia := r_nombreFamilia r;
       r_nombreAgente := r_nombreAgente r;
       r_horaInicio := r_horaInicio r;
       r_horaFin := r_horaFin r;
       r_numPersonas := r_numPersonas r;
       r_activa := true |}
  else r.

Definition desactivarReserva (hora : Z) (r : Reserva) : Reserva :=
  if (r_horaFin r <? hora) && r_activa r then
    {| r_nombreFamilia := r_nombreFamilia r;
       r_nombreAgente := r_nombreAgente r;
       r_horaInicio := r_horaInicio r;
       r_horaFin := r_horaFin r;
       r_numPersonas := r_numPersonas r;
       r_activa := false |}
  else r.

(** [horaActual++] followed by the two passes over [reservas]. *)
Definition avanzarHora (st : Estado) : Estado :=
  let hora := horaActual st + 1 in
  {| horaActual := hora;
     ocupacionPorHora := ocupacionPorHora st;
     reservas := map (desactivarReserva hora) (map (activarReserva hora) (reservas st));
     agentesRegistrados := agentesRegistrados st;
     solicitudesNegadas := solicitudesNegadas st;
     solicitudesAceptadas := solicitudesAceptadas st;
     solicitudesReprogramadas := solicitudesReprogramadas st |}.

(** One turn of the loop of [hiloReloj],
    [while (horaActual <= horaFinal && !finalizarServidor)]: the clock
    advances when the condition holds and stands still when it does not.
    [finalizarServidor] is the value of the flag that the condition
    reads; the signal handler and the listener thread raise it. *)
Definition hiloReloj_paso (cfg : Config) (finalizarServidor : bool)
    (st : Estado) : Estado :=
  if (horaActual st <=? horaFinal cfg) && negb finalizarServidor
  then avanzarHora st else st.

(** ** Runs *)

(** What the controller does over a day: a message is taken from the
    pipe, or the clock thread completes a turn of its loop that it began
    with the flag [finalizarServidor] down. *)
Inductive Evento : Set :=
| EvMensaje (msg : MensajeAgente)
| EvTick.

Definition paso (cfg : Config) (st : Estado) (ev : Evento) : option Estado :=
  match ev with
  | EvMensaje msg => fst <$> procesarMensaje cfg st msg
  | EvTick => Some (hiloReloj_paso cfg false st)
  end.

Fixpoint ejecutar (cfg : Config) (st : Estado) (evs : list Evento)
    : option Estado :=
  match evs with
  | [] => Some st
  | ev :: resto => st' ← paso cfg st ev; ejecutar cfg st' resto
  end.

(** ** The clock thread *)

(** The loop of [hiloReloj],
    [while (horaActual <= horaFinal && !finalizarServidor)].
    [finalizar i] is the value of the flag at the test of the condition
    that follows [i] completed turns; [k] counts the hours left before
    the clock passes [horaFinal], after which the condition fails
    whatever the flag. *)
Fixpoint reloj_desde (cfg : Config) (finalizar : nat -> bool)
    (k i : nat) (st : Estado) : Estado :=
  match k with
  | O => st
  | S k' =>
      if (horaActual st <=? horaFinal cfg) && negb (finalizar i)
      then reloj_desde cfg finalizar k' (S i) (avanzarHora st)
      else st
  end.

Definition hiloReloj (cfg : Config) (finalizar : nat -> bool) (st : Estado)
    : Estado :=
  reloj_desde cfg finalizar
    (Z.to_nat (horaFinal cfg - horaActual st + 1)) 0 st.

(** ** Integer division *)

(** The [/] of C on [int]: the quotient truncated toward zero, undefined
    for a zero divisor. *)
Definition dividir (a b : Z) : option Z :=
  if b =? 0 then None else Some (Z.quot a b).

(** ** The hourly report *)

(** The values that [imprimirEstadoHora] computes and prints. *)
Record EstadoHora : Set := {
  eh_hora : Z;
  eh_salen : list Reserva;
  eh_totalSalen : Z;
  eh_entran : list Reserva;
  eh_totalEntran : Z;
  eh_ocupacionActual : Z;
  eh_porcentaje : Z;
  eh_barra : list bool
}.

Definition sale_ahora (cfg : Config) (hora : Z) (r : Reserva) : bool :=
  (r_horaFin r =? hora - 1) && (horaInicial cfg <=? r_horaFin r).

Definition entra_ahora (hora : Z) (r : Reserva) : bool :=
  r_horaInicio r =? hora.

(** [total += reservas[i].numPersonas] over the listed records. *)
Definition total_personas (rs : list Reserva) : Z :=
  foldl (fun total r => suma_int total (r_numPersonas r)) 0 rs.

(** The twenty cells of the bar: cell [i] is full when [i < barras]. *)
Definition barra_progreso (barras : Z) : list bool :=
  map (fun i => i <? barras) (seqZ 0 20).

Definition imprimirEstadoHora (cfg : Config) (st : Estado)
    : option EstadoHora :=
  let salen := List.filter (sale_ahora cfg (horaActual st)) (reservas st) in
  let entran := List.filter (entra_ahora (horaActual st)) (reservas st) in
  ocupacionActual ←
    (if validarHora (horaActual st)
     then leer (ocupacionPorHora st) (indiceHora (horaActual st))
     else Some 0);
  porcentaje ← dividir (producto_int ocupacionActual 100) (aforoMaximo cfg);
  Some {| eh_hora := horaActual st;
          eh_salen := salen;
          eh_totalSalen := total_personas salen;
          eh_entran := entran;
          eh_totalEntran := total_personas entran;
          eh_ocupacionActual := ocupacionActual;
          eh_porcentaje := porcentaje;
          eh_barra := barra_progreso (Z.quot porcentaje 5) |}.

(** ** The final report *)

(** [for (int i = 0; i < MAX_HORAS; i++)] over the cells of the table:
    [cuerpo i ocupacionPorHora[i]] updates what the loop accumulates. *)
Fixpoint para_cada_hora {A : Type} (tabla : list Z)
    (cuerpo : Z -> Z -> A -> option A) (k : nat) (i : Z) (acc : A)
    : option A :=
  match k with
  | O => Some acc
  | S k' =>
      c ← leer tabla i;
      acc' ← cuerpo i c acc;
      para_cada_hora tabla cuerpo k' (i + 1) acc'
  end.

(** The values that [generarReporte] computes and prints; an entry of
    [rep_horasPico] or [rep_horasValle] is an hour with its occupancy,
    a row of [rep_tabla] an hour, its occupancy and its percentage. *)
Record Reporte : Set := {
  rep_maxOcupacion : Z;
  rep_horasPico : list (Z * Z);
  rep_minOcupacion : Z;
  rep_horasValle : list (Z * Z);
  rep_aceptadas : Z;
  rep_reprogramadas : Z;
  rep_negadas : Z;
  rep_total : Z;
  rep_tabla : list (Z * Z * Z)
}.

Definition generarReporte (cfg : Config) (st : Estado) : option Reporte :=
  let tabla := ocupacionPorHora st in
  let horas := Z.to_nat MAX_HORAS in
  maxOcupacion ←
    para_cada_hora tabla
      (fun _ c m => Some (if c >? m then c else m)) horas 0 0;
  horasPico ←
    para_cada_hora tabla
      (fun i c l =>
         Some (if (c =? maxOcupacion) && (maxOcupacion >? 0)
               then l ++ [(HORAS_MIN + i, c)] else l)) horas 0 [];
  minOcupacion ←
    para_cada_hora tabla
      (fun _ c m => Some (if c <? m then c else m)) horas 0
      (suma_int (aforoMaximo cfg) 1);
  horasValle ←
    para_cada_hora tabla
      (fun i c l =>
         Some (if c =? minOcupacion then l ++ [(HORAS_MIN + i, c)] else l))
      horas 0 [];
  filas ←
    para_cada_hora tabla
      (fun i c l =>
         if HORAS_MIN + i <=? horaFinal cfg then
           porcentaje ← dividir (producto_int c 100) (aforoMaximo cfg);
           Some (l ++ [(HORAS_MIN + i, c, porcentaje)])
         else Some l) horas 0 [];
  Some {| rep_maxOcupacion := maxOcupacion;
          rep_horasPico := horasPico;
          rep_minOcupacion := minOcupacion;
          rep_horasValle := horasValle;
          rep_aceptadas := solicitudesAceptadas st;
          rep_reprogramadas := solicitudesReprogramadas st;
          rep_negadas := solicitudesNegadas st;
          rep_total := solicitudesAceptadas st + solicitudesReprogramadas st
                       + solicitudesNegadas st;
          rep_tabla := filas |}.

(** * The agent

    The part of [agente.c] that turns a line of the requests file into
    a message for the controller, and the loop that opens the pipe of
    the controller.  A C string is the [string] of its characters before the
    terminating zero. *)

Definition MAX_LINEA : Z := 256.

(** ** The C library functions the agent calls *)

(** [strspn]: the string after its leading delimiters. *)
Fixpoint saltar_delimitadores (d : ascii) (s : string) : string :=
  match s with
  | EmptyString => EmptyString
  | String c resto =>
      if Ascii.eqb c d then saltar_delimitadores d resto else s
  end.

(** [strcspn]: the token up to the first delimiter, and what follows
    the delimiter that ends it. *)
Fixpoint cortar_token (d : ascii) (s : string) : string * string :=
  match s with
  | EmptyString => (EmptyString, EmptyString)
  | String c resto =>
      if Ascii.eqb c d then (EmptyString, resto)
      else let '(token, sigue) := cortar_token d resto in
           (String c token, sigue)
  end.

(** One call of [strtok] on what is left of the string, for a single
    delimiter: [None] is the null pointer, and the second component is
    what is left for the next call. *)
Definition strtok (d : ascii) (s : string) : option string * string :=
  match saltar_delimitadores d s with
  | EmptyString => (None, EmptyString)
  | s' => let '(token, sigue) := cortar_token d s' in (Some token, sigue)
  end.

(** [isspace] in the C locale. *)
Definition es_espacio (c : ascii) : bool :=
  let n := Z.of_N (N_of_ascii c) in
  (n =? 32) || ((9 <=? n) && (n <=? 13)).

Definition digito (c : ascii) : option Z :=
  let n := Z.of_N (N_of_ascii c) in
  if (48 <=? n) && (n <=? 57) then Some (n - 48) else None.

Fixpoint saltar_espacios (s : string) : string :=
  match s with
  | EmptyString => EmptyString
  | String c resto => if es_espacio c then saltar_espacios resto else s
  end.

Fixpoint leer_digitos (s : string) (acc : Z) : Z :=
  match s with
  | EmptyString => acc
  | String c resto =>
      match digito c with
      | Some d => leer_digitos resto (acc * 10 + d)
      | None => acc
      end
  end.

Definition LONG_MIN : Z := -9223372036854775808.
Definition LONG_MAX : Z := 9223372036854775807.

(** The number that a string spells: leading white space, an optional
    sign, then the decimal digits up to the first character that is not
    one. *)
Definition valor_decimal (s : string) : Z :=
  match saltar_espacios s with
  | String "-"%char resto => - leer_digitos resto 0
  | String "+"%char resto => leer_digitos resto 0
  | s' => leer_digitos s' 0
  end.

(** [strtol(s, NULL, 10)]: the number the string spells, replaced by the
    nearest bound of [long] when it is outside its range. *)
Definition strtol (s : string) : Z :=
  Z.max LONG_MIN (Z.min LONG_MAX (valor_decimal s)).

(** [atoi], which the GNU C library defines as
    [(int) strtol(s, NULL, 10)]. *)
Definition atoi (s : string) : Z := a_int (strtol s).

(** ** A line of the requests file *)

Record Solicitud : Set := {
  sol_familia : string;
  sol_hora : Z;
  sol_personas : Z
}.

(** [parsearLineaCSV].  The loop that follows the copy of the first
    token advances the local pointer [familia] past leading blanks and
    nothing reads it afterwards: the caller's buffer stays as the copy
    wrote it. *)
Definition parsearLineaCSV (linea : string) : Solicitud :=
  let lineaCopia := strncpy linea (Z.to_nat (MAX_LINEA - 1)) in
  let '(token1, resto1) := strtok ","%char lineaCopia in
  let '(token2, resto2) := strtok ","%char resto1 in
  let '(token3, _) := strtok ","%char resto2 in
  {| sol_familia :=
       match token1 with
       | Some t => strncpy t (Z.to_nat (MAX_NOMBRE - 1))
       | None => EmptyString
       end;
     sol_hora := match token2 with Some t => atoi t | None => 0 end;
     sol_personas := match token3 with Some t => atoi t | None => 0 end |}.

(** The line up to its first line feed, as [strcspn] cuts it. *)
Definition cortar_salto (linea : string) : string :=
  fst (cortar_token "010"%char linea).

(** The body of the loop of [procesarSolicitudes] for one line read by
    [fgets]: an empty line is skipped, any other becomes a request. *)
Definition procesarLinea (nombreAgente pipeRespuesta linea : string)
    : option MensajeAgente :=
  match cortar_salto linea with
  | EmptyString => None
  | linea' =>
      let sol := parsearLineaCSV linea' in
      Some {| m_tipo := MSG_SOLICITUD_RESERVA;
              m_nombreAgente := copiarNombre nombreAgente;
              m_pipeRespuesta := copiarNombre pipeRespuesta;
              m_nombreFamilia := copiarNombre (sol_familia sol);
              m_horaSolicitada := sol_hora sol;
              m_numPersonas := sol_personas sol |}
  end.

(** ** Registration *)

(** The message of [registrarseConControlador]. *)
Definition mensajeRegistro (nombreAgente pipeRespuesta : string)
    : MensajeAgente :=
  {| m_tipo := MSG_REGISTRO;
     m_nombreAgente := copiarNombre nombreAgente;
     m_pipeRespuesta := copiarNombre pipeRespuesta;
     m_nombreFamilia := EmptyString;
     m_horaSolicitada := 0;
     m_numPersonas := 0 |}.

(** ** Opening the pipe of the controller *)

(** The outcome of one [open(pipeControlador, O_WRONLY)]. *)
Inductive Apertura : Set :=
| Abierta
| SinLector
| OtroError.

Inductive Conexion : Set :=
| Conectado (intentos : nat)
| Agotado
| ErrorFatal.

(** The loop of [enviarMensaje]; [aperturas i] is the outcome of the
    call to [open] made after [i] failed attempts, [k] counts the
    attempts left. *)
Fixpoint abrir_desde (aperturas : nat -> Apertura) (k intentos : nat)
    : Conexion :=
  match k with
  | O => Agotado
  | S k' =>
      match aperturas intentos with
      | Abierta => Conectado intentos
      | SinLector => abrir_desde aperturas k' (S intentos)
      | OtroError => ErrorFatal
      end
  end.

Definition maxIntentos : nat := 5.

Definition abrirPipeControlador (aperturas : nat -> Apertura) : Conexion :=
  abrir_desde aperturas maxIntentos 0.

(** ** Reading the model *)

(** The counter of hour [h], as the spec writes [counter[h]]. *)
Definition contador (tabla : list Z) (h : Z) : Z :=
  default 0 (leer tabla (indiceHora h)).

(** The table has the [MAX_HORAS] cells of its declaration. *)
Definition tabla_ok (tabla : list Z) : Prop :=
  Z.of_nat (length tabla) = MAX_HORAS.

(** Hour [x] is visited by the guarded loop of [k] turns that starts at
    [h]: both lie in the operating range and [x] is within the window. *)
Definition cubre (k : nat) (h x : Z) : bool :=
  validarHora h && validarHora x && (h <=? x) && (x <? h + Z.of_nat k).

(** A candidate start hour as the spec defines validity: every hour of
    its window is within range and has room for the party. *)
Definition candidata_valida (tabla : list Z) (aforo numPersonas h : Z) : Prop :=
  forall offset, 0 <= offset < DURACION_RESERVA ->
    validarHora (h + offset) = true /\
    contador tabla (h + offset) + numPersonas <= aforo.

(** No hour of the operating window is booked above the capacity. *)
Definition sin_sobrecupo (cfg : Config) (tabla : list Z) : Prop :=
  forall h, validarHora h = true -> contador tabla h <= aforoMaximo cfg.

(** The state fits its arrays: the table is whole and one more
    reservation record can be stored. *)
Definition estado_ok (st : Estado) : Prop :=
  tabla_ok (ocupacionPorHora st) /\ numReservas st < MAX_RESERVAS.

(** The reservation requests among the events of a run. *)
Definition es_solicitud (ev : Evento) : option MensajeAgente :=
  match ev with
  | EvMensaje msg =>
      match m_tipo msg with
      | MSG_SOLICITUD_RESERVA => Some msg
      | _ => None
      end
  | EvTick => None
  end.

Definition solicitudes (evs : list Evento) : list MensajeAgente :=
  omap es_solicitud evs.

(** Hour [x] is one of the hours a reservation starting at [h] is
    checked and charged for. *)
Definition cubierta (h x : Z) : bool :=
  cubre (Z.to_nat DURACION_RESERVA) h x.



(** ** Reading the sums of the machine *)

(** Adding the party [n] to the counter of any hour of the operating
    window gives a sum that fits an [int]. *)
Definition sin_desborde (tabla : list Z) (n : Z) : Prop :=
  forall h, validarHora h = true -> en_int (contador tabla h + n).

(** The candidate test as the machine evaluates it. *)
Definition candidata_int (tabla : list Z) (aforo numPersonas h : Z) : Prop :=
  forall offset, 0 <= offset < DURACION_RESERVA ->
    validarHora (h + offset) = true /\
    suma_int (contador tabla (h + offset)) numPersonas <= aforo.

(** The availability test as the machine evaluates it. *)
Definition cupo_int (cfg : Config) (st : Estado) (h n : Z) : Prop :=
  forall x, cubierta h x = true ->
    suma_int (contador (ocupacionPorHora st) x) n <= aforoMaximo cfg.

(** What the commit block leaves: one record appended, the covered
    counters replaced by their machine sum with the party size, every
    other counter and the clock as before. *)
Definition reserva_guardada (st : Estado) (msg : MensajeAgente) (h : Z)
    (st' : Estado) : Prop :=
  horaActual st' = horaActual st /\
  reservas st' = reservas st ++ [nuevaReserva msg h] /\
  agentesRegistrados st' = agentesRegistrados st /\
  tabla_ok (ocupacionPorHora st') /\
  forall x, validarHora x = true ->
    contador (ocupacionPorHora st') x
    = if cubierta h x
      then suma_int (contador (ocupacionPorHora st) x) (m_numPersonas msg)
      else contador (ocupacionPorHora st) x.

(** A stored reservation ends no earlier than it starts. *)
Definition bien_formada (r : Reserva) : Prop := r_horaInicio r <= r_horaFin r.

(** ** Reading the decisions *)

(** Every hour a reservation at [h] is checked for has room for [n]. *)
Definition con_cupo (cfg : Config) (st : Estado) (h n : Z) : Prop :=
  forall x, cubierta h x = true ->
    contador (ocupacionPorHora st) x + n <= aforoMaximo cfg.

(** [ha] is the first valid candidate of the search range. *)
Definition primera_candidata (cfg : Config) (st : Estado) (n ha : Z) : Prop :=
  horaActual st <= ha <= horaFinal cfg - DURACION_RESERVA + 1 /\
  candidata_valida (ocupacionPorHora st) (aforoMaximo cfg) n ha /\
  forall h', horaActual st <= h' < ha ->
    ~ candidata_valida (ocupacionPorHora st) (aforoMaximo cfg) n h'.

(** The search range holds no valid candidate. *)
Definition sin_candidata (cfg : Config) (st : Estado) (n : Z) : Prop :=
  forall h', horaActual st <= h' <= horaFinal cfg - DURACION_RESERVA + 1 ->
    ~ candidata_valida (ocupacionPorHora st) (aforoMaximo cfg) n h'.

(** The same two readings of the search with the candidate test as the
    machine evaluates it. *)
Definition primera_int (cfg : Config) (st : Estado) (n ha : Z) : Prop :=
  horaActual st <= ha <= horaFinal cfg - DURACION_RESERVA + 1 /\
  candidata_int (ocupacionPorHora st) (aforoMaximo cfg) n ha /\
  forall h', horaActual st <= h' < ha ->
    ~ candidata_int (ocupacionPorHora st) (aforoMaximo cfg) n h'.

Definition sin_candidata_int (cfg : Config) (st : Estado) (n : Z) : Prop :=
  forall h', horaActual st <= h' <= horaFinal cfg - DURACION_RESERVA + 1 ->
    ~ candidata_int (ocupacionPorHora st) (aforoMaximo cfg) n h'.

Definition causa_aprobada (cfg : Config) (st : Estado) (msg : MensajeAgente)
    : Prop :=
  validarHora (m_horaSolicitada msg) = true /\
  m_numPersonas msg <= aforoMaximo cfg /\
  horaActual st <= m_horaSolicitada msg <= horaFinal cfg /\
  con_cupo cfg st (m_horaSolicitada msg) (m_numPersonas msg).

Definition causa_reprogramada (cfg : Config) (st : Estado)
    (msg : MensajeAgente) : Prop :=
  validarHora (m_horaSolicitada msg) = true /\
  m_numPersonas msg <= aforoMaximo cfg /\
  (m_horaSolicitada msg < horaActual st \/
   (m_horaSolicitada msg <= horaFinal cfg /\
    ~ con_cupo cfg st (m_horaSolicitada msg) (m_numPersonas msg))) /\
  exists ha, primera_candidata cfg st (m_numPersonas msg) ha.

Definition causa_negada (cfg : Config) (st : Estado) (msg : MensajeAgente)
    : Prop :=
  validarHora (m_horaSolicitada msg) = false \/
  aforoMaximo cfg < m_numPersonas msg \/
  (horaActual st <= m_horaSolicitada msg /\
   horaFinal cfg < m_horaSolicitada msg) \/
  ((m_horaSolicitada msg < horaActual st \/
    ~ con_cupo cfg st (m_horaSolicitada msg) (m_numPersonas msg)) /\
   sin_candidata cfg st (m_numPersonas msg)).

(** ** Reading the store *)

(** Hour [x] lies between the start and the end of the record. *)
Definition ocupa (r : Reserva) (x : Z) : bool :=
  (r_horaInicio r <=? x) && (x <=? r_horaFin r).

(** The people of the stored reservations that hold hour [x]. *)
Definition personas_en (rs : list Reserva) (x : Z) : Z :=
  foldr (fun r acc => (if ocupa r x then r_numPersonas r else 0) + acc) 0 rs.

(** The people of the stored reservations that start at hour [x]. *)
Definition personas_desde (rs : list Reserva) (x : Z) : Z :=
  foldr (fun r acc =>
           (if r_horaInicio r =? x then r_numPersonas r else 0) + acc) 0 rs.

(** [r'] is [r] up to the [activa] field. *)
Definition misma_reserva (r r' : Reserva) : Prop :=
  r_nombreFamilia r' = r_nombreFamilia r /\
  r_nombreAgente r' = r_nombreAgente r /\
  r_horaInicio r' = r_horaInicio r /\
  r_horaFin r' = r_horaFin r /\
  r_numPersonas r' = r_numPersonas r.

(** What holds of a record stored during a day configured by [cfg],
    seen when the clock shows [hora]. *)
Definition registro_ok (cfg : Config) (hora : Z) (r : Reserva) : Prop :=
  validarHora (r_horaInicio r) = true /\
  r_horaFin r = r_horaInicio r + DURACION_RESERVA - 1 /\
  horaInicial cfg <= r_horaInicio r <= horaFinal cfg /\
  r_numPersonas r <= aforoMaximo cfg /\
  (r_activa r = true -> r_horaInicio r <= hora <= r_horaFin r).

Definition total_solicitudes (st : Estado) : Z :=
  solicitudesAceptadas st + solicitudesReprogramadas st + solicitudesNegadas st.

(** The state of a day in progress. *)
Definition dia_ok (cfg : Config) (st : Estado) : Prop :=
  tabla_ok (ocupacionPorHora st) /\
  horaInicial cfg <= horaActual st <= horaFinal cfg + 1 /\
  Forall (registro_ok cfg (horaActual st)) (reservas st) /\
  numReservas st = solicitudesAceptadas st + solicitudesReprogramadas st /\
  (0 <= solicitudesAceptadas st /\ 0 <= solicitudesReprogramadas st /\
   0 <= solicitudesNegadas st) /\
  numAgentes st <= MAX_AGENTES.

(** The table of a day in which no sum has overflowed: no stored party
    is negative, no hour is booked above the capacity, and every counter
    is the sum of the parties that hold its hour. *)
Definition dia_suma (cfg : Config) (st : Estado) : Prop :=
  Forall (fun r => 0 <= r_numPersonas r) (reservas st) /\
  sin_sobrecupo cfg (ocupacionPorHora st) /\
  forall x, validarHora x = true ->
    contador (ocupacionPorHora st) x = personas_en (reservas st) x.

(** The registration messages among the events of a run. *)
Definition es_registro (ev : Evento) : option MensajeAgente :=
  match ev with
  | EvMensaje msg =>
      match m_tipo msg with
      | MSG_REGISTRO => Some msg
      | _ => None
      end
  | EvTick => None
  end.

Definition registros (evs : list Evento) : list MensajeAgente :=
  omap es_registro evs.

(** ** Reading the lines of the requests file *)

(** No character of the string is the delimiter. *)
Fixpoint sin_delimitador (d : ascii) (s : string) : Prop :=
  match s with
  | EmptyString => True
  | String c resto => c <> d /\ sin_delimitador d resto
  end.

(** A field of a line: not empty and free of commas. *)
Definition campo (s : string) : Prop :=
  s <> EmptyString /\ sin_delimitador ","%char s.

(** A run of [n] commas. *)
Fixpoint comas (n : nat) : string :=
  match n with
  | O => EmptyString
  | S n' => String ","%char (comas n')
  end.


(** ** Scenarios *)

Definition cfg_ejemplo : Config :=
  {| horaInicial := 7; horaFinal := 19; segundosPorHora := 1; aforoMaximo := 100 |}.

Definition solicitud (familia : string) (hora personas : Z) : MensajeAgente :=
  {| m_tipo := MSG_SOLICITUD_RESERVA;
     m_nombreAgente := "agente1";
     m_pipeRespuesta := "pipe_agente1";
     m_nombreFamilia := familia;
     m_horaSolicitada := hora;
     m_numPersonas := personas |}.

Definition estado_en (hora : Z) (tabla : list Z) (rs : list Reserva) : Estado :=
  {| horaActual := hora;
     ocupacionPorHora := tabla;
     reservas := rs;
     agentesRegistrados := [];
     solicitudesNegadas := 0;
     solicitudesAceptadas := 0;
     solicitudesReprogramadas := 0 |}.

(** Hours 12 and 13 are full, every other hour is free. *)
Definition tabla_mediodia : list Z :=
  [0; 0; 0; 0; 0; 100; 100; 0; 0; 0; 0; 0; 0].

(** The last hour of the day with nothing booked. *)
Definition estado_ultima_hora : Estado :=
  estado_en 19 (replicate (Z.to_nat MAX_HORAS) 0) [].

Definition reserva_ejemplo (familia : string) (inicio : Z) (activa : bool)
    : Reserva :=
  {| r_nombreFamilia := familia;
     r_nombreAgente := "agente1";
     r_horaInicio := inicio;
     r_horaFin := inicio + DURACION_RESERVA - 1;
     r_numPersonas := 4;
     r_activa := activa |}.

(** Hour 9 with one family inside since 8, one due at 10, one at 11. *)
Definition estado_a_las_9 : Estado :=
  estado_en 9 [0; 4; 4; 4; 8; 4; 0; 0; 0; 0; 0; 0; 0]
    [reserva_ejemplo "P" 8 true; reserva_ejemplo "Q" 10 false;
     reserva_ejemplo "R" 11 false].

Definition dia_ejemplo : list Evento :=
  [EvMensaje (solicitud "A" 10 50); EvMensaje (solicitud "B" 10 60);
   EvTick; EvMensaje (solicitud "C" 7 100); EvTick;
   EvMensaje (solicitud "D" 8 100)].

(** * Properties *)

(** ** Hours and indices *)

Lemma validarHora_true (h : Z) :
  validarHora h = true <-> HORAS_MIN <= h <= HORAS_MAX.
Proof.
  unfold validarHora. rewrite andb_true_iff, Z.leb_le, Z.leb_le. tauto.
Qed.

Lemma validarHora_false (h : Z) :
  validarHora h = false <-> h < HORAS_MIN \/ HORAS_MAX < h.
Proof.
  unfold validarHora. rewrite andb_false_iff, !Z.leb_gt. tauto.
Qed.

Lemma indiceHora_en_rango (h : Z) :
  validarHora h = true -> 0 <= indiceHora h < MAX_HORAS.
Proof.
  rewrite validarHora_true. unfold indiceHora, MAX_HORAS. lia.
Qed.

Lemma indiceHora_iny (h x : Z) : indiceHora h = indiceHora x -> h = x.
Proof. unfold indiceHora. lia. Qed.

Lemma cubre_true (k : nat) (h x : Z) :
  cubre k h x = true <->
  validarHora h = true /\ validarHora x = true /\ h <= x < h + Z.of_nat k.
Proof.
  unfold cubre. rewrite !andb_true_iff, Z.leb_le, Z.ltb_lt. tauto.
Qed.

(** ** Table cells *)

Lemma leer_valida (tabla : list Z) (h : Z) :
  tabla_ok tabla -> validarHora h = true ->
  leer tabla (indiceHora h) = Some (contador tabla h).
Proof.
  intros Hok Hh. apply indiceHora_en_rango in Hh as Hi.
  unfold contador, leer. destruct (Z.leb_spec 0 (indiceHora h)); [|lia].
  destruct (lookup_lt_is_Some_2 tabla (Z.to_nat (indiceHora h))) as [c Hc].
  - unfold tabla_ok in Hok. lia.
  - now rewrite Hc.
Qed.

Lemma escribir_valida (tabla : list Z) (h v : Z) :
  tabla_ok tabla -> validarHora h = true ->
  escribir tabla (indiceHora h) v
  = Some (<[Z.to_nat (indiceHora h) := v]> tabla).
Proof.
  intros Hok Hh. apply indiceHora_en_rango in Hh as Hi.
  unfold escribir, tabla_ok in *.
  destruct (Z.leb_spec 0 (indiceHora h)); [|lia].
  destruct (Z.ltb_spec (indiceHora h) (Z.of_nat (length tabla))); [|lia].
  reflexivity.
Qed.

Lemma tabla_ok_insert (tabla : list Z) (i : nat) (v : Z) :
  tabla_ok tabla -> tabla_ok (<[i := v]> tabla).
Proof. unfold tabla_ok. now rewrite length_insert. Qed.

Lemma contador_insert_eq (tabla : list Z) (h v : Z) :
  tabla_ok tabla -> validarHora h = true ->
  contador (<[Z.to_nat (indiceHora h) := v]> tabla) h = v.
Proof.
  intros Hok Hh. apply indiceHora_en_rango in Hh as Hi.
  unfold contador, leer. destruct (Z.leb_spec 0 (indiceHora h)); [|lia].
  rewrite list_lookup_insert_eq; [reflexivity|].
  unfold tabla_ok in Hok. lia.
Qed.

Lemma contador_insert_ne (tabla : list Z) (h x v : Z) :
  validarHora h = true -> validarHora x = true -> x <> h ->
  contador (<[Z.to_nat (indiceHora h) := v]> tabla) x = contador tabla x.
Proof.
  intros Hh Hx Hne.
  apply indiceHora_en_rango in Hh. apply indiceHora_en_rango in Hx.
  unfold contador, leer. destruct (Z.leb_spec 0 (indiceHora x)); [|lia].
  rewrite list_lookup_insert_ne; [reflexivity|].
  intros Heq. apply Hne. apply indiceHora_iny. lia.
Qed.

Lemma tabla_ok_inicial : tabla_ok (replicate (Z.to_nat MAX_HORAS) 0).
Proof. unfold tabla_ok. rewrite length_replicate. reflexivity. Qed.

Lemma contador_inicial (h : Z) :
  contador (replicate (Z.to_nat MAX_HORAS) 0) h = 0.
Proof.
  unfold contador, leer. destruct (0 <=? indiceHora h); [|reflexivity].
  destruct (replicate _ _ !! _) as [c|] eqn:Hc; [|reflexivity].
  apply lookup_replicate in Hc as [-> _]. reflexivity.
Qed.

(** ** Machine sums *)

Lemma a_int_exacto (z : Z) : en_int z -> a_int z = z.
Proof.
  unfold en_int, a_int, INT_MIN, INT_MAX. intros H.
  rewrite Z.mod_small by lia. lia.
Qed.

Lemma suma_int_exacta (tabla : list Z) (n h : Z) :
  sin_desborde tabla n -> validarHora h = true ->
  suma_int (contador tabla h) n = contador tabla h + n.
Proof. intros Hsin Hh. apply a_int_exacto. now apply Hsin. Qed.

Lemma candidata_int_valida (tabla : list Z) (aforo n h : Z) :
  sin_desborde tabla n ->
  candidata_int tabla aforo n h <-> candidata_valida tabla aforo n h.
Proof.
  intros Hsin. unfold candidata_int, candidata_valida.
  split; intros H offset Ho; destruct (H offset Ho) as [Hv Hle];
    (split; [exact Hv|]);
    [rewrite <- (suma_int_exacta _ _ _ Hsin Hv)
    |rewrite (suma_int_exacta _ _ _ Hsin Hv)]; exact Hle.
Qed.

(** A table without overbooking whose counters are values of [int],
    under a capacity whose double fits an [int], takes any party from 0
    to the capacity without overflow. *)
Lemma sin_desborde_aforo (cfg : Config) (tabla : list Z) (n : Z) :
  2 * aforoMaximo cfg <= INT_MAX ->
  sin_sobrecupo cfg tabla ->
  (forall h, validarHora h = true -> INT_MIN <= contador tabla h) ->
  0 <= n <= aforoMaximo cfg ->
  sin_desborde tabla n.
Proof.
  intros Haforo Hinv Hmin Hn h Hh. specialize (Hinv h Hh).
  specialize (Hmin h Hh). unfold en_int, INT_MIN, INT_MAX in *. lia.
Qed.

(** The counters of a thirteen-cell table lie between its least and its
    greatest cell, so the table of the scenarios takes a small party
    without overflow. *)
Lemma sin_desborde_celdas (tabla : list Z) (n minimo maximo : Z) :
  Forall (fun c => minimo <= c <= maximo) tabla ->
  minimo <= 0 <= maximo ->
  INT_MIN <= minimo + n -> maximo + n <= INT_MAX ->
  sin_desborde tabla n.
Proof.
  intros Hceldas H0 Hmin Hmax h _. unfold contador, leer.
  assert (minimo <= default 0
            (if 0 <=? indiceHora h
             then tabla !! Z.to_nat (indiceHora h) else None) <= maximo)
    as Hc; [|unfold en_int; lia].
  destruct (0 <=? indiceHora h); [|simpl; lia].
  destruct (tabla !! Z.to_nat (indiceHora h)) as [c|] eqn:Hl; [|simpl; lia].
  rewrite Forall_lookup in Hceldas. exact (Hceldas _ _ Hl).
Qed.

Ltac celdas_entre minimo maximo :=
  apply (sin_desborde_celdas _ _ minimo maximo);
  [repeat (apply Forall_cons_2; [lia|]); apply Forall_nil_2
  | lia | unfold INT_MIN; simpl; lia | unfold INT_MAX; simpl; lia].

(** ** The guarded loops *)

Ltac no_cubre :=
  symmetry; apply not_true_is_false; rewrite cubre_true;
  intros (? & ? & ?); first [lia | congruence].

Ltac si_cubre :=
  symmetry; apply cubre_true; repeat split; first [assumption | lia].

Section Bucles.
Variables aforo numPersonas : Z.

(** The update loop stays inside the table, keeps its size, and adds
    the party, as the machine adds, to the covered hours only. *)
Lemma ocupar_spec (k : nat) : forall (tabla : list Z) (h : Z),
  tabla_ok tabla ->
  exists tabla',
    ocupar tabla numPersonas k h = Some tabla' /\
    tabla_ok tabla' /\
    forall x, validarHora x = true ->
      contador tabla' x
      = if cubre k h x then suma_int (contador tabla x) numPersonas
        else contador tabla x.
Proof.
  induction k as [|k IH]; intros tabla h Hok; simpl.
  - exists tabla. repeat split; [assumption|]. intros x Hx.
    now replace (cubre 0 h x) with false by no_cubre.
  - destruct (validarHora h) eqn:Hh.
    + rewrite (leer_valida _ _ Hok Hh). simpl.
      rewrite (escribir_valida _ _ _ Hok Hh). simpl.
      set (tabla1 := <[_ := _]> tabla).
      destruct (IH tabla1 (h + 1)) as (tabla' & Hrun & Hok' & Hcnt).
      { now apply tabla_ok_insert. }
      exists tabla'. repeat split; [assumption..|]. intros x Hx.
      rewrite (Hcnt x Hx).
      destruct (Z.eq_dec x h) as [->|Hne].
      * subst tabla1. rewrite (contador_insert_eq _ _ _ Hok Hh).
        replace (cubre k (h + 1) h) with false by no_cubre.
        now replace (cubre (S k) h h) with true by si_cubre.
      * subst tabla1. rewrite (contador_insert_ne _ _ _ _ Hh Hx Hne).
        destruct (cubre k (h + 1) x) eqn:Hc1.
        -- apply cubre_true in Hc1.
           destruct Hc1 as (? & ? & ?).
           replace (cubre (S k) h x) with true by si_cubre. reflexivity.
        -- replace (cubre (S k) h x) with false; [reflexivity|].
           symmetry. apply not_true_is_false. intros Hc.
           apply cubre_true in Hc as (_ & _ & Hr).
           assert (cubre k (h + 1) x = true); [|congruence].
           apply cubre_true. repeat split; try assumption; try lia.
           apply validarHora_true. apply validarHora_true in Hh, Hx. lia.
    + exists tabla. repeat split; [assumption|]. intros x Hx.
      now replace (cubre (S k) h x) with false by no_cubre.
Qed.

(** The availability loop stays inside the table and answers yes
    exactly when every covered hour has room. *)
Lemma verificar_spec (tabla : list Z) (k : nat) : forall (h : Z),
  tabla_ok tabla ->
  exists b,
    verificar_desde tabla aforo numPersonas k h = Some b /\
    (b = true <->
     forall x, cubre k h x = true -> suma_int (contador tabla x) numPersonas <= aforo).
Proof.
  induction k as [|k IH]; intros h Hok; simpl.
  - exists true. split; [reflexivity|]. split; [|reflexivity].
    intros _ x Hc. apply cubre_true in Hc as (_ & _ & Hr). lia.
  - destruct (validarHora h) eqn:Hh.
    + rewrite (leer_valida _ _ Hok Hh). simpl.
      destruct (Z.gtb_spec (suma_int (contador tabla h) numPersonas) aforo)
        as [Hgt|Hle].
      * exists false. split; [reflexivity|]. split; [discriminate|].
        intros Hall. specialize (Hall h). 
        assert (cubre (S k) h h = true) as Hc
          by (apply cubre_true; repeat split; first [assumption | lia]).
        specialize (Hall Hc). lia.
      * destruct (IH (h + 1) Hok) as (b & Hrun & Hb).
        exists b. split; [assumption|]. rewrite Hb. split.
        -- intros Hall x Hc. apply cubre_true in Hc as (_ & Hx & Hr).
           destruct (Z.eq_dec x h) as [->|Hne]; [assumption|].
           apply Hall. apply cubre_true. repeat split; try assumption; try lia.
           apply validarHora_true. apply validarHora_true in Hh, Hx. lia.
        -- intros Hall x Hc. apply Hall. apply cubre_true in Hc as (_ & Hx & Hr).
           apply cubre_true. repeat split; try assumption; lia.
    + exists true. split; [reflexivity|]. split; [|reflexivity].
      intros _ x Hc. apply cubre_true in Hc as (Hh' & _). congruence.
Qed.

(** The inner loop of the search: yes exactly when each remaining
    offset names a valid hour with room. *)
Lemma ventana_spec (tabla : list Z) (h : Z) (k : nat) : forall (offset : Z),
  tabla_ok tabla ->
  exists b,
    ventana_disponible tabla aforo numPersonas h k offset = Some b /\
    (b = true <->
     forall o, offset <= o < offset + Z.of_nat k ->
       validarHora (h + o) = true /\
       suma_int (contador tabla (h + o)) numPersonas <= aforo).
Proof.
  induction k as [|k IH]; intros offset Hok; simpl.
  - exists true. split; [reflexivity|]. split; [|reflexivity]. intros _ o Ho. lia.
  - destruct (validarHora (h + offset)) eqn:Hh; simpl.
    + rewrite (leer_valida _ _ Hok Hh). simpl.
      destruct (Z.gtb_spec (suma_int (contador tabla (h + offset)) numPersonas)
                  aforo)
        as [Hgt|Hle].
      * exists false. split; [reflexivity|]. split; [discriminate|].
        intros Hall. destruct (Hall offset) as [_ Hle]; lia.
      * destruct (IH (offset + 1) Hok) as (b & Hrun & Hb).
        exists b. split; [assumption|]. rewrite Hb. split.
        -- intros Hall o Ho.
           destruct (Z.eq_dec o offset) as [->|Hne]; [tauto|].
           apply Hall. lia.
        -- intros Hall o Ho. apply Hall. lia.
    + exists false. split; [reflexivity|]. split; [discriminate|].
      intros Hall. destruct (Hall offset) as [Hv _]; [lia|congruence].
Qed.

Lemma ventana_candidata (tabla : list Z) (h : Z) :
  tabla_ok tabla ->
  exists b,
    ventana_disponible tabla aforo numPersonas h
      (Z.to_nat DURACION_RESERVA) 0 = Some b /\
    (b = true <-> candidata_int tabla aforo numPersonas h).
Proof.
  intros Hok. destruct (ventana_spec tabla h (Z.to_nat DURACION_RESERVA) 0 Hok)
    as (b & Hrun & Hb).
  exists b. split; [assumption|]. rewrite Hb. unfold candidata_int.
  replace (0 + Z.of_nat (Z.to_nat DURACION_RESERVA)) with DURACION_RESERVA
    by reflexivity.
  reflexivity.
Qed.

(** The outer loop of the search returns the first valid candidate of
    the [k] hours from [h0] on, or none when none of them is valid. *)
Lemma buscar_spec (tabla : list Z) (k : nat) : forall (h0 : Z),
  tabla_ok tabla ->
  exists r,
    buscar_desde tabla aforo numPersonas k h0 = Some r /\
    match r with
    | Some h =>
        h0 <= h < h0 + Z.of_nat k /\
        candidata_int tabla aforo numPersonas h /\
        forall h', h0 <= h' < h ->
          ~ candidata_int tabla aforo numPersonas h'
    | None =>
        forall h', h0 <= h' < h0 + Z.of_nat k ->
          ~ candidata_int tabla aforo numPersonas h'
    end.
Proof.
  induction k as [|k IH]; intros h0 Hok; cbn [buscar_desde].
  - exists None. split; [reflexivity|]. intros h' Hh'. lia.
  - destruct (ventana_candidata tabla h0 Hok) as (b & Hrun & Hb).
    rewrite Hrun. simpl. destruct b.
    + exists (Some h0). split; [reflexivity|]. split; [lia|]. split.
      * now apply Hb.
      * intros h' Hh'. lia.
    + destruct (IH (h0 + 1) Hok) as (r & Hr & Hspec).
      exists r. split; [assumption|].
      assert (~ candidata_int tabla aforo numPersonas h0) as Hno.
      { intros Hc. apply Hb in Hc. discriminate. }
      destruct r as [h|].
      * destruct Hspec as (Hrange & Hval & Hmin). split; [lia|]. split.
        -- assumption.
        -- intros h' Hh'. destruct (Z.eq_dec h' h0) as [->|Hne]; [assumption|].
           apply Hmin. lia.
      * intros h' Hh'. destruct (Z.eq_dec h' h0) as [->|Hne]; [assumption|].
        apply Hspec. lia.
Qed.

End Bucles.

(** ** The commit block *)

Lemma reservar_spec (st : Estado) (msg : MensajeAgente) (h : Z) :
  estado_ok st ->
  exists st',
    reservar st msg h = Some st' /\
    reserva_guardada st msg h st' /\
    solicitudesNegadas st' = solicitudesNegadas st /\
    solicitudesAceptadas st' = solicitudesAceptadas st /\
    solicitudesReprogramadas st' = solicitudesReprogramadas st.
Proof.
  intros [Hok Hcap]. unfold reservar.
  destruct (Z.ltb_spec (numReservas st) MAX_RESERVAS); [|lia].
  destruct (ocupar_spec (m_numPersonas msg) (Z.to_nat DURACION_RESERVA)
              (ocupacionPorHora st) h Hok) as (tabla' & Hrun & Hok' & Hcnt).
  rewrite Hrun. simpl. eexists. split; [reflexivity|].
  unfold reserva_guardada. simpl. repeat split; try assumption.
Qed.


Lemma reservar_inv (st : Estado) (msg : MensajeAgente) (h : Z) (st' : Estado) :
  tabla_ok (ocupacionPorHora st) ->
  reservar st msg h = Some st' ->
  reserva_guardada st msg h st' /\
  solicitudesNegadas st' = solicitudesNegadas st /\
  solicitudesAceptadas st' = solicitudesAceptadas st /\
  solicitudesReprogramadas st' = solicitudesReprogramadas st.
Proof.
  intros Hok Hres.
  destruct (Z.ltb_spec (numReservas st) MAX_RESERVAS) as [Hcap|Hcap].
  - destruct (reservar_spec st msg h (conj Hok Hcap)) as (st1 & Hrun & Hspec).
    congruence.
  - unfold reservar in Hres.
    destruct (Z.ltb_spec (numReservas st) MAX_RESERVAS); [lia|discriminate].
Qed.

(** ** The handler, path by path *)

Section Solicitud.
Variables (cfg : Config) (st : Estado) (msg : MensajeAgente).

Lemma procesar_fuera_de_rango :
  validarHora (m_horaSolicitada msg) = false ->
  procesarSolicitudReserva cfg st msg
  = Some (contarNegada st,
          respNegada st (TxtFueraDeRango HORAS_MIN HORAS_MAX)).
Proof. intros Hv. unfold procesarSolicitudReserva. now rewrite Hv. Qed.

Lemma procesar_excede_aforo :
  validarHora (m_horaSolicitada msg) = true ->
  aforoMaximo cfg < m_numPersonas msg ->
  procesarSolicitudReserva cfg st msg
  = Some (contarNegada st,
          respNegada st (TxtExcedeAforo (m_numPersonas msg) (aforoMaximo cfg))).
Proof.
  intros Hv Hn. unfold procesarSolicitudReserva. rewrite Hv. simpl.
  destruct (Z.gtb_spec (m_numPersonas msg) (aforoMaximo cfg)); [reflexivity|lia].
Qed.

Lemma procesar_extemporanea :
  validarHora (m_horaSolicitada msg) = true ->
  m_numPersonas msg <= aforoMaximo cfg ->
  m_horaSolicitada msg < horaActual st ->
  procesarSolicitudReserva cfg st msg
  = alternativa ← buscarHoraAlternativa cfg st (m_numPersonas msg);
    match alternativa with
    | Some horaAlternativa =>
        st' ← reservar (contarReprogramada st) msg horaAlternativa;
        Some (st', respReprog st horaAlternativa
                     (TxtReprogExtemporanea horaAlternativa
                        (horaAlternativa + DURACION_RESERVA)))
    | None => Some (contarNegada st, respNegada st TxtNegadaExtemporanea)
    end.
Proof.
  intros Hv Hn Hlate. unfold procesarSolicitudReserva. rewrite Hv. simpl.
  destruct (Z.gtb_spec (m_numPersonas msg) (aforoMaximo cfg)); [lia|].
  destruct (Z.ltb_spec (m_horaSolicitada msg) (horaActual st)); [reflexivity|lia].
Qed.

Lemma procesar_fuera_de_periodo :
  validarHora (m_horaSolicitada msg) = true ->
  m_numPersonas msg <= aforoMaximo cfg ->
  horaActual st <= m_horaSolicitada msg ->
  horaFinal cfg < m_horaSolicitada msg ->
  procesarSolicitudReserva cfg st msg
  = Some (contarNegada st, respNegada st TxtFueraDePeriodo).
Proof.
  intros Hv Hn Hlate Hfin. unfold procesarSolicitudReserva. rewrite Hv. simpl.
  destruct (Z.gtb_spec (m_numPersonas msg) (aforoMaximo cfg)); [lia|].
  destruct (Z.ltb_spec (m_horaSolicitada msg) (horaActual st)); [lia|].
  destruct (Z.gtb_spec (m_horaSolicitada msg) (horaFinal cfg)); [reflexivity|lia].
Qed.

Lemma procesar_a_tiempo :
  validarHora (m_horaSolicitada msg) = true ->
  m_numPersonas msg <= aforoMaximo cfg ->
  horaActual st <= m_horaSolicitada msg ->
  m_horaSolicitada msg <= horaFinal cfg ->
  procesarSolicitudReserva cfg st msg
  = disponible ← verificarDisponibilidad cfg st (m_horaSolicitada msg)
                   (m_numPersonas msg);
    if disponible : bool then
      st' ← reservar (contarAceptada st) msg (m_horaSolicitada msg);
      Some (st', respOk st msg)
    else
      alternativa ← buscarHoraAlternativa cfg st (m_numPersonas msg);
      match alternativa with
      | Some horaAlternativa =>
          st' ← reservar (contarReprogramada st) msg horaAlternativa;
          Some (st', respReprog st horaAlternativa
                       (TxtReprogSinCupo horaAlternativa
                          (horaAlternativa + DURACION_RESERVA)))
      | None => Some (contarNegada st, respNegada st TxtNegadaSinCupo)
      end.
Proof.
  intros Hv Hn Hlate Hfin. unfold procesarSolicitudReserva. rewrite Hv. simpl.
  destruct (Z.gtb_spec (m_numPersonas msg) (aforoMaximo cfg)); [lia|].
  destruct (Z.ltb_spec (m_horaSolicitada msg) (horaActual st)); [lia|].
  destruct (Z.gtb_spec (m_horaSolicitada msg) (horaFinal cfg)); [lia|reflexivity].
Qed.

(** Every answer of the handler is a denial that only counts itself,
    or comes with a reservation stored at the assigned hour after the
    check that admits it. *)
Lemma procesar_inv (st' : Estado) (resp : RespuestaControlador) :
  procesarSolicitudReserva cfg st msg = Some (st', resp) ->
  (resp_tipo resp = RESP_RESERVA_NEGADA /\
   resp_horaAsignada resp = None /\ st' = contarNegada st) \/
  (resp_tipo resp = RESP_RESERVA_OK /\
   resp_horaAsignada resp = Some (m_horaSolicitada msg) /\
   validarHora (m_horaSolicitada msg) = true /\
   verificarDisponibilidad cfg st (m_horaSolicitada msg) (m_numPersonas msg)
   = Some true /\
   reservar (contarAceptada st) msg (m_horaSolicitada msg) = Some st') \/
  (resp_tipo resp = RESP_RESERVA_REPROG /\
   exists horaAlternativa,
     resp_horaAsignada resp = Some horaAlternativa /\
     buscarHoraAlternativa cfg st (m_numPersonas msg) = Some (Some horaAlternativa) /\
     reservar (contarReprogramada st) msg horaAlternativa = Some st').
Proof.
  unfold procesarSolicitudReserva. intros H.
  destruct (validarHora (m_horaSolicitada msg)) eqn:Hv; simpl in H;
    [|inversion H; subst; left; repeat split].
  destruct (m_numPersonas msg >? aforoMaximo cfg);
    [inversion H; subst; left; repeat split|].
  destruct (m_horaSolicitada msg <? horaActual st).
  - destruct (buscarHoraAlternativa cfg st (m_numPersonas msg))
      as [[ha|]|] eqn:Hb; simpl in H; [| |discriminate].
    + destruct (reservar (contarReprogramada st) msg ha) eqn:Hr;
        simpl in H; [|discriminate].
      inversion H; subst. right; right. split; [reflexivity|]. now exists ha.
    + inversion H; subst; left; repeat split.
  - destruct (m_horaSolicitada msg >? horaFinal cfg);
      [inversion H; subst; left; repeat split|].
    destruct (verificarDisponibilidad cfg st (m_horaSolicitada msg)
                (m_numPersonas msg)) as [[|]|] eqn:Hd; simpl in H;
      [| |discriminate].
    + destruct (reservar (contarAceptada st) msg (m_horaSolicitada msg)) eqn:Hr;
        simpl in H; [|discriminate].
      inversion H; subst. right; left. repeat split; assumption.
    + destruct (buscarHoraAlternativa cfg st (m_numPersonas msg))
        as [[ha|]|] eqn:Hb; simpl in H; [| |discriminate].
      * destruct (reservar (contarReprogramada st) msg ha) eqn:Hr;
          simpl in H; [|discriminate].
        inversion H; subst. right; right. split; [reflexivity|]. now exists ha.
      * inversion H; subst; left; repeat split.
Qed.

End Solicitud.

(** ** The two checks on a state *)

Lemma verificarDisponibilidad_int (cfg : Config) (st : Estado) (h n : Z) :
  tabla_ok (ocupacionPorHora st) ->
  exists b,
    verificarDisponibilidad cfg st h n = Some b /\
    (b = true <-> cupo_int cfg st h n).
Proof. intros Hok. now apply verificar_spec. Qed.

Lemma buscarHoraAlternativa_int (cfg : Config) (st : Estado) (n : Z) :
  tabla_ok (ocupacionPorHora st) ->
  exists r,
    buscarHoraAlternativa cfg st n = Some r /\
    match r with
    | Some h =>
        horaActual st <= h <= horaFinal cfg - DURACION_RESERVA + 1 /\
        candidata_int (ocupacionPorHora st) (aforoMaximo cfg) n h /\
        forall h', horaActual st <= h' < h ->
          ~ candidata_int (ocupacionPorHora st) (aforoMaximo cfg) n h'
    | None =>
        forall h', horaActual st <= h' <= horaFinal cfg - DURACION_RESERVA + 1 ->
          ~ candidata_int (ocupacionPorHora st) (aforoMaximo cfg) n h'
    end.
Proof.
  intros Hok. unfold buscarHoraAlternativa.
  set (k := Z.to_nat _).
  destruct (buscar_spec (aforoMaximo cfg) n (ocupacionPorHora st) k
              (horaActual st) Hok) as (r & Hrun & Hspec).
  exists r. split; [assumption|]. destruct r as [h|].
  - destruct Hspec as (Hr & Hval & Hmin). split; [subst k; lia|]. now split.
  - intros h' Hh'. apply Hspec. subst k. lia.
Qed.

Lemma cupo_int_con_cupo (cfg : Config) (st : Estado) (h n : Z) :
  sin_desborde (ocupacionPorHora st) n ->
  cupo_int cfg st h n <-> con_cupo cfg st h n.
Proof.
  intros Hsin. unfold cupo_int, con_cupo.
  split; intros H x Hx; specialize (H x Hx);
    apply cubre_true in Hx as (_ & Hv & _);
    [rewrite <- (suma_int_exacta _ _ _ Hsin Hv)
    |rewrite (suma_int_exacta _ _ _ Hsin Hv)]; exact H.
Qed.



Lemma candidata_int_cubierta (tabla : list Z) (aforo n h x : Z) :
  candidata_int tabla aforo n h -> cubierta h x = true ->
  suma_int (contador tabla x) n <= aforo.
Proof.
  intros Hc Hx. apply cubre_true in Hx as (_ & _ & Hr).
  destruct (Hc (x - h)) as [_ Hle].
  - change (Z.of_nat (Z.to_nat DURACION_RESERVA)) with DURACION_RESERVA in Hr. lia.
  - now replace (h + (x - h)) with x in Hle by lia.
Qed.

(** The handler never leaves its arrays: on a state that fits them it
    returns a state and a response. *)
Lemma procesar_total (cfg : Config) (st : Estado) (msg : MensajeAgente) :
  estado_ok st ->
  exists st' resp, procesarSolicitudReserva cfg st msg = Some (st', resp).
Proof.
  intros Hst. pose proof Hst as [Hok _].
  destruct (buscarHoraAlternativa_int cfg st (m_numPersonas msg) Hok)
    as (alt & Hb & _).
  assert (exists st' resp,
    (alternativa ← buscarHoraAlternativa cfg st (m_numPersonas msg);
     match alternativa with
     | Some ha => st' ← reservar (contarReprogramada st) msg ha;
                  Some (st', respReprog st ha
                               (TxtReprogExtemporanea ha (ha + DURACION_RESERVA)))
     | None => Some (contarNegada st, respNegada st TxtNegadaExtemporanea)
     end) = Some (st', resp)) as Hext.
  { rewrite Hb. simpl. destruct alt as [ha|]; [|eauto].
    destruct (reservar_spec (contarReprogramada st) msg ha Hst) as (st1 & Hr & _).
    rewrite Hr. simpl. eauto. }
  assert (exists st' resp,
    (alternativa ← buscarHoraAlternativa cfg st (m_numPersonas msg);
     match alternativa with
     | Some ha => st' ← reservar (contarReprogramada st) msg ha;
                  Some (st', respReprog st ha
                               (TxtReprogSinCupo ha (ha + DURACION_RESERVA)))
     | None => Some (contarNegada st, respNegada st TxtNegadaSinCupo)
     end) = Some (st', resp)) as Hsin.
  { rewrite Hb. simpl. destruct alt as [ha|]; [|eauto].
    destruct (reservar_spec (contarReprogramada st) msg ha Hst) as (st1 & Hr & _).
    rewrite Hr. simpl. eauto. }
  destruct (validarHora (m_horaSolicitada msg)) eqn:Hv;
    [|rewrite procesar_fuera_de_rango by assumption; eauto].
  destruct (Z.le_gt_cases (m_numPersonas msg) (aforoMaximo cfg)) as [Hn|Hn];
    [|rewrite procesar_excede_aforo by (assumption || lia); eauto].
  destruct (Z.lt_ge_cases (m_horaSolicitada msg) (horaActual st)) as [Hl|Hl];
    [rewrite procesar_extemporanea by assumption; exact Hext|].
  destruct (Z.le_gt_cases (m_horaSolicitada msg) (horaFinal cfg)) as [Hf|Hf];
    [|rewrite procesar_fuera_de_periodo by (assumption || lia); eauto].
  rewrite procesar_a_tiempo by assumption.
  destruct (verificarDisponibilidad_int cfg st (m_horaSolicitada msg)
              (m_numPersonas msg) Hok) as (b & Hd & _).
  rewrite Hd. simpl. destruct b; [|exact Hsin].
  destruct (reservar_spec (contarAceptada st) msg (m_horaSolicitada msg) Hst)
    as (st1 & Hr & _).
  rewrite Hr. simpl. eauto.
Qed.

(** * The claims *)

(** ** Approval at the requested hour *)



(** The scenario of the spec: an empty table, capacity 100, family A asks
    for hour 10 with 50 people. *)
Example escenario_familia_A :
  exists st',
    procesarSolicitudReserva cfg_ejemplo (inicializarServidor cfg_ejemplo)
      (solicitud "A" 10 50)
    = Some (st', respOk (inicializarServidor cfg_ejemplo) (solicitud "A" 10 50)) /\
    contador (ocupacionPorHora st') 10 = 50 /\
    contador (ocupacionPorHora st') 11 = 50 /\
    contador (ocupacionPorHora st') 12 = 0.
Proof. eexists. split; [reflexivity|]. repeat split. Qed.

(** ** Late requests *)



(** ** The search *)



(** ** Denials *)

(** C6. A request whose hour is outside the operating range 7..19, or
    whose party exceeds the capacity, is DENIED whatever its other
    fields, the state of the table and the current hour. *)
Theorem C6_negacion_inmediata
    (cfg : Config) (st : Estado) (msg : MensajeAgente) :
  m_horaSolicitada msg < HORAS_MIN \/ HORAS_MAX < m_horaSolicitada msg \/
  aforoMaximo cfg < m_numPersonas msg ->
  exists resp,
    procesarSolicitudReserva cfg st msg = Some (contarNegada st, resp) /\
    resp_tipo resp = RESP_RESERVA_NEGADA.
Proof.
  intros H. destruct (validarHora (m_horaSolicitada msg)) eqn:Hv.
  - apply validarHora_true in Hv as Hr.
    destruct H as [H|[H|H]]; [lia|lia|].
    rewrite procesar_excede_aforo by assumption. eexists. split; reflexivity.
  - rewrite procesar_fuera_de_rango by assumption. eexists. split; reflexivity.
Qed.

Lemma C6_witness :
  (exists resp,
     procesarSolicitudReserva cfg_ejemplo (inicializarServidor cfg_ejemplo)
       (solicitud "D" 20 4)
     = Some (contarNegada (inicializarServidor cfg_ejemplo), resp) /\
     resp_tipo resp = RESP_RESERVA_NEGADA) /\
  (exists resp,
     procesarSolicitudReserva cfg_ejemplo (inicializarServidor cfg_ejemplo)
       (solicitud "E" 10 150)
     = Some (contarNegada (inicializarServidor cfg_ejemplo), resp) /\
     resp_tipo resp = RESP_RESERVA_NEGADA).
Proof.
  split.
  - apply (C6_negacion_inmediata cfg_ejemplo (inicializarServidor cfg_ejemplo)
             (solicitud "D" 20 4)).
    right; left. unfold HORAS_MAX. simpl. lia.
  - apply (C6_negacion_inmediata cfg_ejemplo (inicializarServidor cfg_ejemplo)
             (solicitud "E" 10 150)).
    right; right. simpl. lia.
Defined.

(** C7. Whenever the handler answers DENIED, on whichever of its paths,
    the occupancy table and the reservation store are what they were and
    of the three statistics only the count of denied requests moves, by
    one. *)
Theorem C7_negacion_sin_efectos
    (cfg : Config) (st : Estado) (msg : MensajeAgente)
    (st' : Estado) (resp : RespuestaControlador) :
  procesarSolicitudReserva cfg st msg = Some (st', resp) ->
  resp_tipo resp = RESP_RESERVA_NEGADA ->
  ocupacionPorHora st' = ocupacionPorHora st /\
  reservas st' = reservas st /\
  solicitudesNegadas st' = solicitudesNegadas st + 1 /\
  solicitudesAceptadas st' = solicitudesAceptadas st /\
  solicitudesReprogramadas st' = solicitudesReprogramadas st /\
  horaActual st' = horaActual st /\
  agentesRegistrados st' = agentesRegistrados st.
Proof.
  intros Hrun Htipo.
  destruct (procesar_inv cfg st msg st' resp Hrun)
    as [(_ & _ & ->) | [(Hok & _) | (Hre & _)]].
  - repeat split.
  - congruence.
  - congruence.
Qed.

Lemma C7_witness :
  ocupacionPorHora (contarNegada (inicializarServidor cfg_ejemplo))
  = ocupacionPorHora (inicializarServidor cfg_ejemplo) /\
  reservas (contarNegada (inicializarServidor cfg_ejemplo)) = [] /\
  solicitudesNegadas (contarNegada (inicializarServidor cfg_ejemplo)) = 0 + 1.
Proof.
  destruct (C7_negacion_sin_efectos cfg_ejemplo (inicializarServidor cfg_ejemplo)
              (solicitud "E" 10 150)
              (contarNegada (inicializarServidor cfg_ejemplo))
              (respNegada (inicializarServidor cfg_ejemplo) (TxtExcedeAforo 150 100)))
    as (Ht & Hr & Hn & _).
  - reflexivity.
  - reflexivity.
  - repeat split; assumption.
Defined.

(** ** What a handled request does to the table *)

(** An hour is assigned only to a party within the capacity. *)
Lemma procesar_asignada_aforo (cfg : Config) (st : Estado)
    (msg : MensajeAgente) (st' : Estado) (resp : RespuestaControlador) (h : Z) :
  procesarSolicitudReserva cfg st msg = Some (st', resp) ->
  resp_horaAsignada resp = Some h ->
  m_numPersonas msg <= aforoMaximo cfg.
Proof.
  unfold procesarSolicitudReserva. intros Hrun Hh.
  destruct (validarHora (m_horaSolicitada msg)); simpl in Hrun;
    [|injection Hrun as <- <-; discriminate Hh].
  destruct (Z.gtb_spec (m_numPersonas msg) (aforoMaximo cfg));
    [injection Hrun as <- <-; discriminate Hh | lia].
Qed.

Section Efectos.
Variables (cfg : Config) (st : Estado) (msg : MensajeAgente).
Variables (st' : Estado) (resp : RespuestaControlador).
Hypothesis Hok : tabla_ok (ocupacionPorHora st).
Hypothesis Hrun : procesarSolicitudReserva cfg st msg = Some (st', resp).

(** An answer that carries no assigned hour leaves the table alone; an
    answer that carries one comes from a state where the test of every
    covered hour passed, and the covered counters hold the sums that
    were tested. *)
Lemma procesar_efecto :
  match resp_horaAsignada resp with
  | None => ocupacionPorHora st' = ocupacionPorHora st /\
            reservas st' = reservas st
  | Some h =>
      reserva_guardada st msg h st' /\
      cupo_int cfg st h (m_numPersonas msg) /\
      validarHora h = true
  end.
Proof.
  destruct (procesar_inv cfg st msg st' resp Hrun)
    as [(_ & -> & ->) | [(_ & -> & Hv & Hd & Hres) | (_ & ha & -> & Hb & Hres)]].
  - split; reflexivity.
  - apply reservar_inv in Hres as (Hhecha & _); [|exact Hok].
    split; [exact Hhecha|]. split; [|exact Hv].
    destruct (verificarDisponibilidad_int cfg st (m_horaSolicitada msg)
                (m_numPersonas msg) Hok) as (b & Hd' & Hb).
    rewrite Hd in Hd'. injection Hd' as <-. now apply Hb.
  - apply reservar_inv in Hres as (Hhecha & _); [|exact Hok].
    split; [exact Hhecha|].
    destruct (buscarHoraAlternativa_int cfg st (m_numPersonas msg) Hok)
      as (r & Hb' & Hspec).
    rewrite Hb in Hb'. injection Hb' as <-. destruct Hspec as (_ & Hval & _).
    split; [intros x Hx; now apply (candidata_int_cubierta _ _ _ ha)|].
    destruct (Hval 0) as [Hv0 _]; [unfold DURACION_RESERVA; lia|].
    now rewrite Z.add_0_r in Hv0.
Qed.

Lemma procesar_tabla_ok : tabla_ok (ocupacionPorHora st').
Proof.
  pose proof procesar_efecto as He.
  destruct (resp_horaAsignada resp) as [h|].
  - apply He.
  - destruct He as [-> _]. exact Hok.
Qed.

Lemma procesar_sin_sobrecupo :
  sin_sobrecupo cfg (ocupacionPorHora st) ->
  sin_sobrecupo cfg (ocupacionPorHora st').
Proof.
  intros Hinv x Hx. pose proof procesar_efecto as He.
  destruct (resp_horaAsignada resp) as [h|].
  - destruct He as ((_ & _ & _ & _ & Hcnt) & Hcupo & _).
    rewrite (Hcnt x Hx). specialize (Hinv x Hx).
    destruct (cubierta h x) eqn:Hc; [now apply Hcupo | lia].
  - destruct He as [-> _]. now apply Hinv.
Qed.

(** Under a capacity whose double fits an [int], a party that is not
    negative lowers no counter that is a value of [int] and is not above
    the capacity. *)
Lemma procesar_no_decrece (x : Z) :
  2 * aforoMaximo cfg <= INT_MAX ->
  INT_MIN <= contador (ocupacionPorHora st) x <= aforoMaximo cfg ->
  0 <= m_numPersonas msg -> validarHora x = true ->
  contador (ocupacionPorHora st) x <= contador (ocupacionPorHora st') x.
Proof.
  intros Haforo Hc Hn Hx. pose proof procesar_efecto as He.
  destruct (resp_horaAsignada resp) as [h|] eqn:Hh.
  - destruct He as ((_ & _ & _ & _ & Hcnt) & _).
    pose proof (procesar_asignada_aforo cfg st msg st' resp h Hrun Hh) as Hle.
    rewrite (Hcnt x Hx). destruct (cubierta h x); [|lia].
    unfold suma_int. rewrite a_int_exacto; [lia|].
    unfold en_int, INT_MIN, INT_MAX in *. lia.
  - destruct He as [-> _]. lia.
Qed.

Lemma procesar_numReservas :
  numReservas st <= numReservas st' <= numReservas st + 1.
Proof.
  pose proof procesar_efecto as He. unfold numReservas.
  destruct (resp_horaAsignada resp) as [h|].
  - destruct He as ((_ & -> & _) & _). rewrite length_app. simpl. lia.
  - destruct He as [_ ->]. lia.
Qed.

Lemma procesar_bien_formadas :
  Forall bien_formada (reservas st) -> Forall bien_formada (reservas st').
Proof.
  intros Hbf. pose proof procesar_efecto as He.
  destruct (resp_horaAsignada resp) as [h|].
  - destruct He as ((_ & -> & _) & _). apply Forall_app. split; [exact Hbf|].
    constructor; [|constructor].
    unfold bien_formada, nuevaReserva, DURACION_RESERVA. simpl. lia.
  - destruct He as [_ ->]. exact Hbf.
Qed.

End Efectos.

(** ** Steps and runs *)

Lemma avanzarHora_bien_formadas (st : Estado) :
  Forall bien_formada (reservas st) ->
  Forall bien_formada (reservas (avanzarHora st)).
Proof.
  intros Hbf. simpl. rewrite !Forall_fmap.
  eapply Forall_impl; [exact Hbf|]. intros r Hr.
  unfold bien_formada, desactivarReserva, activarReserva, compose in *. simpl.
  repeat (case_match; simpl); assumption.
Qed.

Section Paso.
Variables (cfg : Config) (st : Estado) (ev : Evento) (st' : Estado).
Hypothesis Hok : tabla_ok (ocupacionPorHora st).
Hypothesis Hpaso : paso cfg st ev = Some st'.

(** A step either is a handled reservation request or leaves the
    table and the number of stored records as they were. *)
Lemma paso_casos :
  (exists msg resp,
     es_solicitud ev = Some msg /\
     procesarSolicitudReserva cfg st msg = Some (st', resp)) \/
  (es_solicitud ev = None /\
   ocupacionPorHora st' = ocupacionPorHora st /\
   numReservas st' = numReservas st /\
   (Forall bien_formada (reservas st) -> Forall bien_formada (reservas st'))).
Proof.
  destruct ev as [msg|]; simpl in *.
  - unfold procesarMensaje in Hpaso. destruct (m_tipo msg) eqn:Ht; simpl in Hpaso.
    + injection Hpaso as <-. right. repeat split. tauto.
    + destruct (procesarSolicitudReserva cfg st msg) as [[st1 resp]|] eqn:Hp;
        simpl in Hpaso; [|discriminate].
      injection Hpaso as <-. left. now exists msg, resp.
    + injection Hpaso as <-. right. repeat split. tauto.
  - injection Hpaso as <-. right. unfold hiloReloj_paso.
    rewrite andb_true_r.
    destruct (horaActual st <=? horaFinal cfg); [|repeat split; tauto].
    repeat split.
    + unfold numReservas. simpl. now rewrite !length_map.
    + apply avanzarHora_bien_formadas.
Qed.

Lemma paso_tabla_ok : tabla_ok (ocupacionPorHora st').
Proof.
  destruct paso_casos as [(msg & resp & _ & Hp) | (_ & -> & _)]; [|exact Hok].
  exact (procesar_tabla_ok cfg st msg st' resp Hok Hp).
Qed.

Lemma paso_sin_sobrecupo :
  sin_sobrecupo cfg (ocupacionPorHora st) ->
  sin_sobrecupo cfg (ocupacionPorHora st').
Proof.
  destruct paso_casos as [(msg & resp & _ & Hp) | (_ & -> & _)]; [|tauto].
  exact (procesar_sin_sobrecupo cfg st msg st' resp Hok Hp).
Qed.

Lemma paso_bien_formadas :
  Forall bien_formada (reservas st) -> Forall bien_formada (reservas st').
Proof.
  destruct paso_casos as [(msg & resp & _ & Hp) | (_ & _ & _ & Hbf)]; [|exact Hbf].
  exact (procesar_bien_formadas cfg st msg st' resp Hok Hp).
Qed.

Lemma paso_no_decrece (x : Z) :
  2 * aforoMaximo cfg <= INT_MAX ->
  INT_MIN <= contador (ocupacionPorHora st) x <= aforoMaximo cfg ->
  (forall msg, es_solicitud ev = Some msg -> 0 <= m_numPersonas msg) ->
  validarHora x = true ->
  contador (ocupacionPorHora st) x <= contador (ocupacionPorHora st') x.
Proof.
  intros Haforo Hc Hn Hx.
  destruct paso_casos as [(msg & resp & Hs & Hp) | (_ & -> & _)]; [|lia].
  apply (procesar_no_decrece cfg st msg st' resp Hok Hp x);
    [exact Haforo | exact Hc | | exact Hx].
  now apply Hn.
Qed.

End Paso.

(** A step is defined whenever the state fits its arrays. *)
Lemma paso_total (cfg : Config) (st : Estado) (ev : Evento) :
  tabla_ok (ocupacionPorHora st) ->
  numReservas st + Z.of_nat (length (solicitudes [ev])) <= MAX_RESERVAS ->
  exists st',
    paso cfg st ev = Some st' /\
    numReservas st' <= numReservas st + Z.of_nat (length (solicitudes [ev])).
Proof.
  intros Hok Hcap. destruct ev as [msg|]; simpl in *.
  - unfold procesarMensaje. destruct (m_tipo msg) eqn:Ht; simpl in *.
    + eexists. split; [reflexivity|]. unfold numReservas. simpl. lia.
    + destruct (procesar_total cfg st msg) as (st' & resp & Hp).
      { split; [exact Hok|lia]. }
      rewrite Hp. simpl. exists st'. split; [reflexivity|].
      pose proof (procesar_numReservas cfg st msg st' resp Hok Hp). lia.
    + eexists. split; [reflexivity|]. lia.
  - eexists. split; [reflexivity|]. unfold hiloReloj_paso.
    rewrite andb_true_r.
    destruct (horaActual st <=? horaFinal cfg); [|lia].
    unfold numReservas. simpl. rewrite !length_map. lia.
Qed.

Lemma solicitudes_cons (ev : Evento) (evs : list Evento) :
  length (solicitudes (ev :: evs))
  = (length (solicitudes [ev]) + length (solicitudes evs))%nat.
Proof.
  unfold solicitudes. simpl. destruct (es_solicitud ev); reflexivity.
Qed.

Lemma ejecutar_total (cfg : Config) (evs : list Evento) : forall st,
  tabla_ok (ocupacionPorHora st) ->
  numReservas st + Z.of_nat (length (solicitudes evs)) <= MAX_RESERVAS ->
  exists st', ejecutar cfg st evs = Some st'.
Proof.
  induction evs as [|ev evs IH]; intros st Hok Hcap; simpl.
  - now exists st.
  - rewrite solicitudes_cons in Hcap.
    destruct (paso_total cfg st ev Hok) as (st1 & Hp & Hnum); [lia|].
    rewrite Hp. simpl. apply IH.
    + exact (paso_tabla_ok cfg st ev st1 Hok Hp).
    + lia.
Qed.

Lemma ejecutar_invariante (cfg : Config) (evs : list Evento) : forall st st',
  tabla_ok (ocupacionPorHora st) ->
  sin_sobrecupo cfg (ocupacionPorHora st) ->
  ejecutar cfg st evs = Some st' ->
  tabla_ok (ocupacionPorHora st') /\ sin_sobrecupo cfg (ocupacionPorHora st').
Proof.
  induction evs as [|ev evs IH]; intros st st' Hok Hinv Hrun; simpl in Hrun.
  - injection Hrun as <-. now split.
  - destruct (paso cfg st ev) as [st1|] eqn:Hp; simpl in Hrun; [|discriminate].
    apply (IH st1 st'); [| |exact Hrun].
    + exact (paso_tabla_ok cfg st ev st1 Hok Hp).
    + exact (paso_sin_sobrecupo cfg st ev st1 Hok Hp Hinv).
Qed.

(** Every record the controller stores ends after it starts. *)
Lemma ejecutar_bien_formadas (cfg : Config) (evs : list Evento) : forall st st',
  tabla_ok (ocupacionPorHora st) ->
  Forall bien_formada (reservas st) ->
  ejecutar cfg st evs = Some st' ->
  Forall bien_formada (reservas st').
Proof.
  induction evs as [|ev evs IH]; intros st st' Hok Hbf Hrun; simpl in Hrun.
  - now injection Hrun as <-.
  - destruct (paso cfg st ev) as [st1|] eqn:Hp; simpl in Hrun; [|discriminate].
    apply (IH st1 st'); [| |exact Hrun].
    + exact (paso_tabla_ok cfg st ev st1 Hok Hp).
    + exact (paso_bien_formadas cfg st ev st1 Hok Hp Hbf).
Qed.

(** At the last hour of the range the availability loop reads one cell:
    hour 20 fails the guard and ends the loop. *)
Lemma verificarDisponibilidad_hora_max (cfg : Config) (st : Estado) (n : Z) :
  tabla_ok (ocupacionPorHora st) ->
  verificarDisponibilidad cfg st HORAS_MAX n
  = Some (negb (suma_int (contador (ocupacionPorHora st) HORAS_MAX) n
                >? aforoMaximo cfg)).
Proof.
  intros Hok. unfold verificarDisponibilidad.
  change (Z.to_nat DURACION_RESERVA) with 2%nat.
  cbn [verificar_desde].
  change (validarHora HORAS_MAX) with true.
  change (validarHora (HORAS_MAX + 1)) with false.
  cbv iota.
  rewrite (leer_valida _ _ Hok (eq_refl : validarHora HORAS_MAX = true)).
  simpl. now destruct (_ >? _).
Qed.

(** ** Invariants of a day *)

(** C2. From the start of a day with a configuration the command line
    accepts, after any sequence of handled messages and clock ticks no
    hour of the operating window is booked above the maximum capacity
    (and the table still has all its cells); the run is defined for as
    many as [MAX_RESERVAS] requests. *)
Theorem C2_sin_sobrecupo (cfg : Config) (evs : list Evento) :
  config_valida cfg ->
  (forall st,
     ejecutar cfg (inicializarServidor cfg) evs = Some st ->
     tabla_ok (ocupacionPorHora st) /\
     forall h, validarHora h = true ->
       contador (ocupacionPorHora st) h <= aforoMaximo cfg) /\
  (Z.of_nat (length (solicitudes evs)) <= MAX_RESERVAS ->
   exists st, ejecutar cfg (inicializarServidor cfg) evs = Some st).
Proof.
  intros (_ & _ & _ & _ & Haforo). split.
  - intros st Hrun.
    apply (ejecutar_invariante cfg evs (inicializarServidor cfg) st);
      [apply tabla_ok_inicial | | exact Hrun].
    intros x _. simpl. rewrite contador_inicial. lia.
  - intros Hcap. apply ejecutar_total; [apply tabla_ok_inicial|].
    unfold numReservas. simpl. lia.
Qed.

Lemma C2_witness :
  exists st,
    ejecutar cfg_ejemplo (inicializarServidor cfg_ejemplo) dia_ejemplo = Some st /\
    forall h, validarHora h = true -> contador (ocupacionPorHora st) h <= 100.
Proof.
  destruct (C2_sin_sobrecupo cfg_ejemplo dia_ejemplo) as [Hinv Htot].
  - repeat split; simpl; lia.
  - destruct Htot as [st Hst]; [vm_compute; congruence|].
    exists st. split; [exact Hst|]. intros h Hh. now apply (Hinv st Hst).
Defined.

(** C8, as the code has it.  Clock ticks, registrations and requests
    with a party size that is not negative never lower a counter: over
    any run made of them, under a capacity whose double fits an [int],
    from any state with a whole table whose counters are values of [int]
    not above the capacity, the table stays whole and the counter of
    every hour of the operating window ends no lower than it began. *)
Theorem C8_contadores_no_decrecen
    (cfg : Config) (evs : list Evento) : forall (st st' : Estado) (h : Z),
  tabla_ok (ocupacionPorHora st) ->
  2 * aforoMaximo cfg <= INT_MAX ->
  (forall x, validarHora x = true ->
     INT_MIN <= contador (ocupacionPorHora st) x <= aforoMaximo cfg) ->
  Forall (fun msg => 0 <= m_numPersonas msg) (solicitudes evs) ->
  ejecutar cfg st evs = Some st' ->
  validarHora h = true ->
  tabla_ok (ocupacionPorHora st') /\
  contador (ocupacionPorHora st) h <= contador (ocupacionPorHora st') h.
Proof.
  induction evs as [|ev evs IH];
    intros st st' h Hok Haforo Hc Hpos Hrun Hh; simpl in Hrun.
  - injection Hrun as <-. split; [exact Hok|lia].
  - destruct (paso cfg st ev) as [st1|] eqn:Hp; simpl in Hrun; [|discriminate].
    assert (forall msg, es_solicitud ev = Some msg -> 0 <= m_numPersonas msg)
      as Hev.
    { intros msg Hs. unfold solicitudes in Hpos. simpl in Hpos.
      rewrite Hs in Hpos. now inversion Hpos. }
    assert (forall x, validarHora x = true ->
              contador (ocupacionPorHora st) x
              <= contador (ocupacionPorHora st1) x) as Hsube.
    { intros x Hx.
      exact (paso_no_decrece cfg st ev st1 Hok Hp x Haforo (Hc x Hx) Hev Hx). }
    destruct (IH st1 st' h) as [Hok' Hle];
      [|exact Haforo| | |exact Hrun|exact Hh|].
    + exact (paso_tabla_ok cfg st ev st1 Hok Hp).
    + intros x Hx. split.
      * specialize (Hsube x Hx). specialize (Hc x Hx). lia.
      * apply (paso_sin_sobrecupo cfg st ev st1 Hok Hp); [|exact Hx].
        intros y Hy. now apply Hc.
    + unfold solicitudes in *. simpl in Hpos.
      destruct (es_solicitud ev); [now inversion Hpos|exact Hpos].
    + split; [exact Hok'|]. specialize (Hsube h Hh). lia.
Qed.

Lemma C8_witness :
  exists st,
    ejecutar cfg_ejemplo (inicializarServidor cfg_ejemplo) dia_ejemplo = Some st /\
    contador (ocupacionPorHora (inicializarServidor cfg_ejemplo)) 10
    <= contador (ocupacionPorHora st) 10.
Proof.
  destruct (ejecutar cfg_ejemplo (inicializarServidor cfg_ejemplo) dia_ejemplo)
    as [st|] eqn:Hrun; [|vm_compute in Hrun; discriminate].
  exists st. split; [reflexivity|].
  apply (C8_contadores_no_decrecen cfg_ejemplo dia_ejemplo
           (inicializarServidor cfg_ejemplo) st 10).
  - apply tabla_ok_inicial.
  - unfold INT_MAX. simpl. lia.
  - intros x _. simpl. rewrite contador_inicial. unfold INT_MIN. lia.
  - simpl. repeat (apply Forall_cons_2; [simpl; lia|]). apply Forall_nil_2.
  - exact Hrun.
  - reflexivity.
Defined.

(** C8 as stated fails: a request with a negative party size is approved
    and lowers the counters of its window. *)
Lemma C8_counterexample :
  exists st',
    paso cfg_ejemplo (inicializarServidor cfg_ejemplo)
      (EvMensaje (solicitud "F" 10 (-5))) = Some st' /\
    validarHora 10 = true /\
    contador (ocupacionPorHora (inicializarServidor cfg_ejemplo)) 10 = 0 /\
    contador (ocupacionPorHora st') 10 = -5 /\
    ~ contador (ocupacionPorHora (inicializarServidor cfg_ejemplo)) 10
      <= contador (ocupacionPorHora st') 10.
Proof.
  eexists. split; [reflexivity|]. repeat split. vm_compute. tauto.
Qed.

(** ** The clock *)

(** C9. One tick adds exactly one to the current hour and touches
    nothing but the [activa] fields of the stored reservations: the
    occupancy table, the registry, the statistics, the number of records
    and their other fields are unchanged.  On a store whose records end
    no earlier than they start, a record is active afterwards when it
    starts at the new hour, inactive when it ended before the new hour,
    and keeps its flag otherwise. *)
Theorem C9_tick (st : Estado) :
  Forall bien_formada (reservas st) ->
  horaActual (avanzarHora st) = horaActual st + 1 /\
  ocupacionPorHora (avanzarHora st) = ocupacionPorHora st /\
  agentesRegistrados (avanzarHora st) = agentesRegistrados st /\
  solicitudesNegadas (avanzarHora st) = solicitudesNegadas st /\
  solicitudesAceptadas (avanzarHora st) = solicitudesAceptadas st /\
  solicitudesReprogramadas (avanzarHora st) = solicitudesReprogramadas st /\
  length (reservas (avanzarHora st)) = length (reservas st) /\
  forall (i : nat) (r : Reserva), reservas st !! i = Some r ->
    exists r',
      reservas (avanzarHora st) !! i = Some r' /\
      r_nombreFamilia r' = r_nombreFamilia r /\
      r_nombreAgente r' = r_nombreAgente r /\
      r_horaInicio r' = r_horaInicio r /\
      r_horaFin r' = r_horaFin r /\
      r_numPersonas r' = r_numPersonas r /\
      (r_horaInicio r = horaActual st + 1 -> r_activa r' = true) /\
      (r_horaFin r < horaActual st + 1 -> r_activa r' = false) /\
      (r_horaInicio r <> horaActual st + 1 ->
       horaActual st + 1 <= r_horaFin r -> r_activa r' = r_activa r).
Proof.
  intros Hbf. repeat split.
  - simpl. now rewrite !length_map.
  - intros i r Hi.
    assert (bien_formada r) as Hr.
    { rewrite Forall_lookup in Hbf. exact (Hbf i r Hi). }
    unfold bien_formada in Hr.
    exists (desactivarReserva (horaActual st + 1)
              (activarReserva (horaActual st + 1) r)).
    split.
    { simpl. rewrite !list_lookup_fmap, Hi. reflexivity. }
    unfold desactivarReserva, activarReserva.
    destruct (Z.eqb_spec (r_horaInicio r) (horaActual st + 1)) as [Hini|Hini];
      destruct (r_activa r) eqn:Hact; simpl;
      destruct (Z.ltb_spec (r_horaFin r) (horaActual st + 1)) as [Hfin|Hfin];
      simpl; rewrite ?Hact; simpl;
      repeat split; intros; try reflexivity; try congruence; try lia.
Qed.

Lemma C9_witness :
  horaActual (avanzarHora estado_a_las_9) = 10 /\
  ocupacionPorHora (avanzarHora estado_a_las_9)
  = ocupacionPorHora estado_a_las_9 /\
  r_activa <$> reservas (avanzarHora estado_a_las_9) = [false; true; false].
Proof.
  destruct (C9_tick estado_a_las_9) as (Hh & Ht & _).
  - simpl. repeat (apply Forall_cons_2; [vm_compute; congruence|]).
    apply Forall_nil_2.
  - split; [exact Hh|]. split; [exact Ht|]. reflexivity.
Defined.

(** ** The end of the window *)

(** C10. On a state that fits its arrays the handler completes without
    an access outside them and leaves the table whole.  When it stores a
    reservation at hour [h], the counters that move are those of the
    covered hours, which lie in the window of [h] and in 7..19 and index
    the table within its bounds; no other counter moves.  A reservation
    that starts at hour 19 is checked and charged for hour 19 alone.
    What a covered counter grows by, and what the check of hour 19
    compares, is the sum of the counter and the party size where the
    sums fit an [int]. *)
Theorem C10_ocupacion_dentro_de_rango
    (cfg : Config) (st : Estado) (msg : MensajeAgente) :
  estado_ok st ->
  (exists st' resp,
     procesarSolicitudReserva cfg st msg = Some (st', resp) /\
     tabla_ok (ocupacionPorHora st') /\
     match resp_horaAsignada resp with
     | Some h =>
         validarHora h = true /\
         (forall x, validarHora x = true -> cubierta h x = false ->
            contador (ocupacionPorHora st') x
            = contador (ocupacionPorHora st) x) /\
         (sin_desborde (ocupacionPorHora st) (m_numPersonas msg) ->
          forall x, validarHora x = true ->
            contador (ocupacionPorHora st') x
            = contador (ocupacionPorHora st) x
              + (if cubierta h x then m_numPersonas msg else 0))
     | None => ocupacionPorHora st' = ocupacionPorHora st
     end) /\
  (forall h x, validarHora h = true ->
     (cubierta h x = true <->
      h <= x < h + DURACION_RESERVA /\ HORAS_MIN <= x <= HORAS_MAX)) /\
  (forall x, HORAS_MIN <= x <= HORAS_MAX -> 0 <= indiceHora x < MAX_HORAS) /\
  (forall x, cubierta HORAS_MAX x = true <-> x = HORAS_MAX) /\
  (sin_desborde (ocupacionPorHora st) (m_numPersonas msg) ->
   verificarDisponibilidad cfg st HORAS_MAX (m_numPersonas msg)
   = Some (negb (contador (ocupacionPorHora st) HORAS_MAX + m_numPersonas msg
                 >? aforoMaximo cfg))).
Proof.
  intros Hst. pose proof Hst as [Hok _]. split; [|split; [|split; [|split]]].
  - destruct (procesar_total cfg st msg Hst) as (st' & resp & Hrun).
    exists st', resp. split; [exact Hrun|].
    split; [exact (procesar_tabla_ok cfg st msg st' resp Hok Hrun)|].
    pose proof (procesar_efecto cfg st msg st' resp Hok Hrun) as He.
    destruct (resp_horaAsignada resp) as [h|]; [|apply He].
    destruct He as ((_ & _ & _ & _ & Hcnt) & _ & Hvh).
    split; [exact Hvh|]. split.
    + intros x Hx Hc. rewrite (Hcnt x Hx), Hc. reflexivity.
    + intros Hsin x Hx. rewrite (Hcnt x Hx).
      destruct (cubierta h x); [now apply suma_int_exacta | lia].
  - intros h x Hh. unfold cubierta. rewrite cubre_true.
    change (Z.of_nat (Z.to_nat DURACION_RESERVA)) with DURACION_RESERVA.
    split.
    + intros (_ & Hx & Hr). apply validarHora_true in Hx. now split.
    + intros (Hr & Hx). apply validarHora_true in Hx. now repeat split.
  - intros x Hx. apply indiceHora_en_rango. now apply validarHora_true.
  - intros x. split.
    + intros Hc. apply cubre_true in Hc as (_ & Hx & Hr).
      apply validarHora_true in Hx. lia.
    + intros ->. reflexivity.
  - intros Hsin. rewrite (verificarDisponibilidad_hora_max cfg st _ Hok).
    now rewrite (suma_int_exacta _ _ _ Hsin (eq_refl : validarHora HORAS_MAX = true)).
Qed.

Lemma C10_witness :
  exists st' resp,
    procesarSolicitudReserva cfg_ejemplo estado_ultima_hora
      (solicitud "G" 19 50) = Some (st', resp) /\
    resp_horaAsignada resp = Some 19 /\
    contador (ocupacionPorHora st') 19 = 50 /\
    contador (ocupacionPorHora st') 18 = 0.
Proof.
  destruct (C10_ocupacion_dentro_de_rango cfg_ejemplo estado_ultima_hora
              (solicitud "G" 19 50)) as ((st' & resp & Hrun & _ & Hcnt) & _).
  - split; [apply tabla_ok_inicial | reflexivity].
  - exists st', resp. split; [exact Hrun|].
    vm_compute in Hrun. injection Hrun as <- <-. repeat split.
Defined.




(** ** Where a sum leaves the range of [int]

    The checks of the controller compare the sum the machine computes.
    The examples below run the model where that sum has wrapped; the
    theorems above that speak of the exact sum assume it has not. *)

Definition cfg_aforo_maximo : Config :=
  {| horaInicial := 7; horaFinal := 19; segundosPorHora := 1;
     aforoMaximo := INT_MAX |}.

(** With the capacity at the greatest [int], two parties of 1500000000
    people for hour 10 are both APPROVED at hour 10: the second sum
    wraps below zero and passes the test, and the counter of hour 10 is
    left negative. *)
Example suma_con_desborde :
  exists st1 resp1 st2 resp2,
    procesarSolicitudReserva cfg_aforo_maximo
      (inicializarServidor cfg_aforo_maximo) (solicitud "A" 10 1500000000)
    = Some (st1, resp1) /\
    contador (ocupacionPorHora st1) 10 = 1500000000 /\
    procesarSolicitudReserva cfg_aforo_maximo st1 (solicitud "B" 10 1500000000)
    = Some (st2, resp2) /\
    resp_tipo resp2 = RESP_RESERVA_OK /\
    resp_horaAsignada resp2 = Some 10 /\
    contador (ocupacionPorHora st2) 10 = -1294967296.
Proof.
  eexists _, _, _, _. split; [vm_compute; reflexivity|].
  split; [reflexivity|]. split; [vm_compute; reflexivity|].
  repeat split.
Qed.

(** With a capacity of 30000000 and 25000000 people in the park, the
    product by 100 wraps, and the hourly report shows -59 percent and
    an empty bar. *)
Example porcentaje_con_desborde :
  exists eh,
    imprimirEstadoHora
      {| horaInicial := 7; horaFinal := 19; segundosPorHora := 1;
         aforoMaximo := 30000000 |}
      (estado_en 9 [0; 0; 25000000; 25000000; 0; 0; 0; 0; 0; 0; 0; 0; 0] [])
    = Some eh /\
    eh_ocupacionActual eh = 25000000 /\
    eh_porcentaje eh = -59 /\
    List.filter id (eh_barra eh) = [].
Proof. eexists. split; [vm_compute; reflexivity|]. repeat split. Qed.

(** With the capacity at the greatest [int] the starting value of the
    valley search, the capacity plus one, wraps to the least [int]: no
    counter is below it and no valley hour is listed. *)
Example valle_con_desborde :
  exists rep,
    generarReporte cfg_aforo_maximo (inicializarServidor cfg_aforo_maximo)
    = Some rep /\
    rep_minOcupacion rep = INT_MIN /\
    rep_horasValle rep = [].
Proof. eexists. split; [vm_compute; reflexivity|]. split; reflexivity. Qed.

(** * Further properties of the controller *)

(** ** Why a request gets its answer *)

Lemma candidata_sin_candidata (cfg : Config) (st : Estado) (n ha : Z) :
  primera_candidata cfg st n ha -> sin_candidata cfg st n -> False.
Proof. intros (Hr & Hval & _) Hsin. exact (Hsin ha Hr Hval). Qed.

(** The handler's answer with the tests that led to it, as the machine
    evaluates them. *)
Lemma procesar_decision_int (cfg : Config) (st : Estado) (msg : MensajeAgente)
    (st' : Estado) (resp : RespuestaControlador) :
  tabla_ok (ocupacionPorHora st) ->
  procesarSolicitudReserva cfg st msg = Some (st', resp) ->
  (resp_tipo resp = RESP_RESERVA_OK /\
   resp_horaAsignada resp = Some (m_horaSolicitada msg) /\
   (validarHora (m_horaSolicitada msg) = true /\
    m_numPersonas msg <= aforoMaximo cfg /\
    horaActual st <= m_horaSolicitada msg <= horaFinal cfg /\
    cupo_int cfg st (m_horaSolicitada msg) (m_numPersonas msg)) /\
   reservar (contarAceptada st) msg (m_horaSolicitada msg) = Some st') \/
  (resp_tipo resp = RESP_RESERVA_REPROG /\
   (validarHora (m_horaSolicitada msg) = true /\
    m_numPersonas msg <= aforoMaximo cfg /\
    (m_horaSolicitada msg < horaActual st \/
     (m_horaSolicitada msg <= horaFinal cfg /\
      ~ cupo_int cfg st (m_horaSolicitada msg) (m_numPersonas msg)))) /\
   exists ha,
     resp_horaAsignada resp = Some ha /\
     primera_int cfg st (m_numPersonas msg) ha /\
     reservar (contarReprogramada st) msg ha = Some st') \/
  (resp_tipo resp = RESP_RESERVA_NEGADA /\
   resp_horaAsignada resp = None /\
   (validarHora (m_horaSolicitada msg) = false \/
    aforoMaximo cfg < m_numPersonas msg \/
    (horaActual st <= m_horaSolicitada msg /\
     horaFinal cfg < m_horaSolicitada msg) \/
    ((m_horaSolicitada msg < horaActual st \/
      ~ cupo_int cfg st (m_horaSolicitada msg) (m_numPersonas msg)) /\
     sin_candidata_int cfg st (m_numPersonas msg))) /\
   st' = contarNegada st).
Proof.
  intros Hok Hrun.
  destruct (buscarHoraAlternativa_int cfg st (m_numPersonas msg) Hok)
    as (alt & Hb & Halt).
  destruct (validarHora (m_horaSolicitada msg)) eqn:Hv.
  2:{ rewrite procesar_fuera_de_rango in Hrun by assumption.
      injection Hrun as <- <-. right; right. repeat split. now left. }
  destruct (Z.le_gt_cases (m_numPersonas msg) (aforoMaximo cfg)) as [Hn|Hn].
  2:{ rewrite procesar_excede_aforo in Hrun by (assumption || lia).
      injection Hrun as <- <-. right; right. repeat split. right; left. lia. }
  destruct (Z.lt_ge_cases (m_horaSolicitada msg) (horaActual st)) as [Hl|Hl].
  { rewrite procesar_extemporanea in Hrun by assumption.
    rewrite Hb in Hrun. simpl in Hrun. destruct alt as [ha|].
    - destruct (reservar (contarReprogramada st) msg ha) as [st1|] eqn:Hr;
        simpl in Hrun; [|discriminate].
      injection Hrun as <- <-. right; left. split; [reflexivity|].
      split; [|exists ha; split; [reflexivity|]; split; [exact Halt|exact Hr]].
      split; [reflexivity|]. split; [assumption|]. now left.
    - injection Hrun as <- <-. right; right. repeat split.
      right; right; right. split; [now left | exact Halt]. }
  destruct (Z.le_gt_cases (m_horaSolicitada msg) (horaFinal cfg)) as [Hf|Hf].
  2:{ rewrite procesar_fuera_de_periodo in Hrun by (assumption || lia).
      injection Hrun as <- <-. right; right. repeat split.
      right; right; left. lia. }
  rewrite procesar_a_tiempo in Hrun by assumption.
  destruct (verificarDisponibilidad_int cfg st (m_horaSolicitada msg)
              (m_numPersonas msg) Hok) as (b & Hd & Hcupo).
  rewrite Hd in Hrun. simpl in Hrun. destruct b.
  - destruct (reservar (contarAceptada st) msg (m_horaSolicitada msg))
      as [st1|] eqn:Hr; simpl in Hrun; [|discriminate].
    injection Hrun as <- <-. left.
    split; [reflexivity|]. split; [reflexivity|]. split; [|reflexivity].
    split; [reflexivity|]. split; [assumption|]. split; [lia|now apply Hcupo].
  - assert (~ cupo_int cfg st (m_horaSolicitada msg) (m_numPersonas msg)) as Hno.
    { intros Hc. apply Hcupo in Hc. discriminate. }
    rewrite Hb in Hrun. simpl in Hrun. destruct alt as [ha|].
    + destruct (reservar (contarReprogramada st) msg ha) as [st1|] eqn:Hr;
        simpl in Hrun; [|discriminate].
      injection Hrun as <- <-. right; left. split; [reflexivity|].
      split; [|exists ha; split; [reflexivity|]; split; [exact Halt|exact Hr]].
      split; [reflexivity|]. split; [assumption|]. right; now split.
    + injection Hrun as <- <-. right; right. repeat split.
      right; right; right. split; [now right | exact Halt].
Qed.

(** When no sum overflows the machine's tests are the conditions of the
    spec: the handler's answer with the reason for it. *)
Lemma procesar_decision (cfg : Config) (st : Estado) (msg : MensajeAgente)
    (st' : Estado) (resp : RespuestaControlador) :
  tabla_ok (ocupacionPorHora st) ->
  sin_desborde (ocupacionPorHora st) (m_numPersonas msg) ->
  procesarSolicitudReserva cfg st msg = Some (st', resp) ->
  (resp_tipo resp = RESP_RESERVA_OK /\
   resp_horaAsignada resp = Some (m_horaSolicitada msg) /\
   causa_aprobada cfg st msg /\
   reservar (contarAceptada st) msg (m_horaSolicitada msg) = Some st') \/
  (resp_tipo resp = RESP_RESERVA_REPROG /\
   causa_reprogramada cfg st msg /\
   exists ha,
     resp_horaAsignada resp = Some ha /\
     primera_candidata cfg st (m_numPersonas msg) ha /\
     reservar (contarReprogramada st) msg ha = Some st') \/
  (resp_tipo resp = RESP_RESERVA_NEGADA /\
   resp_horaAsignada resp = None /\
   causa_negada cfg st msg /\
   st' = contarNegada st).
Proof.
  intros Hok Hsin Hrun.
  pose proof (cupo_int_con_cupo cfg st (m_horaSolicitada msg)
                (m_numPersonas msg) Hsin) as Hcupo.
  assert (forall h, candidata_int (ocupacionPorHora st) (aforoMaximo cfg)
                      (m_numPersonas msg) h <->
                    candidata_valida (ocupacionPorHora st) (aforoMaximo cfg)
                      (m_numPersonas msg) h) as Hcand
    by (intros h; now apply candidata_int_valida).
  assert (forall ha, primera_int cfg st (m_numPersonas msg) ha ->
                     primera_candidata cfg st (m_numPersonas msg) ha) as Hprim.
  { intros ha (Hr & Hval & Hmin). split; [exact Hr|]. split; [now apply Hcand|].
    intros h' Hh' Hc. apply (Hmin h' Hh'). now apply Hcand. }
  assert (sin_candidata_int cfg st (m_numPersonas msg) ->
          sin_candidata cfg st (m_numPersonas msg)) as Hnada.
  { intros Hno h' Hh' Hc. apply (Hno h' Hh'). now apply Hcand. }
  destruct (procesar_decision_int cfg st msg st' resp Hok Hrun)
    as [(Ht & Ha & (Hv & Hn & Hr & Hc) & Hres)
       | [(Ht & (Hv & Hn & Hcausa) & ha & Ha & Hp & Hres)
         | (Ht & Ha & Hcausa & Hst)]].
  - left. split; [exact Ht|]. split; [exact Ha|]. split; [|exact Hres].
    split; [exact Hv|]. split; [exact Hn|]. split; [exact Hr|]. now apply Hcupo.
  - right; left. split; [exact Ht|]. split.
    + split; [exact Hv|]. split; [exact Hn|]. split.
      * destruct Hcausa as [Hl|[Hf Hno]]; [now left|right].
        split; [exact Hf|]. intros Hc. apply Hno. now apply Hcupo.
      * exists ha. now apply Hprim.
    + exists ha. split; [exact Ha|]. split; [now apply Hprim|exact Hres].
  - right; right. split; [exact Ht|]. split; [exact Ha|]. split; [|exact Hst].
    destruct Hcausa as [Hv|[Hn|[Hf|[Hlate Hno]]]].
    + now left.
    + right; now left.
    + right; right; now left.
    + right; right; right. split; [|now apply Hnada].
      destruct Hlate as [Hl|Hc]; [now left|right].
      intros Hc'. apply Hc. now apply Hcupo.
Qed.

Lemma causas_excluyentes (cfg : Config) (st : Estado) (msg : MensajeAgente) :
  (causa_aprobada cfg st msg -> causa_reprogramada cfg st msg -> False) /\
  (causa_aprobada cfg st msg -> causa_negada cfg st msg -> False) /\
  (causa_reprogramada cfg st msg -> causa_negada cfg st msg -> False).
Proof.
  unfold causa_aprobada, causa_reprogramada, causa_negada. repeat split.
  - intros (_ & _ & Hr & Hc) (_ & _ & [Hl|[_ Hno]] & _); [lia|tauto].
  - intros (Hv & Hn & Hr & Hc) [Hv'|[Hn'|[[_ Hf]|[[Hl|Hno] _]]]];
      first [congruence | lia | tauto].
  - intros (Hv & Hn & Hlate & ha & Hha) [Hv'|[Hn'|[[Hl Hf]|[_ Hsin]]]].
    + congruence.
    + lia.
    + destruct Hlate as [Hlate|[Hfin _]]; lia.
    + exact (candidata_sin_candidata cfg st _ ha Hha Hsin).
Qed.

(** X1.  Where the sums of a counter and the party size fit an [int], an
    answer is APPROVED exactly when the requested hour is in the
    operating range and in what is left of the day, the party is within
    the capacity, and every hour the reservation is charged for has room. *)
Theorem aprobada_sii (cfg : Config) (st : Estado) (msg : MensajeAgente)
    (st' : Estado) (resp : RespuestaControlador) :
  tabla_ok (ocupacionPorHora st) ->
  sin_desborde (ocupacionPorHora st) (m_numPersonas msg) ->
  procesarSolicitudReserva cfg st msg = Some (st', resp) ->
  (resp_tipo resp = RESP_RESERVA_OK <-> causa_aprobada cfg st msg).
Proof.
  intros Hok Hsin Hrun.
  destruct (causas_excluyentes cfg st msg) as (Har & Han & _).
  destruct (procesar_decision cfg st msg st' resp Hok Hsin Hrun)
    as [(Ht & _ & Hc & _) | [(Ht & Hc & _) | (Ht & _ & Hc & _)]];
    rewrite Ht; split; intros H; try discriminate; try assumption;
    try reflexivity; exfalso; eauto.
Qed.

(** X2.  Where the sums of a counter and the party size fit an [int], an
    answer is RESCHEDULED exactly when the request is well formed,
    arrives late or finds its own hour without room, and the search range
    holds a valid candidate. *)
Theorem reprogramada_sii (cfg : Config) (st : Estado) (msg : MensajeAgente)
    (st' : Estado) (resp : RespuestaControlador) :
  tabla_ok (ocupacionPorHora st) ->
  sin_desborde (ocupacionPorHora st) (m_numPersonas msg) ->
  procesarSolicitudReserva cfg st msg = Some (st', resp) ->
  (resp_tipo resp = RESP_RESERVA_REPROG <-> causa_reprogramada cfg st msg).
Proof.
  intros Hok Hsin Hrun.
  destruct (causas_excluyentes cfg st msg) as (Har & _ & Hrn).
  destruct (procesar_decision cfg st msg st' resp Hok Hsin Hrun)
    as [(Ht & _ & Hc & _) | [(Ht & Hc & _) | (Ht & _ & Hc & _)]];
    rewrite Ht; split; intros H; try discriminate; try assumption;
    try reflexivity; exfalso; eauto.
Qed.

(** X3.  Where the sums of a counter and the party size fit an [int], an
    answer is DENIED exactly when the hour is outside the operating
    range, or the party exceeds the capacity, or the hour is past the end
    of the day, or the request is late or without room and the search
    range holds no valid candidate. *)
Theorem negada_sii (cfg : Config) (st : Estado) (msg : MensajeAgente)
    (st' : Estado) (resp : RespuestaControlador) :
  tabla_ok (ocupacionPorHora st) ->
  sin_desborde (ocupacionPorHora st) (m_numPersonas msg) ->
  procesarSolicitudReserva cfg st msg = Some (st', resp) ->
  (resp_tipo resp = RESP_RESERVA_NEGADA <-> causa_negada cfg st msg).
Proof.
  intros Hok Hsin Hrun.
  destruct (causas_excluyentes cfg st msg) as (_ & Han & Hrn).
  destruct (procesar_decision cfg st msg st' resp Hok Hsin Hrun)
    as [(Ht & _ & Hc & _) | [(Ht & Hc & _) | (Ht & _ & Hc & _)]];
    rewrite Ht; split; intros H; try discriminate; try assumption;
    try reflexivity; exfalso; eauto.
Qed.

(** X4.  The hour an answer assigns lies in the operating range and in what
    is left of the day.  A rescheduled hour is never the requested hour
    and its whole window ends within the day; where the sums of a
    counter and the party size fit an [int], it is the first valid
    candidate of the search. *)
Theorem hora_asignada_en_el_dia (cfg : Config) (st : Estado)
    (msg : MensajeAgente) (st' : Estado) (resp : RespuestaControlador)
    (h : Z) :
  tabla_ok (ocupacionPorHora st) ->
  procesarSolicitudReserva cfg st msg = Some (st', resp) ->
  resp_horaAsignada resp = Some h ->
  validarHora h = true /\
  horaActual st <= h <= horaFinal cfg /\
  (resp_tipo resp = RESP_RESERVA_REPROG ->
   h <> m_horaSolicitada msg /\
   validarHora (h + 1) = true /\
   h + 1 <= horaFinal cfg /\
   (sin_desborde (ocupacionPorHora st) (m_numPersonas msg) ->
    primera_candidata cfg st (m_numPersonas msg) h)).
Proof.
  intros Hok Hrun Hh.
  destruct (procesar_decision_int cfg st msg st' resp Hok Hrun)
    as [(Ht & Ha & (Hv & _ & Hr & _) & _)
       | [(Ht & (_ & _ & Hcausa) & ha & Ha & Hprim & _)
         | (_ & Ha & _)]].
  - rewrite Ha in Hh. injection Hh as <-.
    split; [assumption|]. split; [assumption|]. rewrite Ht. discriminate.
  - rewrite Ha in Hh. injection Hh as <-.
    pose proof Hprim as (Hr & Hval & Hmin).
    destruct (Hval 0) as [Hv0 _]; [unfold DURACION_RESERVA; lia|].
    destruct (Hval 1) as [Hv1 _]; [unfold DURACION_RESERVA; lia|].
    rewrite Z.add_0_r in Hv0. unfold DURACION_RESERVA in Hr.
    split; [assumption|]. split; [lia|]. intros _.
    split; [|split; [assumption|split; [lia|]]].
    + intros ->. destruct Hcausa as [Hl|[_ Hno]]; [lia|].
      apply Hno. intros x Hx. now apply (candidata_int_cubierta _ _ _ _ _ Hval).
    + intros Hsin. split; [unfold DURACION_RESERVA; lia|]. split.
      * now apply (candidata_int_valida _ _ _ _ Hsin).
      * intros h' Hh' Hc. apply (Hmin h' Hh').
        now apply (candidata_int_valida _ _ _ _ Hsin).
  - congruence.
Qed.

(** X5.  A rescheduled request gets the first free window from the current
    hour on, wherever the requested hour lies: when some hour between
    the current one and the requested one is a valid candidate, the hour
    assigned is no later than it, hence earlier than the hour asked for.
    The sums of a counter and the party size are taken where they fit
    an [int]. *)
Theorem reprogramada_puede_adelantar (cfg : Config) (st : Estado)
    (msg : MensajeAgente) (st' : Estado) (resp : RespuestaControlador)
    (h h' : Z) :
  tabla_ok (ocupacionPorHora st) ->
  sin_desborde (ocupacionPorHora st) (m_numPersonas msg) ->
  procesarSolicitudReserva cfg st msg = Some (st', resp) ->
  resp_tipo resp = RESP_RESERVA_REPROG ->
  resp_horaAsignada resp = Some h ->
  horaActual st <= h' < m_horaSolicitada msg ->
  candidata_valida (ocupacionPorHora st) (aforoMaximo cfg)
    (m_numPersonas msg) h' ->
  h <= h' /\ h < m_horaSolicitada msg.
Proof.
  intros Hok Hsin Hrun Htipo Hh Hh' Hval.
  destruct (procesar_decision cfg st msg st' resp Hok Hsin Hrun)
    as [(Ht & _) | [(_ & _ & ha & Ha & (_ & _ & Hmin) & _) | (Ht & _)]];
    [congruence| |congruence].
  rewrite Ha in Hh. injection Hh as <-.
  destruct (Z.le_gt_cases ha h') as [Hle|Hgt]; [lia|].
  destruct (Hmin h' ltac:(lia) Hval).
Qed.

(** ** The store and the table over a day *)

Lemma personas_en_app (rs : list Reserva) (r : Reserva) (x : Z) :
  personas_en (rs ++ [r]) x
  = personas_en rs x + (if ocupa r x then r_numPersonas r else 0).
Proof.
  unfold personas_en. induction rs as [|r0 rs IH]; simpl; [lia|].
  rewrite IH. lia.
Qed.

Lemma tick_misma_reserva (hora : Z) (r : Reserva) :
  misma_reserva r (desactivarReserva hora (activarReserva hora r)).
Proof.
  unfold misma_reserva, desactivarReserva, activarReserva.
  destruct ((r_horaInicio r =? hora) && negb (r_activa r)); simpl;
    match goal with |- context [if ?c then _ else _] => destruct c end;
    simpl; repeat split.
Qed.

Lemma personas_en_tick (hora : Z) (rs : list Reserva) (x : Z) :
  personas_en (map (desactivarReserva hora) (map (activarReserva hora) rs)) x
  = personas_en rs x.
Proof.
  unfold personas_en. induction rs as [|r rs IH]; simpl; [reflexivity|].
  rewrite IH. f_equal.
  destruct (tick_misma_reserva hora r) as (_ & _ & Hi & Hf & Hn).
  unfold ocupa. now rewrite Hi, Hf, Hn.
Qed.

Lemma ocupa_nuevaReserva (msg : MensajeAgente) (h x : Z) :
  validarHora h = true -> validarHora x = true ->
  ocupa (nuevaReserva msg h) x = cubierta h x.
Proof.
  intros Hh Hx. unfold ocupa, cubierta, cubre, nuevaReserva. simpl.
  rewrite Hh, Hx. simpl. f_equal.
  change (Z.of_nat (Z.to_nat DURACION_RESERVA)) with DURACION_RESERVA.
  unfold DURACION_RESERVA.
  destruct (Z.leb_spec x (h + 2 - 1)), (Z.ltb_spec x (h + 2)); (reflexivity || lia).
Qed.

Lemma registro_ok_tick (cfg : Config) (hora : Z) (r : Reserva) :
  registro_ok cfg hora r ->
  registro_ok cfg (hora + 1)
    (desactivarReserva (hora + 1) (activarReserva (hora + 1) r)).
Proof.
  unfold registro_ok, desactivarReserva, activarReserva, DURACION_RESERVA.
  intros (Hv & Hfin & Hr & Hn & Hact).
  destruct (Z.eqb_spec (r_horaInicio r) (hora + 1)) as [Hini|Hini];
    destruct (r_activa r) eqn:Ha; simpl;
    destruct (Z.ltb_spec (r_horaFin r) (hora + 1)) as [Hf|Hf]; simpl;
    rewrite ?Ha; simpl; repeat split; try assumption; try lia;
    intros; try discriminate; try (specialize (Hact eq_refl)); lia.
Qed.

(** What a step is. *)
Lemma paso_formas (cfg : Config) (st : Estado) (ev : Evento) (st' : Estado) :
  paso cfg st ev = Some st' ->
  (exists msg resp,
     es_solicitud ev = Some msg /\
     procesarSolicitudReserva cfg st msg = Some (st', resp)) \/
  (es_solicitud ev = None /\
   ((exists msg, st' = fst (registrarAgente st msg)) \/
    st' = st \/
    (horaActual st <= horaFinal cfg /\ st' = avanzarHora st))).
Proof.
  intros Hpaso. destruct ev as [msg|]; simpl in *.
  - unfold procesarMensaje in Hpaso. destruct (m_tipo msg) eqn:Ht; simpl in Hpaso.
    + injection Hpaso as <-. right. split; [reflexivity|]. left. now exists msg.
    + destruct (procesarSolicitudReserva cfg st msg) as [[st1 resp]|] eqn:Hp;
        simpl in Hpaso; [|discriminate].
      injection Hpaso as <-. left. now exists msg, resp.
    + injection Hpaso as <-. right. split; [reflexivity|]. right. now left.
  - injection Hpaso as <-. right. split; [reflexivity|]. right.
    unfold hiloReloj_paso. rewrite andb_true_r.
    destruct (Z.leb_spec (horaActual st) (horaFinal cfg)); [right|left]; tauto.
Qed.

Lemma dia_ok_inicial (cfg : Config) :
  config_valida cfg -> dia_ok cfg (inicializarServidor cfg).
Proof.
  intros (_ & _ & Hlt & _ & _). unfold dia_ok. simpl.
  split; [apply tabla_ok_inicial|]. split; [lia|]. split; [constructor|].
  unfold numReservas, numAgentes, MAX_AGENTES. simpl. lia.
Qed.

Lemma dia_ok_reservar (cfg : Config) (st0 st st' : Estado)
    (msg : MensajeAgente) (h : Z) :
  dia_ok cfg st0 ->
  horaActual st = horaActual st0 ->
  ocupacionPorHora st = ocupacionPorHora st0 ->
  reservas st = reservas st0 ->
  agentesRegistrados st = agentesRegistrados st0 ->
  solicitudesAceptadas st + solicitudesReprogramadas st
  = solicitudesAceptadas st0 + solicitudesReprogramadas st0 + 1 ->
  0 <= solicitudesAceptadas st -> 0 <= solicitudesReprogramadas st ->
  solicitudesNegadas st = solicitudesNegadas st0 ->
  validarHora h = true ->
  horaActual st0 <= h <= horaFinal cfg ->
  m_numPersonas msg <= aforoMaximo cfg ->
  reservar st msg h = Some st' ->
  dia_ok cfg st'.
Proof.
  intros (Hok & Hhora & Hregs & Hnum & (Ha & Hr & Hn) & Hag)
    Eh Et Er Eag Est Ha' Hr' En Hv Hrango Hpers Hres.
  apply reservar_inv in Hres as ((Eh' & Er' & Eag' & Hok' & Hcnt) & Sn & Sa & Sr);
    [|now rewrite Et].
  unfold dia_ok, numReservas, numAgentes in *.
  rewrite Eh', Er', Eag', Sn, Sa, Sr, Eh, Er, Eag.
  split; [assumption|]. split; [assumption|]. split.
  { apply Forall_app. split; [assumption|]. constructor; [|constructor].
    unfold registro_ok, nuevaReserva. simpl.
    repeat split; first [assumption | lia | discriminate]. }
  split; [rewrite length_app; simpl; lia|].
  split; [lia|assumption].
Qed.

Lemma dia_ok_paso (cfg : Config) (st : Estado) (ev : Evento) (st' : Estado) :
  dia_ok cfg st -> paso cfg st ev = Some st' -> dia_ok cfg st'.
Proof.
  intros Hdia Hpaso. pose proof Hdia as (Hok & Hhora & Hregs & Hnum & Hst & Hag).
  destruct (paso_formas cfg st ev st' Hpaso)
    as [(msg & resp & _ & Hp) | (_ & [(msg & ->) | [-> | (Hle & ->)]])].
  - destruct (procesar_decision_int cfg st msg st' resp Hok Hp)
      as [(_ & _ & (Hv & Hn & Hr & _) & Hres)
         | [(_ & (_ & Hn & _) & ha & _ & (Hr & Hval & _) & Hres)
           | (_ & _ & _ & ->)]].
    + apply (dia_ok_reservar cfg st (contarAceptada st) st' msg
               (m_horaSolicitada msg)); simpl; try assumption; try reflexivity; lia.
    + destruct (Hval 0) as [Hv0 _]; [unfold DURACION_RESERVA; lia|].
      rewrite Z.add_0_r in Hv0. unfold DURACION_RESERVA in Hr.
      apply (dia_ok_reservar cfg st (contarReprogramada st) st' msg ha);
        simpl; try assumption; try reflexivity; lia.
    + unfold dia_ok. simpl. repeat split; try assumption; try tauto; lia.
  - unfold dia_ok, registrarAgente. simpl.
    repeat split; try assumption; try tauto.
    unfold numAgentes in *. simpl.
    destruct (Z.ltb_spec (Z.of_nat (length (agentesRegistrados st))) MAX_AGENTES);
      [rewrite length_app; simpl; lia | assumption].
  - assumption.
  - unfold dia_ok. simpl. split; [assumption|]. split; [lia|]. split.
    { rewrite !Forall_fmap. eapply Forall_impl; [exact Hregs|].
      intros r Hr. now apply registro_ok_tick. }
    unfold numReservas, numAgentes in *. simpl. rewrite !length_map.
    repeat split; try assumption; tauto.
Qed.

Lemma dia_ok_ejecutar (cfg : Config) (evs : list Evento) : forall st st',
  dia_ok cfg st -> ejecutar cfg st evs = Some st' -> dia_ok cfg st'.
Proof.
  induction evs as [|ev evs IH]; intros st st' Hdia Hrun; simpl in Hrun.
  - now injection Hrun as <-.
  - destruct (paso cfg st ev) as [st1|] eqn:Hp; simpl in Hrun; [|discriminate].
    apply (IH st1 st'); [|exact Hrun]. exact (dia_ok_paso cfg st ev st1 Hdia Hp).
Qed.

(** ** What a step leaves alone *)

Lemma reservar_marco (st : Estado) (msg : MensajeAgente) (h : Z) (st' : Estado) :
  reservar st msg h = Some st' ->
  horaActual st' = horaActual st /\
  reservas st' = reservas st ++ [nuevaReserva msg h] /\
  agentesRegistrados st' = agentesRegistrados st /\
  solicitudesNegadas st' = solicitudesNegadas st /\
  solicitudesAceptadas st' = solicitudesAceptadas st /\
  solicitudesReprogramadas st' = solicitudesReprogramadas st.
Proof.
  unfold reservar. intros H.
  destruct (numReservas st <? MAX_RESERVAS); [|discriminate].
  destruct (ocupar _ _ _ _) as [tabla'|]; simpl in H; [|discriminate].
  injection H as <-. simpl. repeat split.
Qed.

(** A handled request appends at most one record, inactive, counts
    itself once in the statistics, and touches neither the clock nor the
    registry. *)
Lemma procesar_marco (cfg : Config) (st : Estado) (msg : MensajeAgente)
    (st' : Estado) (resp : RespuestaControlador) :
  procesarSolicitudReserva cfg st msg = Some (st', resp) ->
  horaActual st' = horaActual st /\
  agentesRegistrados st' = agentesRegistrados st /\
  total_solicitudes st' = total_solicitudes st + 1 /\
  (reservas st' = reservas st \/
   exists h, reservas st' = reservas st ++ [nuevaReserva msg h]).
Proof.
  intros Hrun. unfold total_solicitudes.
  destruct (procesar_inv cfg st msg st' resp Hrun)
    as [(_ & _ & ->) | [(_ & _ & _ & _ & Hres) | (_ & ha & _ & _ & Hres)]].
  - simpl. repeat split; [lia | now left].
  - apply reservar_marco in Hres as (-> & -> & -> & -> & -> & ->). simpl.
    repeat split; [lia | right; eauto].
  - apply reservar_marco in Hres as (-> & -> & -> & -> & -> & ->). simpl.
    repeat split; [lia | right; eauto].
Qed.

Lemma lookup_tick (hora : Z) (rs : list Reserva) (i : nat) (r : Reserva) :
  rs !! i = Some r ->
  map (desactivarReserva hora) (map (activarReserva hora) rs) !! i
  = Some (desactivarReserva hora (activarReserva hora r)).
Proof. intros Hi. now rewrite !list_lookup_fmap, Hi. Qed.

Lemma tick_sigue_inactiva (hora : Z) (r : Reserva) :
  r_activa r = false -> r_horaInicio r <> hora ->
  r_activa (desactivarReserva hora (activarReserva hora r)) = false.
Proof.
  intros Ha Hne. unfold desactivarReserva, activarReserva.
  destruct (Z.eqb_spec (r_horaInicio r) hora); [contradiction|]. simpl.
  rewrite Ha, andb_false_r. exact Ha.
Qed.

Lemma misma_reserva_refl (r : Reserva) : misma_reserva r r.
Proof. unfold misma_reserva. repeat split. Qed.

Lemma misma_reserva_trans (r1 r2 r3 : Reserva) :
  misma_reserva r1 r2 -> misma_reserva r2 r3 -> misma_reserva r1 r3.
Proof.
  unfold misma_reserva. intros (?&?&?&?&?) (?&?&?&?&?).
  repeat split; congruence.
Qed.

(** One step: the clock does not go back, every stored record stays
    where it is with its fields, and a record that is inactive and whose
    start is not ahead of the clock stays inactive. *)
Lemma paso_reservas (cfg : Config) (st : Estado) (ev : Evento) (st' : Estado) :
  paso cfg st ev = Some st' ->
  horaActual st <= horaActual st' /\
  forall (i : nat) (r : Reserva), reservas st !! i = Some r ->
    exists r',
      reservas st' !! i = Some r' /\ misma_reserva r r' /\
      (r_activa r = false -> r_horaInicio r <= horaActual st ->
       r_activa r' = false).
Proof.
  intros Hpaso.
  destruct (paso_formas cfg st ev st' Hpaso)
    as [(msg & resp & _ & Hp) | (_ & [(msg & ->) | [-> | (Hle & ->)]])].
  - destruct (procesar_marco cfg st msg st' resp Hp) as (-> & _ & _ & Hrs).
    split; [lia|]. intros i r Hi. exists r.
    split; [|split; [apply misma_reserva_refl|tauto]].
    destruct Hrs as [->|(h & ->)]; [assumption|]. now apply lookup_app_l_Some.
  - simpl. split; [lia|]. intros i r Hi. exists r.
    split; [assumption|]. split; [apply misma_reserva_refl|tauto].
  - split; [lia|]. intros i r Hi. exists r.
    split; [assumption|]. split; [apply misma_reserva_refl|tauto].
  - split; [simpl; lia|]. intros i r Hi.
    exists (desactivarReserva (horaActual st + 1)
              (activarReserva (horaActual st + 1) r)).
    split; [exact (lookup_tick _ _ _ _ Hi)|].
    split; [apply tick_misma_reserva|].
    intros Ha Hini. apply tick_sigue_inactiva; [assumption|lia].
Qed.

(** X6.  The store only grows: over any run every stored record keeps its
    place and all its fields but the active flag. *)
Theorem reservas_nunca_se_pierden (cfg : Config) (evs : list Evento) :
  forall (st st' : Estado) (i : nat) (r : Reserva),
  ejecutar cfg st evs = Some st' ->
  reservas st !! i = Some r ->
  exists r', reservas st' !! i = Some r' /\ misma_reserva r r'.
Proof.
  induction evs as [|ev evs IH]; intros st st' i r Hrun Hi; simpl in Hrun.
  - injection Hrun as <-. exists r. split; [assumption|apply misma_reserva_refl].
  - destruct (paso cfg st ev) as [st1|] eqn:Hp; simpl in Hrun; [|discriminate].
    destruct (paso_reservas cfg st ev st1 Hp) as (_ & Hkeep).
    destruct (Hkeep i r Hi) as (r1 & Hi1 & Hm1 & _).
    destruct (IH st1 st' i r1 Hrun Hi1) as (r' & Hi' & Hm').
    exists r'. split; [assumption|]. now apply (misma_reserva_trans r r1 r').
Qed.

(** X7.  A record that is inactive when its start hour is already on the
    clock is never activated: over any run that follows it stays
    inactive.  So a reservation approved for the current hour, or
    rescheduled to it, is never marked active. *)
Theorem reserva_de_la_hora_actual_nunca_activa
    (cfg : Config) (evs : list Evento) :
  forall (st st' : Estado) (i : nat) (r : Reserva),
  ejecutar cfg st evs = Some st' ->
  reservas st !! i = Some r ->
  r_activa r = false ->
  r_horaInicio r <= horaActual st ->
  exists r',
    reservas st' !! i = Some r' /\ misma_reserva r r' /\ r_activa r' = false.
Proof.
  induction evs as [|ev evs IH]; intros st st' i r Hrun Hi Ha Hini; simpl in Hrun.
  - injection Hrun as <-. exists r.
    split; [assumption|]. split; [apply misma_reserva_refl|assumption].
  - destruct (paso cfg st ev) as [st1|] eqn:Hp; simpl in Hrun; [|discriminate].
    destruct (paso_reservas cfg st ev st1 Hp) as (Hmono & Hkeep).
    destruct (Hkeep i r Hi) as (r1 & Hi1 & Hm1 & Ha1).
    specialize (Ha1 Ha Hini).
    destruct (IH st1 st' i r1 Hrun Hi1 Ha1) as (r' & Hi' & Hm' & Ha').
    { destruct Hm1 as (_ & _ & -> & _). lia. }
    exists r'. split; [assumption|].
    split; [now apply (misma_reserva_trans r r1 r')|assumption].
Qed.

(** The clock never goes back. *)
Lemma hora_no_retrocede (cfg : Config) (evs : list Evento) :
  forall st st', ejecutar cfg st evs = Some st' ->
  horaActual st <= horaActual st'.
Proof.
  induction evs as [|ev evs IH]; intros st st' Hrun; simpl in Hrun.
  - injection Hrun as <-. lia.
  - destruct (paso cfg st ev) as [st1|] eqn:Hp; simpl in Hrun; [|discriminate].
    destruct (paso_reservas cfg st ev st1 Hp) as (Hmono & _).
    specialize (IH st1 st' Hrun). lia.
Qed.

(** ** A day from start-up *)

Lemma personas_en_no_negativa (rs : list Reserva) (x : Z) :
  Forall (fun r => 0 <= r_numPersonas r) rs -> 0 <= personas_en rs x.
Proof.
  unfold personas_en. induction 1 as [|r rs Hr _ IH]; simpl; [lia|].
  destruct (ocupa r x); lia.
Qed.

Lemma dia_suma_inicial (cfg : Config) :
  0 < aforoMaximo cfg -> dia_suma cfg (inicializarServidor cfg).
Proof.
  intros Haforo. split; [constructor|]. split.
  - intros x _. simpl. rewrite contador_inicial. lia.
  - intros x _. simpl. apply contador_inicial.
Qed.

(** Under a capacity whose double fits an [int], a step whose request
    carries no negative party overflows no sum: each counter stays the
    sum of the parties that hold its hour. *)
Lemma dia_suma_paso (cfg : Config) (st : Estado) (ev : Evento) (st' : Estado) :
  2 * aforoMaximo cfg <= INT_MAX ->
  tabla_ok (ocupacionPorHora st) ->
  (forall msg, es_solicitud ev = Some msg -> 0 <= m_numPersonas msg) ->
  dia_suma cfg st -> paso cfg st ev = Some st' -> dia_suma cfg st'.
Proof.
  intros Haforo Hok Hev (Hpos & Hinv & Hsum) Hpaso.
  destruct (paso_formas cfg st ev st' Hpaso)
    as [(msg & resp & Hs & Hp) | (_ & [(msg & ->) | [-> | (Hle & ->)]])].
  - pose proof (procesar_efecto cfg st msg st' resp Hok Hp) as He.
    pose proof (procesar_sin_sobrecupo cfg st msg st' resp Hok Hp Hinv) as Hinv'.
    destruct (resp_horaAsignada resp) as [h|] eqn:Hh.
    + destruct He as ((_ & Er & _ & _ & Hcnt) & _ & Hv).
      pose proof (procesar_asignada_aforo _ _ _ _ _ _ Hp Hh) as Hle.
      specialize (Hev msg Hs).
      split; [|split; [exact Hinv'|]].
      * rewrite Er. apply Forall_app. split; [exact Hpos|].
        constructor; [exact Hev | constructor].
      * intros x Hx.
        rewrite (Hcnt x Hx), Er, personas_en_app,
          (ocupa_nuevaReserva msg h x Hv Hx), <- (Hsum x Hx).
        destruct (cubierta h x); [|lia].
        unfold suma_int. rewrite a_int_exacto; [reflexivity|].
        pose proof (personas_en_no_negativa (reservas st) x Hpos) as H0.
        rewrite <- (Hsum x Hx) in H0. specialize (Hinv x Hx).
        unfold en_int, INT_MIN, INT_MAX in *. lia.
    + destruct He as [Et Er]. unfold dia_suma. rewrite Et, Er. tauto.
  - unfold dia_suma, registrarAgente. simpl. tauto.
  - unfold dia_suma. tauto.
  - unfold dia_suma. simpl. split; [|split; [exact Hinv|]].
    + rewrite !Forall_fmap. eapply Forall_impl; [exact Hpos|].
      intros r Hr. unfold compose.
      destruct (tick_misma_reserva (horaActual st + 1) r) as (_ & _ & _ & _ & ->).
      exact Hr.
    + intros x Hx. rewrite personas_en_tick. now apply Hsum.
Qed.

Lemma dia_suma_ejecutar (cfg : Config) (evs : list Evento) : forall st st',
  2 * aforoMaximo cfg <= INT_MAX ->
  tabla_ok (ocupacionPorHora st) ->
  Forall (fun msg => 0 <= m_numPersonas msg) (solicitudes evs) ->
  dia_suma cfg st -> ejecutar cfg st evs = Some st' -> dia_suma cfg st'.
Proof.
  induction evs as [|ev evs IH]; intros st st' Haforo Hok Hn Hdia Hrun;
    simpl in Hrun.
  - now injection Hrun as <-.
  - destruct (paso cfg st ev) as [st1|] eqn:Hp; simpl in Hrun; [|discriminate].
    apply (IH st1 st'); [exact Haforo| | | |exact Hrun].
    + exact (paso_tabla_ok cfg st ev st1 Hok Hp).
    + unfold solicitudes in *. simpl in Hn.
      destruct (es_solicitud ev); [now inversion Hn|exact Hn].
    + apply (dia_suma_paso cfg st ev st1 Haforo Hok); [|exact Hdia|exact Hp].
      intros msg Hs. unfold solicitudes in Hn. simpl in Hn.
      rewrite Hs in Hn. now inversion Hn.
Qed.

(** The table of a day whose requests carry no negative party, under a
    capacity whose double fits an [int]. *)
Lemma dia_suma_del_dia (cfg : Config) (evs : list Evento) (st : Estado) :
  config_valida cfg ->
  2 * aforoMaximo cfg <= INT_MAX ->
  Forall (fun msg => 0 <= m_numPersonas msg) (solicitudes evs) ->
  ejecutar cfg (inicializarServidor cfg) evs = Some st ->
  dia_suma cfg st.
Proof.
  intros (_ & _ & _ & _ & Hpos) Haforo Hn Hrun.
  apply (dia_suma_ejecutar cfg evs (inicializarServidor cfg) st Haforo
           tabla_ok_inicial Hn (dia_suma_inicial cfg Hpos) Hrun).
Qed.

(** X8.  Over a day whose requests carry no negative party size, under a
    capacity whose double fits an [int], the counter of each hour of the
    operating window is in every state the total party size of the
    stored reservations whose interval from start to end contains that
    hour. *)
Theorem tabla_coincide_con_reservas
    (cfg : Config) (evs : list Evento) (st : Estado) :
  config_valida cfg ->
  2 * aforoMaximo cfg <= INT_MAX ->
  Forall (fun msg => 0 <= m_numPersonas msg) (solicitudes evs) ->
  ejecutar cfg (inicializarServidor cfg) evs = Some st ->
  forall x, validarHora x = true ->
    contador (ocupacionPorHora st) x = personas_en (reservas st) x.
Proof.
  intros Hcfg Haforo Hn Hrun.
  apply (dia_suma_del_dia cfg evs st Hcfg Haforo Hn Hrun).
Qed.

(** X9.  Every stored reservation starts in the operating range, between the
    initial and the final hour of the day, lasts two hours, and has a
    party within the capacity. *)
Theorem reservas_dentro_del_dia
    (cfg : Config) (evs : list Evento) (st : Estado) (r : Reserva) :
  config_valida cfg ->
  ejecutar cfg (inicializarServidor cfg) evs = Some st ->
  r ∈ reservas st ->
  validarHora (r_horaInicio r) = true /\
  r_horaFin r = r_horaInicio r + 1 /\
  horaInicial cfg <= r_horaInicio r <= horaFinal cfg /\
  r_numPersonas r <= aforoMaximo cfg.
Proof.
  intros Hcfg Hrun Hr.
  destruct (dia_ok_ejecutar cfg evs _ st (dia_ok_inicial cfg Hcfg) Hrun)
    as (_ & _ & Hregs & _).
  rewrite Forall_forall in Hregs.
  destruct (Hregs r Hr) as (Hv & Hfin & Hrango & Hn & _).
  unfold DURACION_RESERVA in Hfin. repeat split; try assumption; lia.
Qed.

(** X10.  A stored reservation is marked active only while the clock is
    between its start and its end; one whose end is past is inactive. *)
Theorem reserva_activa_en_curso
    (cfg : Config) (evs : list Evento) (st : Estado) (r : Reserva) :
  config_valida cfg ->
  ejecutar cfg (inicializarServidor cfg) evs = Some st ->
  r ∈ reservas st ->
  (r_activa r = true -> r_horaInicio r <= horaActual st <= r_horaFin r) /\
  (r_horaFin r < horaActual st -> r_activa r = false).
Proof.
  intros Hcfg Hrun Hr.
  destruct (dia_ok_ejecutar cfg evs _ st (dia_ok_inicial cfg Hcfg) Hrun)
    as (_ & _ & Hregs & _).
  rewrite Forall_forall in Hregs.
  destruct (Hregs r Hr) as (_ & _ & _ & _ & Hact).
  split; [exact Hact|]. intros Hfin.
  destruct (r_activa r); [specialize (Hact eq_refl); lia | reflexivity].
Qed.

Lemma total_paso (cfg : Config) (st : Estado) (ev : Evento) (st' : Estado) :
  paso cfg st ev = Some st' ->
  total_solicitudes st'
  = total_solicitudes st + Z.of_nat (length (solicitudes [ev])).
Proof.
  intros Hpaso. unfold solicitudes. simpl.
  destruct (paso_formas cfg st ev st' Hpaso)
    as [(msg & resp & -> & Hp) | (-> & [(msg & ->) | [-> | (Hle & ->)]])].
  - destruct (procesar_marco cfg st msg st' resp Hp) as (_ & _ & -> & _).
    simpl. lia.
  - unfold total_solicitudes. simpl. lia.
  - simpl. lia.
  - unfold total_solicitudes. simpl. lia.
Qed.

Lemma total_ejecutar (cfg : Config) (evs : list Evento) : forall st st',
  ejecutar cfg st evs = Some st' ->
  total_solicitudes st'
  = total_solicitudes st + Z.of_nat (length (solicitudes evs)).
Proof.
  induction evs as [|ev evs IH]; intros st st' Hrun; simpl in Hrun.
  - injection Hrun as <-. simpl. lia.
  - destruct (paso cfg st ev) as [st1|] eqn:Hp; simpl in Hrun; [|discriminate].
    rewrite (IH st1 st' Hrun), (total_paso cfg st ev st1 Hp),
      (solicitudes_cons ev evs).
    lia.
Qed.

(** X11.  The three statistics never go negative, every stored reservation is
    counted once as accepted or rescheduled, and the three together
    count the reservation requests handled. *)
Theorem estadisticas_cuadran
    (cfg : Config) (evs : list Evento) (st : Estado) :
  config_valida cfg ->
  ejecutar cfg (inicializarServidor cfg) evs = Some st ->
  solicitudesAceptadas st + solicitudesReprogramadas st
    + solicitudesNegadas st = Z.of_nat (length (solicitudes evs)) /\
  numReservas st = solicitudesAceptadas st + solicitudesReprogramadas st /\
  0 <= solicitudesAceptadas st /\
  0 <= solicitudesReprogramadas st /\
  0 <= solicitudesNegadas st.
Proof.
  intros Hcfg Hrun.
  destruct (dia_ok_ejecutar cfg evs _ st (dia_ok_inicial cfg Hcfg) Hrun)
    as (_ & _ & _ & Hnum & (Ha & Hr & Hn) & _).
  pose proof (total_ejecutar cfg evs _ st Hrun) as Htot.
  unfold total_solicitudes in Htot. simpl in Htot.
  repeat split; try assumption; lia.
Qed.

(** ** The clock over a day *)

Lemma ejecutar_app (cfg : Config) (evs1 evs2 : list Evento) : forall st,
  ejecutar cfg st (evs1 ++ evs2)
  = st1 ← ejecutar cfg st evs1; ejecutar cfg st1 evs2.
Proof.
  induction evs1 as [|ev evs1 IH]; intros st; simpl; [reflexivity|].
  destruct (paso cfg st ev) as [st1|]; simpl; [apply IH|reflexivity].
Qed.

Lemma ticks_seguidos (cfg : Config) (n : nat) : forall st,
  horaActual st <= horaFinal cfg + 1 ->
  exists st',
    ejecutar cfg st (replicate n EvTick) = Some st' /\
    horaActual st' = Z.min (horaActual st + Z.of_nat n) (horaFinal cfg + 1) /\
    ocupacionPorHora st' = ocupacionPorHora st.
Proof.
  induction n as [|n IH]; intros st Hle; simpl.
  - exists st. repeat split. lia.
  - unfold hiloReloj_paso.
    destruct (Z.leb_spec (horaActual st) (horaFinal cfg)) as [Hh|Hh].
    + destruct (IH (avanzarHora st)) as (st' & Hrun & Hhora & Htab);
        [simpl; lia|].
      exists st'. split; [exact Hrun|]. simpl in Hhora, Htab.
      split; [lia|exact Htab].
    + destruct (IH st Hle) as (st' & Hrun & Hhora & Htab).
      exists st'. split; [exact Hrun|]. split; [lia|exact Htab].
Qed.

Lemma ticks_longitud (cfg : Config) (m : nat) : forall st st',
  ejecutar cfg st (replicate m EvTick) = Some st' ->
  length (reservas st') = length (reservas st).
Proof.
  induction m as [|m IH]; intros st st' Hrun; simpl in Hrun.
  - now injection Hrun as <-.
  - rewrite (IH _ _ Hrun). unfold hiloReloj_paso.
    destruct ((horaActual st <=? horaFinal cfg) && negb false);
      [simpl; now rewrite !length_map | reflexivity].
Qed.

(** The loop of the clock thread makes some number [m] of turns, each
    begun with the clock not past the final hour and the flag down; it
    ends when the fuel is spent, the clock has passed the final hour, or
    the flag is seen raised.  What it leaves is what [m] ticks leave. *)
Lemma reloj_desde_turnos (cfg : Config) (finalizar : nat -> bool) (k : nat) :
  forall (i : nat) (st : Estado),
  exists m : nat,
    (m <= k)%nat /\
    ejecutar cfg st (replicate m EvTick)
    = Some (reloj_desde cfg finalizar k i st) /\
    horaActual (reloj_desde cfg finalizar k i st)
    = horaActual st + Z.of_nat m /\
    (m = 0%nat \/ horaActual st + Z.of_nat m <= horaFinal cfg + 1) /\
    (forall j, (j < m)%nat -> finalizar (i + j)%nat = false) /\
    (m = k \/ horaFinal cfg < horaActual st + Z.of_nat m \/
     finalizar (i + m)%nat = true).
Proof.
  induction k as [|k IH]; intros i st; cbn [reloj_desde].
  - exists 0%nat. split; [lia|]. split; [reflexivity|]. split; [lia|].
    split; [now left|]. split; [intros j Hj; lia | now left].
  - destruct (Z.leb_spec (horaActual st) (horaFinal cfg)) as [Hh|Hh];
      [destruct (finalizar i) eqn:Hf|]; cbn [andb negb].
    + exists 0%nat. split; [lia|]. split; [reflexivity|]. split; [lia|].
      split; [now left|]. split; [intros j Hj; lia|].
      right; right. now rewrite Nat.add_0_r.
    + destruct (IH (S i) (avanzarHora st))
        as (m & Hm & Hrun & Hhora & Hcota & Hbaja & Hfin).
      cbn [avanzarHora horaActual] in Hhora, Hcota, Hfin.
      exists (S m). split; [lia|]. split.
      { cbn [replicate ejecutar paso]. unfold hiloReloj_paso.
        destruct (Z.leb_spec (horaActual st) (horaFinal cfg)); [|lia].
        exact Hrun. }
      split; [lia|]. split; [right; lia|]. split.
      * intros j Hj. destruct j as [|j]; [now rewrite Nat.add_0_r|].
        replace (i + S j)%nat with (S i + j)%nat by lia. apply Hbaja. lia.
      * replace (i + S m)%nat with (S i + m)%nat by lia.
        destruct Hfin as [->|[Hfin|Hfin]];
          [now left | right; left; lia | right; now right].
    + exists 0%nat. split; [lia|]. split; [reflexivity|]. split; [lia|].
      split; [now left|]. split; [intros j Hj; lia|]. right; left. lia.
Qed.

(** The clock thread on a clock not past the hour after the final one:
    it makes [m] turns, and ends with the clock at the hour after the
    final one or with the flag seen raised. *)
Lemma hiloReloj_turnos (cfg : Config) (finalizar : nat -> bool) (st : Estado) :
  horaActual st <= horaFinal cfg + 1 ->
  exists m : nat,
    ejecutar cfg st (replicate m EvTick) = Some (hiloReloj cfg finalizar st) /\
    horaActual (hiloReloj cfg finalizar st) = horaActual st + Z.of_nat m /\
    horaActual st + Z.of_nat m <= horaFinal cfg + 1 /\
    (forall j, (j < m)%nat -> finalizar j = false) /\
    (horaActual st + Z.of_nat m = horaFinal cfg + 1 \/ finalizar m = true).
Proof.
  intros Hle. unfold hiloReloj.
  destruct (reloj_desde_turnos cfg finalizar
              (Z.to_nat (horaFinal cfg - horaActual st + 1)) 0 st)
    as (m & Hm & Hrun & Hhora & Hcota & Hbaja & Hfin).
  exists m. split; [exact Hrun|]. split; [exact Hhora|].
  split; [destruct Hcota; lia|]. split; [exact Hbaja|].
  destruct Hfin as [->|[Hfin|Hfin]]; [left; lia | left | now right].
  destruct Hcota; lia.
Qed.

(** X12.  The clock thread advances the clock one hour per turn of its loop
    until the hour after the final one, or until it sees the flag
    [finalizarServidor] raised if that comes first: when the flag is
    down at the first [n] tests and raised at the next, the clock ends
    at the hour it had plus [n], or at the hour after the final one if
    fewer than [n] hours were left.  The table and the number of stored
    records are as they were. *)
Theorem reloj_tras_n_ticks
    (cfg : Config) (finalizar : nat -> bool) (n : nat) (st : Estado) :
  horaActual st <= horaFinal cfg + 1 ->
  (forall j, (j < n)%nat -> finalizar j = false) ->
  finalizar n = true ->
  horaActual (hiloReloj cfg finalizar st)
  = Z.min (horaActual st + Z.of_nat n) (horaFinal cfg + 1) /\
  ocupacionPorHora (hiloReloj cfg finalizar st) = ocupacionPorHora st /\
  length (reservas (hiloReloj cfg finalizar st)) = length (reservas st).
Proof.
  intros Hle Hbaja Halta.
  destruct (hiloReloj_turnos cfg finalizar st Hle)
    as (m & Hrun & Hhora & Hcota & Hbaja' & Hfin).
  destruct (ticks_seguidos cfg m st Hle) as (st' & Hrun' & _ & Htabla).
  rewrite Hrun in Hrun'. injection Hrun' as <-.
  assert (m <= n)%nat as Hmn.
  { destruct (Nat.le_gt_cases m n) as [H|H]; [exact H|].
    specialize (Hbaja' n H). congruence. }
  split; [|split; [exact Htabla|]].
  - rewrite Hhora. destruct Hfin as [Hfin|Hfin]; [lia|].
    assert (m = n) as ->; [|lia].
    destruct (Nat.eq_dec m n) as [->|Hne]; [reflexivity|].
    specialize (Hbaja m ltac:(lia)). congruence.
  - exact (ticks_longitud cfg m st _ Hrun).
Qed.

(** X13.  The clock of a day stays between the initial hour and the hour after
    the final one. *)
Theorem reloj_en_rango (cfg : Config) (evs : list Evento) (st : Estado) :
  config_valida cfg ->
  ejecutar cfg (inicializarServidor cfg) evs = Some st ->
  horaInicial cfg <= horaActual st <= horaFinal cfg + 1.
Proof.
  intros Hcfg Hrun.
  apply (dia_ok_ejecutar cfg evs _ st (dia_ok_inicial cfg Hcfg) Hrun).
Qed.

(** X14.  When the flag [finalizarServidor] stays down, the clock thread
    started in any state of a day ends with the clock at the hour after
    the final one; at that point the only reservations still marked
    active are those that start at the final hour.  Whenever the thread
    ends, be it because the flag is raised, the clock has not passed the
    hour after the final one, the table and the number of stored records
    are as they were, and every reservation marked active has the hour
    of the clock within its stay. *)
Theorem hiloReloj_termina_el_dia
    (cfg : Config) (finalizar : nat -> bool) (evs : list Evento) (st : Estado) :
  config_valida cfg ->
  ejecutar cfg (inicializarServidor cfg) evs = Some st ->
  horaActual st <= horaActual (hiloReloj cfg finalizar st) <= horaFinal cfg + 1 /\
  ocupacionPorHora (hiloReloj cfg finalizar st) = ocupacionPorHora st /\
  length (reservas (hiloReloj cfg finalizar st)) = length (reservas st) /\
  (forall r, r ∈ reservas (hiloReloj cfg finalizar st) -> r_activa r = true ->
     r_horaInicio r <= horaActual (hiloReloj cfg finalizar st)
     <= r_horaInicio r + 1) /\
  ((forall i, finalizar i = false) ->
   horaActual (hiloReloj cfg finalizar st) = horaFinal cfg + 1 /\
   forall r, r ∈ reservas (hiloReloj cfg finalizar st) -> r_activa r = true ->
     r_horaInicio r = horaFinal cfg).
Proof.
  intros Hcfg Hrun.
  pose proof (dia_ok_ejecutar cfg evs _ st (dia_ok_inicial cfg Hcfg) Hrun)
    as Hdia.
  pose proof Hdia as (_ & Hhora & _).
  destruct (hiloReloj_turnos cfg finalizar st ltac:(lia))
    as (m & Hticks & Hh & Hcota & _ & Hfin).
  pose proof (dia_ok_ejecutar cfg _ st _ Hdia Hticks) as (_ & _ & Hregs & _).
  rewrite Forall_forall in Hregs.
  split; [lia|]. split.
  { destruct (ticks_seguidos cfg m st ltac:(lia)) as (st' & Hrun' & _ & Htabla).
    rewrite Hticks in Hrun'. now injection Hrun' as <-. }
  split; [exact (ticks_longitud cfg m st _ Hticks)|]. split.
  - intros r Hr Ha.
    destruct (Hregs r Hr) as (_ & Hf & _ & _ & Hact).
    specialize (Hact Ha). unfold DURACION_RESERVA in Hf. lia.
  - intros Hbaja.
    assert (horaActual (hiloReloj cfg finalizar st) = horaFinal cfg + 1) as Hfinal.
    { destruct Hfin as [Hfin|Hfin]; [lia|]. rewrite Hbaja in Hfin. discriminate. }
    split; [exact Hfinal|]. intros r Hr Ha.
    destruct (Hregs r Hr) as (_ & Hf & Hrango & _ & Hact).
    specialize (Hact Ha). unfold DURACION_RESERVA in Hf. lia.
Qed.

(** ** The registry *)

Lemma registros_cons (ev : Evento) (evs : list Evento) :
  length (registros (ev :: evs))
  = (length (registros [ev]) + length (registros evs))%nat.
Proof. unfold registros. simpl. destruct (es_registro ev); reflexivity. Qed.

Lemma agentes_paso (cfg : Config) (st : Estado) (ev : Evento) (st' : Estado) :
  numAgentes st <= MAX_AGENTES ->
  paso cfg st ev = Some st' ->
  numAgentes st'
  = Z.min MAX_AGENTES (numAgentes st + Z.of_nat (length (registros [ev]))).
Proof.
  intros Hle Hpaso. unfold registros, numAgentes in *.
  destruct ev as [msg|]; simpl in *.
  - unfold procesarMensaje in Hpaso. destruct (m_tipo msg) eqn:Ht; simpl in *.
    + injection Hpaso as <-. simpl. unfold numAgentes.
      destruct (Z.ltb_spec (Z.of_nat (length (agentesRegistrados st))) MAX_AGENTES);
        [rewrite length_app; simpl; lia | lia].
    + destruct (procesarSolicitudReserva cfg st msg) as [[st1 resp]|] eqn:Hp;
        simpl in Hpaso; [|discriminate].
      injection Hpaso as <-.
      destruct (procesar_marco cfg st msg st1 resp Hp) as (_ & -> & _). lia.
    + injection Hpaso as <-. lia.
  - injection Hpaso as <-. unfold hiloReloj_paso.
    destruct ((horaActual st <=? horaFinal cfg) && negb false); simpl; lia.
Qed.

(** X15.  The registry holds one entry per registration message until it has
    [MAX_AGENTES] of them, and stays at [MAX_AGENTES] from then on:
    later registrations are dropped. *)
Theorem registro_acotado (cfg : Config) (evs : list Evento) : forall st st',
  numAgentes st <= MAX_AGENTES ->
  ejecutar cfg st evs = Some st' ->
  numAgentes st'
  = Z.min MAX_AGENTES (numAgentes st + Z.of_nat (length (registros evs))).
Proof.
  induction evs as [|ev evs IH]; intros st st' Hle Hrun; simpl in Hrun.
  - injection Hrun as <-. simpl. lia.
  - destruct (paso cfg st ev) as [st1|] eqn:Hp; simpl in Hrun; [|discriminate].
    pose proof (agentes_paso cfg st ev st1 Hle Hp) as H1.
    rewrite (IH st1 st' ltac:(lia) Hrun), H1, (registros_cons ev evs). lia.
Qed.

(** ** The hourly report *)

Lemma suma_no_negativa (f : Reserva -> Z) (rs : list Reserva) :
  Forall (fun r => 0 <= f r) rs -> 0 <= foldr (fun r acc => f r + acc) 0 rs.
Proof. induction 1 as [|r rs Hr _ IH]; simpl; lia. Qed.

(** The running total of parties that are not negative is their sum as
    long as the sum fits an [int]. *)
Lemma total_personas_suma (rs : list Reserva) : forall (a : Z),
  0 <= a ->
  Forall (fun r => 0 <= r_numPersonas r) rs ->
  a + foldr (fun r acc => r_numPersonas r + acc) 0 rs <= INT_MAX ->
  foldl (fun total r => suma_int total (r_numPersonas r)) a rs
  = a + foldr (fun r acc => r_numPersonas r + acc) 0 rs.
Proof.
  induction rs as [|r rs IH]; intros a Ha Hpos Hmax; simpl; [lia|].
  inversion Hpos as [|? ? Hr Hrs]; subst. simpl in Hmax.
  pose proof (suma_no_negativa r_numPersonas rs Hrs) as H0.
  unfold suma_int. rewrite a_int_exacto
    by (unfold en_int, INT_MIN, INT_MAX in *; lia).
  rewrite IH; [lia | lia | exact Hrs | lia].
Qed.

Lemma total_personas_filter (f : Reserva -> bool) (rs : list Reserva) :
  Forall (fun r => 0 <= r_numPersonas r) rs ->
  foldr (fun r acc => (if f r then r_numPersonas r else 0) + acc) 0 rs
  <= INT_MAX ->
  total_personas (List.filter f rs)
  = foldr (fun r acc => (if f r then r_numPersonas r else 0) + acc) 0 rs.
Proof.
  intros Hpos Hmax.
  assert (foldr (fun r acc => r_numPersonas r + acc) 0 (List.filter f rs)
          = foldr (fun r acc => (if f r then r_numPersonas r else 0) + acc) 0 rs)
    as Hfil.
  { clear. induction rs as [|r rs IH]; simpl; [reflexivity|].
    destruct (f r); simpl; lia. }
  unfold total_personas. rewrite total_personas_suma; [lia|lia| |lia].
  clear -Hpos. induction Hpos as [|r rs Hr _ IH]; simpl; [constructor|].
  destruct (f r); [constructor; assumption | exact IH].
Qed.

Lemma suma_ext (f g : Reserva -> Z) (rs : list Reserva) :
  Forall (fun r => f r = g r) rs ->
  foldr (fun r acc => f r + acc) 0 rs = foldr (fun r acc => g r + acc) 0 rs.
Proof.
  induction 1 as [|r rs Hr _ IH]; simpl; [reflexivity|]. now rewrite Hr, IH.
Qed.

Lemma suma_mas (f g : Reserva -> Z) (rs : list Reserva) :
  foldr (fun r acc => (f r + g r) + acc) 0 rs
  = foldr (fun r acc => f r + acc) 0 rs + foldr (fun r acc => g r + acc) 0 rs.
Proof. induction rs as [|r rs IH]; simpl; [reflexivity|]. rewrite IH. lia. Qed.

(** On the records of a day, the people that hold an hour are those that
    start at it and those that started the hour before; the people that
    leave at an hour are those that started two hours before. *)
Lemma personas_en_desde (cfg : Config) (hora : Z) (rs : list Reserva) (x : Z) :
  Forall (registro_ok cfg hora) rs ->
  personas_en rs x = personas_desde rs x + personas_desde rs (x - 1) /\
  foldr (fun r acc =>
           (if sale_ahora cfg x r then r_numPersonas r else 0) + acc) 0 rs
  = personas_desde rs (x - 2).
Proof.
  intros Hregs.
  unfold personas_en, personas_desde. rewrite <- suma_mas.
  split; apply suma_ext;
    (eapply Forall_impl; [exact Hregs|]);
    intros r (_ & Hf & Hr & _); unfold DURACION_RESERVA in Hf;
    unfold ocupa, sale_ahora; rewrite Hf.
  - destruct (Z.eqb_spec (r_horaInicio r) x), (Z.eqb_spec (r_horaInicio r) (x - 1)),
      (Z.leb_spec (r_horaInicio r) x), (Z.leb_spec x (r_horaInicio r + 2 - 1));
      simpl; lia.
  - destruct (Z.eqb_spec (r_horaInicio r + 2 - 1) (x - 1)),
      (Z.eqb_spec (r_horaInicio r) (x - 2)),
      (Z.leb_spec (horaInicial cfg) (r_horaInicio r + 2 - 1)); simpl; lia.
Qed.

(** The people that start at any one hour are not negative in number
    and not above the capacity, when no stored party is negative and
    no hour holds more people than the capacity. *)
Lemma personas_desde_cota (cfg : Config) (hora : Z) (rs : list Reserva) (y : Z) :
  0 <= aforoMaximo cfg ->
  Forall (registro_ok cfg hora) rs ->
  Forall (fun r => 0 <= r_numPersonas r) rs ->
  (forall x, validarHora x = true -> personas_en rs x <= aforoMaximo cfg) ->
  0 <= personas_desde rs y <= aforoMaximo cfg.
Proof.
  intros Haforo Hregs Hpos Hcota.
  assert (forall z, 0 <= personas_desde rs z) as H0.
  { intros z. unfold personas_desde.
    apply (suma_no_negativa
             (fun r => if r_horaInicio r =? z then r_numPersonas r else 0)).
    eapply Forall_impl; [exact Hpos|]. intros r Hr. simpl in *.
    destruct (r_horaInicio r =? z); lia. }
  split; [apply H0|].
  destruct (validarHora y) eqn:Hy.
  - destruct (personas_en_desde cfg hora rs y Hregs) as [Hen _].
    specialize (Hcota y Hy). specialize (H0 (y - 1)). lia.
  - assert (personas_desde rs y = 0) as ->; [|exact Haforo].
    unfold personas_desde.
    rewrite (suma_ext _ (fun _ => 0)).
    + clear. induction rs as [|r rs IH]; simpl; [reflexivity|exact IH].
    + eapply Forall_impl; [exact Hregs|]. intros r (Hv & _). cbv beta.
      destruct (Z.eqb_spec (r_horaInicio r) y) as [Heq|]; [|reflexivity].
      rewrite Heq in Hv. congruence.
Qed.

(** X16.  Over a day whose requests carry no negative party size, under a
    capacity whose double fits an [int], the report of an hour of the
    operating window shows as occupancy the people entering at that hour
    plus those who entered the hour before, and as leaving those who
    entered two hours before; so, from one hour of the window to the
    next, the occupancy is the previous one minus the people leaving
    plus the people entering. *)
Theorem informe_hora_balance
    (cfg : Config) (evs : list Evento) (st : Estado) :
  config_valida cfg ->
  2 * aforoMaximo cfg <= INT_MAX ->
  Forall (fun msg => 0 <= m_numPersonas msg) (solicitudes evs) ->
  ejecutar cfg (inicializarServidor cfg) evs = Some st ->
  validarHora (horaActual st) = true ->
  exists eh,
    imprimirEstadoHora cfg st = Some eh /\
    eh_ocupacionActual eh = contador (ocupacionPorHora st) (horaActual st) /\
    eh_ocupacionActual eh
    = eh_totalEntran eh + personas_desde (reservas st) (horaActual st - 1) /\
    eh_totalSalen eh = personas_desde (reservas st) (horaActual st - 2) /\
    (validarHora (horaActual st - 1) = true ->
     eh_ocupacionActual eh
     = contador (ocupacionPorHora st) (horaActual st - 1)
       - eh_totalSalen eh + eh_totalEntran eh).
Proof.
  intros Hcfg Haforo Hn Hrun Hv.
  destruct (dia_ok_ejecutar cfg evs _ st (dia_ok_inicial cfg Hcfg) Hrun)
    as (Hok & _ & Hregs & _).
  destruct (dia_suma_del_dia cfg evs st Hcfg Haforo Hn Hrun)
    as (Hpos & Hinv & Hsum).
  destruct Hcfg as (_ & _ & _ & _ & Hpositivo).
  assert (forall y, 0 <= personas_desde (reservas st) y <= aforoMaximo cfg)
    as Hdesde.
  { intros y. apply (personas_desde_cota cfg (horaActual st));
      [lia | exact Hregs | exact Hpos |].
    intros x Hx. rewrite <- (Hsum x Hx). now apply Hinv. }
  destruct (personas_en_desde cfg _ (reservas st) (horaActual st) Hregs)
    as (Hen & Hsuma_sale).
  assert (total_personas (List.filter (entra_ahora (horaActual st)) (reservas st))
          = personas_desde (reservas st) (horaActual st)) as Hentra.
  { rewrite total_personas_filter; [reflexivity | exact Hpos |].
    change (personas_desde (reservas st) (horaActual st) <= INT_MAX).
    specialize (Hdesde (horaActual st)). lia. }
  assert (total_personas
            (List.filter (sale_ahora cfg (horaActual st)) (reservas st))
          = personas_desde (reservas st) (horaActual st - 2)) as Hsale.
  { rewrite total_personas_filter; [exact Hsuma_sale | exact Hpos |].
    rewrite Hsuma_sale. specialize (Hdesde (horaActual st - 2)). lia. }
  unfold imprimirEstadoHora. rewrite Hv, (leer_valida _ _ Hok Hv).
  cbn [mbind option_bind].
  unfold dividir. destruct (Z.eqb_spec (aforoMaximo cfg) 0); [lia|].
  cbn [mbind option_bind].
  eexists. split; [reflexivity|].
  cbn [eh_ocupacionActual eh_totalEntran eh_totalSalen].
  rewrite Hsale, Hentra. split; [reflexivity|].
  split; [rewrite (Hsum _ Hv), Hen; lia|]. split; [reflexivity|].
  intros Hv1. rewrite (Hsum _ Hv), (Hsum _ Hv1), Hen.
  destruct (personas_en_desde cfg _ (reservas st) (horaActual st - 1) Hregs)
    as (Hen1 & _). rewrite Hen1.
  replace (horaActual st - 1 - 1) with (horaActual st - 2) by lia. lia.
Qed.

(** The cells of the table over a day whose requests carry no negative
    party, under a capacity whose double fits an [int]: the table is
    whole and every counter lies between 0 and the capacity. *)
Lemma celdas_del_dia (cfg : Config) (evs : list Evento) (st : Estado) :
  config_valida cfg ->
  2 * aforoMaximo cfg <= INT_MAX ->
  Forall (fun msg => 0 <= m_numPersonas msg) (solicitudes evs) ->
  ejecutar cfg (inicializarServidor cfg) evs = Some st ->
  tabla_ok (ocupacionPorHora st) /\
  forall x, validarHora x = true ->
    0 <= contador (ocupacionPorHora st) x <= aforoMaximo cfg.
Proof.
  intros Hcfg Haforo Hn Hrun.
  destruct (dia_ok_ejecutar cfg evs _ st (dia_ok_inicial cfg Hcfg) Hrun)
    as (Hok & _).
  destruct (dia_suma_del_dia cfg evs st Hcfg Haforo Hn Hrun)
    as (Hpos & Hinv & Hsum).
  split; [exact Hok|]. intros x Hx. split; [|now apply Hinv].
  rewrite (Hsum x Hx). now apply personas_en_no_negativa.
Qed.

Lemma barra_progreso_llenas (barras : Z) :
  0 <= barras <= 20 ->
  length (barra_progreso barras) = 20%nat /\
  Z.of_nat (length (List.filter id (barra_progreso barras))) = barras.
Proof.
  intros H.
  assert (exists b : nat, barras = Z.of_nat b /\ (b <= 20)%nat) as (b & -> & Hb).
  { exists (Z.to_nat barras). lia. }
  clear H. do 21 (destruct b as [|b]; [split; reflexivity|]). lia.
Qed.

(** X17.  Over a day whose requests carry no negative party size, under a
    capacity whose hundredfold fits an [int], the hourly report is
    always produced, the occupancy it shows is between 0 and the
    capacity, the percentage is between 0 and 100, and the bar has
    twenty cells of which a twentieth of the percentage are full. *)
Theorem informe_hora_en_rango
    (cfg : Config) (evs : list Evento) (st : Estado) :
  config_valida cfg ->
  100 * aforoMaximo cfg <= INT_MAX ->
  Forall (fun msg => 0 <= m_numPersonas msg) (solicitudes evs) ->
  ejecutar cfg (inicializarServidor cfg) evs = Some st ->
  exists eh,
    imprimirEstadoHora cfg st = Some eh /\
    0 <= eh_ocupacionActual eh <= aforoMaximo cfg /\
    0 <= eh_porcentaje eh <= 100 /\
    length (eh_barra eh) = 20%nat /\
    Z.of_nat (length (List.filter id (eh_barra eh))) = Z.quot (eh_porcentaje eh) 5.
Proof.
  intros Hcfg Hcien Hn Hrun. pose proof Hcfg as (_ & _ & _ & _ & Haforo).
  destruct (celdas_del_dia cfg evs st Hcfg ltac:(lia) Hn Hrun) as [Hok Hcelda].
  assert (exists o, (if validarHora (horaActual st)
                     then leer (ocupacionPorHora st) (indiceHora (horaActual st))
                     else Some 0) = Some o /\ 0 <= o <= aforoMaximo cfg)
    as (o & Ho & Hrango).
  { destruct (validarHora (horaActual st)) eqn:Hv.
    - rewrite (leer_valida _ _ Hok Hv). eexists. split; [reflexivity|].
      now apply Hcelda.
    - exists 0. split; [reflexivity|lia]. }
  unfold imprimirEstadoHora. rewrite Ho. cbn [mbind option_bind].
  unfold producto_int. rewrite (a_int_exacto (o * 100))
    by (unfold en_int, INT_MIN, INT_MAX in *; lia).
  unfold dividir. destruct (Z.eqb_spec (aforoMaximo cfg) 0); [lia|].
  cbn [mbind option_bind].
  eexists. split; [reflexivity|].
  cbn [eh_ocupacionActual eh_porcentaje eh_barra].
  assert (0 <= Z.quot (o * 100) (aforoMaximo cfg) <= 100) as Hp.
  { rewrite Z.quot_div_nonneg by lia. split.
    - apply Z.div_pos; lia.
    - apply Z.div_le_upper_bound; lia. }
  split; [assumption|]. split; [assumption|].
  apply barra_progreso_llenas. rewrite Z.quot_div_nonneg by lia. split.
  - apply Z.div_pos; lia.
  - apply Z.div_le_upper_bound; lia.
Qed.

(** ** The final report *)

(** The rule of the loop over the table: an invariant that holds before
    the first cell and that each turn of the body carries from a cell to
    the next holds after the last cell, and the loop stays inside the
    table. *)
Lemma para_cada_hora_regla {A : Type} (tabla : list Z)
    (cuerpo : Z -> Z -> A -> option A) (Inv : Z -> A -> Prop) (k : nat) :
  forall (i : Z) (acc : A),
  0 <= i -> i + Z.of_nat k <= Z.of_nat (length tabla) ->
  Inv i acc ->
  (forall j c a, i <= j < i + Z.of_nat k -> leer tabla j = Some c -> Inv j a ->
     exists a', cuerpo j c a = Some a' /\ Inv (j + 1) a') ->
  exists r,
    para_cada_hora tabla cuerpo k i acc = Some r /\ Inv (i + Z.of_nat k) r.
Proof.
  induction k as [|k IH]; intros i acc Hi Hlen Hinv Hstep; simpl.
  - exists acc. split; [reflexivity|].
    now replace (i + Z.of_nat 0) with i by lia.
  - assert (exists c, leer tabla i = Some c) as (c & Hc).
    { unfold leer. destruct (Z.leb_spec 0 i); [|lia].
      apply lookup_lt_is_Some_2. lia. }
    rewrite Hc. simpl.
    destruct (Hstep i c acc ltac:(lia) Hc Hinv) as (a' & Ha' & Hinv').
    rewrite Ha'. simpl.
    destruct (IH (i + 1) a') as (r & Hr & Hfin); try lia; try assumption.
    + intros j c' a Hj. apply Hstep. lia.
    + exists r. split; [assumption|].
      now replace (i + Z.of_nat (S k)) with (i + 1 + Z.of_nat k) by lia.
Qed.

Lemma leer_hora (tabla : list Z) (j c : Z) :
  tabla_ok tabla -> 0 <= j < MAX_HORAS ->
  (leer tabla j = Some c <->
   validarHora (HORAS_MIN + j) = true /\ c = contador tabla (HORAS_MIN + j)).
Proof.
  intros Hok Hj.
  assert (validarHora (HORAS_MIN + j) = true) as Hv.
  { apply validarHora_true. unfold MAX_HORAS in Hj. lia. }
  pose proof (leer_valida tabla _ Hok Hv) as Hl.
  replace (indiceHora (HORAS_MIN + j)) with j in Hl by (unfold indiceHora; lia).
  rewrite Hl. split; [intros [= <-]; now split | intros [_ ->]; reflexivity].
Qed.

(** The five loops of the report stay inside the table, and what each
    leaves is described cell by cell. *)
Lemma generarReporte_bucles (cfg : Config) (st : Estado) :
  tabla_ok (ocupacionPorHora st) ->
  aforoMaximo cfg <> 0 ->
  exists m pico mn valle filas,
    generarReporte cfg st
    = Some {| rep_maxOcupacion := m;
              rep_horasPico := pico;
              rep_minOcupacion := mn;
              rep_horasValle := valle;
              rep_aceptadas := solicitudesAceptadas st;
              rep_reprogramadas := solicitudesReprogramadas st;
              rep_negadas := solicitudesNegadas st;
              rep_total := solicitudesAceptadas st
                           + solicitudesReprogramadas st
                           + solicitudesNegadas st;
              rep_tabla := filas |} /\
    (0 <= m /\
     (forall j c, 0 <= j < MAX_HORAS ->
        leer (ocupacionPorHora st) j = Some c -> c <= m) /\
     (m = 0 \/ exists j, 0 <= j < MAX_HORAS /\
        leer (ocupacionPorHora st) j = Some m)) /\
    (forall h c, (h, c) ∈ pico <->
       exists j, 0 <= j < MAX_HORAS /\ h = HORAS_MIN + j /\
         leer (ocupacionPorHora st) j = Some c /\ c = m /\ 0 < m) /\
    (mn <= suma_int (aforoMaximo cfg) 1 /\
     (forall j c, 0 <= j < MAX_HORAS ->
        leer (ocupacionPorHora st) j = Some c -> mn <= c) /\
     (mn = suma_int (aforoMaximo cfg) 1 \/ exists j, 0 <= j < MAX_HORAS /\
        leer (ocupacionPorHora st) j = Some mn)) /\
    (forall h c, (h, c) ∈ valle <->
       exists j, 0 <= j < MAX_HORAS /\ h = HORAS_MIN + j /\
         leer (ocupacionPorHora st) j = Some c /\ c = mn) /\
    (forall h c pc, (h, c, pc) ∈ filas <->
       exists j, 0 <= j < MAX_HORAS /\ h = HORAS_MIN + j /\
         h <= horaFinal cfg /\
         leer (ocupacionPorHora st) j = Some c /\
         pc = Z.quot (producto_int c 100) (aforoMaximo cfg)).
Proof.
  intros Hok Haforo. unfold generarReporte. cbv zeta.
  set (tabla := ocupacionPorHora st) in *.
  assert (0 + Z.of_nat (Z.to_nat MAX_HORAS) <= Z.of_nat (length tabla)) as Hlen
    by (unfold tabla_ok in Hok; rewrite Hok; reflexivity).
  destruct (para_cada_hora_regla tabla
              (fun _ c m => Some (if c >? m then c else m))
              (fun j m => 0 <= m /\
                 (forall j' c, 0 <= j' < j -> leer tabla j' = Some c -> c <= m) /\
                 (m = 0 \/ exists j', 0 <= j' < j /\ leer tabla j' = Some m))
              (Z.to_nat MAX_HORAS) 0 0) as (m & Hm & Hmax);
    [lia | exact Hlen | | |].
  { split; [lia|]. split; [intros; lia | now left]. }
  { intros j c a Hj Hc (Ha0 & Haub & Haat). eexists. split; [reflexivity|].
    destruct (Z.gtb_spec c a) as [Hgt|Hle].
    - split; [lia|]. split.
      + intros j' c' Hj' Hc'. destruct (Z.eq_dec j' j) as [->|Hne].
        * rewrite Hc in Hc'. injection Hc' as <-. lia.
        * specialize (Haub j' c' ltac:(lia) Hc'). lia.
      + right. exists j. split; [lia|assumption].
    - split; [lia|]. split.
      + intros j' c' Hj' Hc'. destruct (Z.eq_dec j' j) as [->|Hne].
        * rewrite Hc in Hc'. now injection Hc' as <-.
        * apply (Haub j' c'); [lia|assumption].
      + destruct Haat as [->|(j' & Hj' & Hc')]; [now left|].
        right. exists j'. split; [lia|assumption]. }
  rewrite Hm. cbn [mbind option_bind].
  destruct (para_cada_hora_regla tabla
              (fun i c l =>
                 Some (if (c =? m) && (m >? 0)
                       then l ++ [(HORAS_MIN + i, c)] else l))
              (fun j l => forall h c, (h, c) ∈ l <->
                 exists j', 0 <= j' < j /\ h = HORAS_MIN + j' /\
                   leer tabla j' = Some c /\ c = m /\ 0 < m)
              (Z.to_nat MAX_HORAS) 0 []) as (pico & Hpico & Hmem);
    [lia | exact Hlen | | |].
  { intros h c. split; [intros H; inversion H | intros (j' & Hj' & _); lia]. }
  { intros j c l Hj Hc Hl. eexists. split; [reflexivity|]. intros h c'.
    destruct (Z.eqb_spec c m) as [Hcm|Hcm];
      destruct (Z.gtb_spec m 0) as [Hpos|Hpos]; simpl;
      rewrite ?elem_of_app, ?list_elem_of_singleton, Hl; split.
    all: try (intros [(j' & Hj' & H)|[= -> ->]];
              [exists j'; split; [lia|exact H]
              |exists j; repeat split; try assumption; lia]).
    all: try (intros (j' & Hj' & Hh & Hc' & Hcm' & Hm');
              destruct (Z.eq_dec j' j) as [->|Hne];
              [right; rewrite Hc in Hc'; injection Hc' as <-; now subst
              |left; exists j'; repeat split; try assumption; lia]).
    all: try (intros (j' & Hj' & H); exists j'; split; [lia|exact H]).
    all: intros (j' & Hj' & Hh & Hc' & Hcm' & Hm');
         destruct (Z.eq_dec j' j) as [->|Hne];
         [rewrite Hc in Hc'; injection Hc' as <-; first [contradiction | lia]
         |exists j'; repeat split; try assumption; lia]. }
  rewrite Hpico. cbn [mbind option_bind].
  destruct (para_cada_hora_regla tabla
              (fun _ c m => Some (if c <? m then c else m))
              (fun j mn => mn <= suma_int (aforoMaximo cfg) 1 /\
                 (forall j' c, 0 <= j' < j -> leer tabla j' = Some c -> mn <= c) /\
                 (mn = suma_int (aforoMaximo cfg) 1 \/
                  exists j', 0 <= j' < j /\ leer tabla j' = Some mn))
              (Z.to_nat MAX_HORAS) 0 (suma_int (aforoMaximo cfg) 1))
    as (mn & Hmn & Hmin); [lia | exact Hlen | | |].
  { split; [lia|]. split; [intros; lia | now left]. }
  { intros j c a Hj Hc (Ha0 & Haub & Haat). eexists. split; [reflexivity|].
    destruct (Z.ltb_spec c a) as [Hlt|Hge].
    - split; [lia|]. split.
      + intros j' c' Hj' Hc'. destruct (Z.eq_dec j' j) as [->|Hne].
        * rewrite Hc in Hc'. injection Hc' as <-. lia.
        * specialize (Haub j' c' ltac:(lia) Hc'). lia.
      + right. exists j. split; [lia|assumption].
    - split; [lia|]. split.
      + intros j' c' Hj' Hc'. destruct (Z.eq_dec j' j) as [->|Hne].
        * rewrite Hc in Hc'. now injection Hc' as <-.
        * apply (Haub j' c'); [lia|assumption].
      + destruct Haat as [->|(j' & Hj' & Hc')]; [now left|].
        right. exists j'. split; [lia|assumption]. }
  rewrite Hmn. cbn [mbind option_bind].
  destruct (para_cada_hora_regla tabla
              (fun i c l =>
                 Some (if c =? mn then l ++ [(HORAS_MIN + i, c)] else l))
              (fun j l => forall h c, (h, c) ∈ l <->
                 exists j', 0 <= j' < j /\ h = HORAS_MIN + j' /\
                   leer tabla j' = Some c /\ c = mn)
              (Z.to_nat MAX_HORAS) 0 []) as (valle & Hvalle & Hvmem);
    [lia | exact Hlen | | |].
  { intros h c. split; [intros H; inversion H | intros (j' & Hj' & _); lia]. }
  { intros j c l Hj Hc Hl. eexists. split; [reflexivity|]. intros h c'.
    destruct (Z.eqb_spec c mn) as [Hcm|Hcm];
      rewrite ?elem_of_app, ?list_elem_of_singleton, Hl; split.
    - intros [(j' & Hj' & H)|[= -> ->]];
        [exists j'; split; [lia|exact H]
        |exists j; repeat split; try assumption; lia].
    - intros (j' & Hj' & Hh & Hc' & Hcm').
      destruct (Z.eq_dec j' j) as [->|Hne];
        [right; rewrite Hc in Hc'; injection Hc' as <-; now subst
        |left; exists j'; repeat split; try assumption; lia].
    - intros (j' & Hj' & H); exists j'; split; [lia|exact H].
    - intros (j' & Hj' & Hh & Hc' & Hcm').
      destruct (Z.eq_dec j' j) as [->|Hne];
        [rewrite Hc in Hc'; injection Hc' as <-; contradiction
        |exists j'; repeat split; try assumption; lia]. }
  rewrite Hvalle. cbn [mbind option_bind].
  destruct (para_cada_hora_regla tabla
              (fun i c l =>
                 if HORAS_MIN + i <=? horaFinal cfg then
                   porcentaje ← dividir (producto_int c 100) (aforoMaximo cfg);
                   Some (l ++ [(HORAS_MIN + i, c, porcentaje)])
                 else Some l)
              (fun j l => forall h c pc, (h, c, pc) ∈ l <->
                 exists j', 0 <= j' < j /\ h = HORAS_MIN + j' /\
                   h <= horaFinal cfg /\ leer tabla j' = Some c /\
                   pc = Z.quot (producto_int c 100) (aforoMaximo cfg))
              (Z.to_nat MAX_HORAS) 0 []) as (filas & Hfilas & Hfmem);
    [lia | exact Hlen | | |].
  { intros h c pc. split; [intros H; inversion H | intros (j' & Hj' & _); lia]. }
  { intros j c l Hj Hc Hl. unfold dividir.
    destruct (Z.eqb_spec (aforoMaximo cfg) 0); [contradiction|].
    destruct (Z.leb_spec (HORAS_MIN + j) (horaFinal cfg)) as [Hfin|Hfin]; simpl;
      (eexists; split; [reflexivity|]); intros h c' pc;
      rewrite ?elem_of_app, ?list_elem_of_singleton, Hl; split.
    - intros [(j' & Hj' & H)|[= -> -> ->]];
        [exists j'; split; [lia|exact H]
        |exists j; repeat split; try assumption; lia].
    - intros (j' & Hj' & Hh & Hle & Hc' & Hpc).
      destruct (Z.eq_dec j' j) as [->|Hne];
        [right; rewrite Hc in Hc'; injection Hc' as <-; now subst
        |left; exists j'; repeat split; try assumption; lia].
    - intros (j' & Hj' & H); exists j'; split; [lia|exact H].
    - intros (j' & Hj' & Hh & Hle & Hc' & Hpc).
      destruct (Z.eq_dec j' j) as [->|Hne];
        [lia|exists j'; repeat split; try assumption; lia]. }
  rewrite Hfilas. cbn [mbind option_bind].
  change (0 + Z.of_nat (Z.to_nat MAX_HORAS)) with MAX_HORAS in *.
  exists m, pico, mn, valle, filas. split; [reflexivity|].
  repeat split; try tauto; try apply Hmem; try apply Hvmem; try apply Hfmem.
Qed.

(** X18.  The peak of the report is an upper bound of every counter and is
    never negative: it is 0 when no hour is booked, and otherwise the
    counter of some hour.  The peak hours listed are exactly the hours
    whose counter equals a positive peak, so none is listed for an
    unbooked day. *)
Theorem reporte_horas_pico (cfg : Config) (st : Estado) :
  tabla_ok (ocupacionPorHora st) ->
  aforoMaximo cfg <> 0 ->
  exists rep,
    generarReporte cfg st = Some rep /\
    0 <= rep_maxOcupacion rep /\
    (forall x, validarHora x = true ->
       contador (ocupacionPorHora st) x <= rep_maxOcupacion rep) /\
    (rep_maxOcupacion rep = 0 \/
     exists x, validarHora x = true /\
       contador (ocupacionPorHora st) x = rep_maxOcupacion rep) /\
    (forall h c, (h, c) ∈ rep_horasPico rep <->
       validarHora h = true /\ c = contador (ocupacionPorHora st) h /\
       c = rep_maxOcupacion rep /\ 0 < rep_maxOcupacion rep).
Proof.
  intros Hok Haforo.
  destruct (generarReporte_bucles cfg st Hok Haforo)
    as (m & pico & mn & valle & filas & Hrep
        & (Hm0 & Hmub & Hmat) & Hmem & _).
  eexists. split; [exact Hrep|]. simpl.
  split; [exact Hm0|]. split; [|split].
  - intros x Hx. apply (Hmub (indiceHora x)).
    + now apply indiceHora_en_rango.
    + now apply leer_valida.
  - destruct Hmat as [->|(j' & Hj' & Hc')]; [now left|]. right.
    apply (leer_hora _ j' m Hok Hj') in Hc' as [Hv Hc'].
    exists (HORAS_MIN + j'). now split.
  - intros h c. rewrite Hmem. split.
    + intros (j' & Hj' & -> & Hc' & -> & Hpos).
      apply (leer_hora _ j' m Hok Hj') in Hc' as [Hv Hc'].
      repeat split; assumption.
    + intros (Hv & -> & Hcm & Hpos). exists (indiceHora h).
      split; [now apply indiceHora_en_rango|].
      split; [unfold indiceHora; lia|].
      split; [now apply leer_valida|]. now split.
Qed.

(** X19.  On a table without overbooking, under a capacity below the
    greatest [int], the valley of the report is the lowest counter: no
    counter is below it and some hour has it, so at least one valley
    hour is listed; the valley hours listed are exactly the hours whose
    counter equals the valley. *)
Theorem reporte_horas_valle (cfg : Config) (st : Estado) :
  tabla_ok (ocupacionPorHora st) ->
  aforoMaximo cfg <> 0 ->
  INT_MIN <= aforoMaximo cfg < INT_MAX ->
  sin_sobrecupo cfg (ocupacionPorHora st) ->
  exists rep,
    generarReporte cfg st = Some rep /\
    (forall x, validarHora x = true ->
       rep_minOcupacion rep <= contador (ocupacionPorHora st) x) /\
    (exists x, validarHora x = true /\
       contador (ocupacionPorHora st) x = rep_minOcupacion rep) /\
    (forall h c, (h, c) ∈ rep_horasValle rep <->
       validarHora h = true /\ c = contador (ocupacionPorHora st) h /\
       c = rep_minOcupacion rep) /\
    rep_horasValle rep <> [].
Proof.
  intros Hok Haforo Hint Hinv.
  destruct (generarReporte_bucles cfg st Hok Haforo)
    as (m & pico & mn & valle & filas & Hrep
        & _ & _ & (Hmn1 & Hmlb & Hmat) & Hvmem & _).
  unfold suma_int in Hmn1, Hmat.
  rewrite (a_int_exacto (aforoMaximo cfg + 1)) in Hmn1, Hmat
    by (unfold en_int, INT_MIN, INT_MAX in *; lia).
  assert (forall x, validarHora x = true ->
            mn <= contador (ocupacionPorHora st) x) as Hlb.
  { intros x Hx. apply (Hmlb (indiceHora x)).
    - now apply indiceHora_en_rango.
    - now apply leer_valida. }
  assert (exists x, validarHora x = true /\
            contador (ocupacionPorHora st) x = mn) as (x & Hx & Hxm).
  { destruct Hmat as [->|(j' & Hj' & Hc')].
    - specialize (Hlb HORAS_MIN eq_refl). specialize (Hinv HORAS_MIN eq_refl). lia.
    - apply (leer_hora _ j' mn Hok Hj') in Hc' as [Hv Hc'].
      exists (HORAS_MIN + j'). now split. }
  assert (forall h c, (h, c) ∈ valle <->
            validarHora h = true /\ c = contador (ocupacionPorHora st) h /\
            c = mn) as Hmem.
  { intros h c. rewrite Hvmem. split.
    - intros (j' & Hj' & -> & Hc' & ->).
      apply (leer_hora _ j' mn Hok Hj') in Hc' as [Hv Hc'].
      repeat split; assumption.
    - intros (Hv & -> & Hcm). exists (indiceHora h).
      split; [now apply indiceHora_en_rango|].
      split; [unfold indiceHora; lia|].
      split; [now apply leer_valida|assumption]. }
  eexists. split; [exact Hrep|]. simpl.
  split; [exact Hlb|]. split; [now exists x|]. split; [exact Hmem|].
  intros Hnil. assert ((x, mn) ∈ valle) as Hin by (apply Hmem; now repeat split).
  rewrite Hnil in Hin. inversion Hin.
Qed.

(** X20.  The table of the report has a row for an hour exactly when the hour
    is in the operating window and not after the final hour, and the
    row carries the counter of the hour and its share of the capacity in
    percent, rounded toward zero, on a table whose counters taken a
    hundred times fit an [int]. *)
Theorem reporte_tabla_por_hora (cfg : Config) (st : Estado) :
  tabla_ok (ocupacionPorHora st) ->
  aforoMaximo cfg <> 0 ->
  (forall x, validarHora x = true ->
     en_int (contador (ocupacionPorHora st) x * 100)) ->
  exists rep,
    generarReporte cfg st = Some rep /\
    forall h c pc, (h, c, pc) ∈ rep_tabla rep <->
      validarHora h = true /\ h <= horaFinal cfg /\
      c = contador (ocupacionPorHora st) h /\
      pc = Z.quot (c * 100) (aforoMaximo cfg).
Proof.
  intros Hok Haforo Hint.
  destruct (generarReporte_bucles cfg st Hok Haforo)
    as (m & pico & mn & valle & filas & Hrep & _ & _ & _ & _ & Hfmem).
  eexists. split; [exact Hrep|]. simpl.
  intros h c pc. rewrite Hfmem. split.
  - intros (j' & Hj' & -> & Hle & Hc' & ->).
    apply (leer_hora _ j' c Hok Hj') in Hc' as [Hv Hc'].
    split; [assumption|]. split; [assumption|]. split; [assumption|].
    unfold producto_int. rewrite a_int_exacto; [reflexivity|].
    rewrite Hc'. now apply Hint.
  - intros (Hv & Hle & -> & ->). exists (indiceHora h).
    split; [now apply indiceHora_en_rango|].
    split; [unfold indiceHora; lia|].
    split; [assumption|]. split; [now apply leer_valida|].
    unfold producto_int. rewrite a_int_exacto; [reflexivity|]. now apply Hint.
Qed.

(** X21.  At the end of a day whose requests carry no negative party size,
    under a capacity whose hundredfold fits an [int], the report is
    produced, its total is the number of reservation requests handled,
    the valley is not above the peak, the peak is not above the
    capacity, and every percentage of its table is between 0 and 100. *)
Theorem reporte_del_dia (cfg : Config) (evs : list Evento) (st : Estado) :
  config_valida cfg ->
  100 * aforoMaximo cfg <= INT_MAX ->
  Forall (fun msg => 0 <= m_numPersonas msg) (solicitudes evs) ->
  ejecutar cfg (inicializarServidor cfg) evs = Some st ->
  exists rep,
    generarReporte cfg st = Some rep /\
    rep_total rep = Z.of_nat (length (solicitudes evs)) /\
    0 <= rep_minOcupacion rep <= rep_maxOcupacion rep /\
    rep_maxOcupacion rep <= aforoMaximo cfg /\
    forall h c pc, (h, c, pc) ∈ rep_tabla rep -> 0 <= pc <= 100.
Proof.
  intros Hcfg Hcien Hn Hrun. pose proof Hcfg as (_ & _ & _ & _ & Haforo).
  destruct (celdas_del_dia cfg evs st Hcfg ltac:(lia) Hn Hrun) as [Hok Hcelda].
  destruct (generarReporte_bucles cfg st Hok ltac:(lia))
    as (m & pico & mn & valle & filas & Hrep
        & (Hm0 & Hmub & Hmat) & _ & (Hmn1 & Hmlb & Hmnat) & _ & Hfmem).
  unfold suma_int in Hmn1, Hmnat.
  rewrite (a_int_exacto (aforoMaximo cfg + 1)) in Hmn1, Hmnat
    by (unfold en_int, INT_MIN, INT_MAX in *; lia).
  pose proof (total_ejecutar cfg evs _ st Hrun) as Htot.
  unfold total_solicitudes in Htot. simpl in Htot.
  eexists. split; [exact Hrep|]. simpl. split; [lia|].
  assert (forall j c, 0 <= j < MAX_HORAS ->
            leer (ocupacionPorHora st) j = Some c ->
            0 <= c <= aforoMaximo cfg) as Hcell.
  { intros j c Hj Hc. apply (leer_hora _ j c Hok Hj) in Hc as [Hv ->].
    now apply Hcelda. }
  assert (exists c0, leer (ocupacionPorHora st) 0 = Some c0) as (c0 & Hc0).
  { exists (contador (ocupacionPorHora st) HORAS_MIN).
    exact (leer_valida _ HORAS_MIN Hok eq_refl). }
  split; [|split].
  - split.
    + destruct Hmnat as [->|(j & Hj & Hc)]; [lia|].
      now apply (Hcell j mn Hj Hc).
    + assert (0 <= 0 < MAX_HORAS) as H0
        by (unfold MAX_HORAS, HORAS_MAX, HORAS_MIN; lia).
      specialize (Hmlb 0 c0 H0 Hc0). specialize (Hmub 0 c0 H0 Hc0). lia.
  - destruct Hmat as [->|(j & Hj & Hc)]; [lia|].
    now apply (Hcell j m Hj Hc).
  - intros h c pc Hin. apply Hfmem in Hin as (j & Hj & _ & _ & Hc & ->).
    destruct (Hcell j c Hj Hc) as [Hc1 Hc2].
    unfold producto_int. rewrite (a_int_exacto (c * 100))
      by (unfold en_int, INT_MIN, INT_MAX in *; lia).
    rewrite Z.quot_div_nonneg by lia. split.
    + apply Z.div_pos; lia.
    + apply Z.div_le_upper_bound; lia.
Qed.

(** * Properties of the agent *)

(** ** Copies of names *)

Lemma strncpy_corto (s : string) : forall (n : nat),
  (String.length s <= n)%nat -> strncpy s n = s.
Proof.
  induction s as [|c s IH]; intros n Hn; destruct n as [|n]; simpl in *;
    try reflexivity; [lia|].
  f_equal. apply IH. lia.
Qed.


(** ** Tokens *)

Lemma saltar_comas (n : nat) (s : string) :
  saltar_delimitadores ","%char (comas n +:+ s)
  = saltar_delimitadores ","%char s.
Proof. induction n as [|n IH]; simpl; [reflexivity|exact IH]. Qed.

Lemma cortar_campo_coma (s r : string) :
  sin_delimitador ","%char s ->
  cortar_token ","%char (s +:+ String ","%char r) = (s, r).
Proof.
  induction s as [|c s IH]; simpl; [reflexivity|]. intros [Hc Hs].
  destruct (Ascii.eqb_spec c ","%char); [contradiction|]. now rewrite (IH Hs).
Qed.

Lemma cortar_campo_fin (d : ascii) (s : string) :
  sin_delimitador d s -> cortar_token d s = (s, EmptyString).
Proof.
  induction s as [|c s IH]; simpl; [reflexivity|]. intros [Hc Hs].
  destruct (Ascii.eqb_spec c d); [contradiction|]. now rewrite (IH Hs).
Qed.

Lemma strtok_comas (n : nat) (s : string) :
  strtok ","%char (comas n +:+ s) = strtok ","%char s.
Proof. unfold strtok. now rewrite saltar_comas. Qed.

Lemma strtok_no_vacio (d c : ascii) (s : string) :
  c <> d ->
  strtok d (String c s)
  = (Some (fst (cortar_token d (String c s))),
     snd (cortar_token d (String c s))).
Proof.
  intros Hc. unfold strtok. cbn [saltar_delimitadores].
  destruct (Ascii.eqb_spec c d); [contradiction|].
  now destruct (cortar_token d (String c s)).
Qed.

Lemma strtok_campo (n : nat) (s r : string) :
  campo s ->
  strtok ","%char (comas n +:+ (s +:+ String ","%char r)) = (Some s, r).
Proof.
  intros [Hne Hs]. rewrite strtok_comas.
  destruct s as [|c s]; [contradiction|]. pose proof Hs as [Hc _].
  change (String c s +:+ String ","%char r)
    with (String c (s +:+ String ","%char r)).
  rewrite (strtok_no_vacio _ _ _ Hc).
  change (String c (s +:+ String ","%char r))
    with (String c s +:+ String ","%char r).
  now rewrite (cortar_campo_coma _ _ Hs).
Qed.

Lemma strtok_ultimo (n : nat) (s : string) :
  campo s -> strtok ","%char (comas n +:+ s) = (Some s, EmptyString).
Proof.
  intros [Hne Hs]. rewrite strtok_comas.
  destruct s as [|c s]; [contradiction|]. pose proof Hs as [Hc _].
  rewrite (strtok_no_vacio _ _ _ Hc). now rewrite (cortar_campo_fin _ _ Hs).
Qed.

Lemma strtok_vacio (n : nat) :
  strtok ","%char (comas n) = (None, EmptyString).
Proof.
  unfold strtok.
  assert (saltar_delimitadores ","%char (comas n) = EmptyString) as ->;
    [|reflexivity].
  induction n as [|n IH]; simpl; [reflexivity|exact IH].
Qed.

Lemma strtok_fin : strtok ","%char EmptyString = (None, EmptyString).
Proof. reflexivity. Qed.

Lemma append_cons (c : ascii) (s r : string) :
  String c s +:+ r = String c (s +:+ r).
Proof. reflexivity. Qed.

Lemma append_vacio (s : string) : s +:+ EmptyString = s.
Proof.
  induction s as [|c s IH]; [reflexivity|].
  rewrite append_cons. now f_equal.
Qed.

Lemma append_length (a b : string) :
  String.length (a +:+ b) = (String.length a + String.length b)%nat.
Proof.
  induction a as [|x a IH]; [reflexivity|].
  rewrite append_cons. cbn [String.length]. now rewrite IH.
Qed.

(** ** Lines *)

Lemma parsear_tres_campos
    (n0 n1 n2 : nat) (f h p cola : string) :
  campo f -> campo h -> campo p ->
  cola = EmptyString \/ (exists c, cola = String ","%char c) ->
  (String.length
     (comas n0 +:+ (f +:+ (comas (S n1) +:+ (h +:+ (comas (S n2)
        +:+ (p +:+ cola)))))) <= 255)%nat ->
  parsearLineaCSV
    (comas n0 +:+ (f +:+ (comas (S n1) +:+ (h +:+ (comas (S n2)
       +:+ (p +:+ cola))))))
  = {| sol_familia := strncpy f 127;
       sol_hora := atoi h;
       sol_personas := atoi p |}.
Proof.
  intros Hf Hh Hp Hcola Hlen. unfold parsearLineaCSV.
  rewrite strncpy_corto by exact Hlen.
  cbn [comas]. rewrite !append_cons.
  rewrite (strtok_campo n0 f _ Hf), (strtok_campo n1 h _ Hh).
  destruct Hcola as [->|(c & ->)].
  - rewrite append_vacio, (strtok_ultimo n2 p Hp). reflexivity.
  - rewrite (strtok_campo n2 p c Hp). reflexivity.
Qed.

(** X22.  A line of at most 255 characters with three fields, each separated
    from the next by one comma or by several, after any number of
    leading commas and before anything that starts with a comma, is
    read as the first field cut to 127 characters, blanks included, and
    [atoi] of the second and of the third. *)
Theorem parsearLineaCSV_campos
    (n0 n1 n2 : nat) (f h p cola : string) :
  campo f -> campo h -> campo p ->
  cola = EmptyString \/ (exists c, cola = String ","%char c) ->
  (String.length
     (comas n0 +:+ (f +:+ (comas (S n1) +:+ (h +:+ (comas (S n2)
        +:+ (p +:+ cola)))))) <= 255)%nat ->
  parsearLineaCSV
    (comas n0 +:+ (f +:+ (comas (S n1) +:+ (h +:+ (comas (S n2)
       +:+ (p +:+ cola))))))
  = {| sol_familia := strncpy f 127;
       sol_hora := atoi h;
       sol_personas := atoi p |}.
Proof. apply parsear_tres_campos. Qed.

(** X23.  Fields that are missing read as zero, and an empty field is no
    field: a line with a name only gives hour 0 and 0 people, a line
    with two fields gives 0 people, and a line of commas alone gives an
    empty name as well. *)
Theorem parsearLineaCSV_faltan_campos (n0 n1 n2 : nat) (f h : string) :
  campo f -> campo h ->
  (String.length
     (comas n0 +:+ (f +:+ (comas (S n1) +:+ (h +:+ comas n2)))) <= 255)%nat ->
  parsearLineaCSV (comas n0 +:+ (f +:+ comas n1))
  = {| sol_familia := strncpy f 127; sol_hora := 0; sol_personas := 0 |} /\
  parsearLineaCSV (comas n0 +:+ (f +:+ (comas (S n1) +:+ (h +:+ comas n2))))
  = {| sol_familia := strncpy f 127; sol_hora := atoi h; sol_personas := 0 |} /\
  parsearLineaCSV (comas n0)
  = {| sol_familia := EmptyString; sol_hora := 0; sol_personas := 0 |}.
Proof.
  intros Hf Hh Hlen.
  pose proof append_length as Hlap.
  rewrite !Hlap in Hlen. cbn [comas String.length] in Hlen.
  unfold parsearLineaCSV. change (Z.to_nat (MAX_LINEA - 1)) with 255%nat.
  split; [|split].
  - rewrite strncpy_corto by (rewrite !Hlap; lia).
    destruct n1 as [|n1].
    + rewrite append_vacio, (strtok_ultimo n0 f Hf).
      rewrite strtok_fin. reflexivity.
    + cbn [comas]. rewrite ?append_cons.
      rewrite (strtok_campo n0 f _ Hf), (strtok_vacio n1).
      rewrite strtok_fin. reflexivity.
  - rewrite strncpy_corto by (rewrite !Hlap; cbn [comas String.length]; lia).
    cbn [comas]. rewrite ?append_cons, (strtok_campo n0 f _ Hf).
    destruct n2 as [|n2].
    + rewrite append_vacio, (strtok_ultimo n1 h Hh), strtok_fin.
      reflexivity.
    + cbn [comas]. rewrite ?append_cons.
      rewrite (strtok_campo n1 h _ Hh), (strtok_vacio n2). reflexivity.
  - rewrite strncpy_corto by lia.
    rewrite (strtok_vacio n0), strtok_fin. reflexivity.
Qed.

(** ** Numerals *)









(** A numeral outside the range of [int] is read as the [int] it
    wraps to, and one outside the range of [long] as the [int] that
    the nearest bound of [long] wraps to. *)
Example atoi_fuera_de_rango :
  atoi "2147483648" = -2147483648 /\
  atoi "-2147483649" = 2147483647 /\
  atoi "4294967306" = 10 /\
  atoi "99999999999999999999" = -1.
Proof. repeat split. Qed.

(** ** From a line to a message *)

Lemma cortar_delim (d : ascii) (s r : string) :
  sin_delimitador d s ->
  cortar_token d (s +:+ String d r) = (s, r).
Proof.
  induction s as [|c s IH]; intros Hs.
  - simpl. now rewrite Ascii.eqb_refl.
  - destruct Hs as [Hc Hs]. rewrite append_cons. cbn [cortar_token].
    destruct (Ascii.eqb_spec c d); [contradiction|]. now rewrite (IH Hs).
Qed.

Lemma cortar_salto_linea (s fin : string) :
  sin_delimitador "010"%char s ->
  fin = EmptyString \/ (exists resto, fin = String "010"%char resto) ->
  cortar_salto (s +:+ fin) = s.
Proof.
  intros Hs [->|(resto & ->)]; unfold cortar_salto.
  - now rewrite append_vacio, cortar_campo_fin.
  - now rewrite cortar_delim.
Qed.

Lemma sin_delimitador_append (d : ascii) (a b : string) :
  sin_delimitador d a -> sin_delimitador d b -> sin_delimitador d (a +:+ b).
Proof.
  induction a as [|c a IH]; intros Ha Hb; [exact Hb|].
  destruct Ha as [Hc Ha]. rewrite append_cons. split; [exact Hc|now apply IH].
Qed.

Lemma sin_salto_comas (n : nat) : sin_delimitador "010"%char (comas n).
Proof. induction n as [|n IH]; [exact I|]. split; [discriminate|exact IH]. Qed.

Lemma procesarLinea_no_vacia (nombreAgente pipeRespuesta linea : string) :
  cortar_salto linea <> EmptyString ->
  procesarLinea nombreAgente pipeRespuesta linea
  = Some {| m_tipo := MSG_SOLICITUD_RESERVA;
            m_nombreAgente := copiarNombre nombreAgente;
            m_pipeRespuesta := copiarNombre pipeRespuesta;
            m_nombreFamilia :=
              copiarNombre (sol_familia (parsearLineaCSV (cortar_salto linea)));
            m_horaSolicitada := sol_hora (parsearLineaCSV (cortar_salto linea));
            m_numPersonas :=
              sol_personas (parsearLineaCSV (cortar_salto linea)) |}.
Proof.
  intros Hne. unfold procesarLinea.
  destruct (cortar_salto linea); [contradiction|reflexivity].
Qed.

Lemma append_no_vacio (a b : string) :
  b <> EmptyString -> a +:+ b <> EmptyString.
Proof.
  intros Hb Heq. apply (f_equal String.length) in Heq.
  rewrite append_length in Heq. destruct b; [contradiction|]. simpl in Heq. lia.
Qed.

Lemma append_no_vacio_l (a b : string) :
  a <> EmptyString -> a +:+ b <> EmptyString.
Proof. intros Ha. destruct a; [contradiction|discriminate]. Qed.


(** X26.  A line that holds a name and nothing else, whatever commas surround
    it, becomes a request for hour 0 with 0 people, and the controller
    answers it DENIED as out of the operating range in every state and
    under every configuration. *)
Theorem linea_sin_hora_negada
    (nombreAgente pipeRespuesta familia fin : string) (n0 n1 : nat) :
  campo familia ->
  sin_delimitador "010"%char familia ->
  fin = EmptyString \/ (exists resto, fin = String "010"%char resto) ->
  (String.length (comas n0 +:+ (familia +:+ comas n1)) <= 255)%nat ->
  exists msg,
    procesarLinea nombreAgente pipeRespuesta
      ((comas n0 +:+ (familia +:+ comas n1)) +:+ fin) = Some msg /\
    m_horaSolicitada msg = 0 /\
    m_numPersonas msg = 0 /\
    forall cfg st,
      procesarSolicitudReserva cfg st msg
      = Some (contarNegada st,
              respNegada st (TxtFueraDeRango HORAS_MIN HORAS_MAX)).
Proof.
  intros Hf Hsalto Hfin Hlen.
  assert (cortar_salto ((comas n0 +:+ (familia +:+ comas n1)) +:+ fin)
          = comas n0 +:+ (familia +:+ comas n1)) as Hcorte.
  { apply cortar_salto_linea; [|exact Hfin].
    apply sin_delimitador_append; [apply sin_salto_comas|].
    apply sin_delimitador_append; [exact Hsalto|apply sin_salto_comas]. }
  rewrite procesarLinea_no_vacia
    by (rewrite Hcorte; apply append_no_vacio, append_no_vacio_l, Hf).
  rewrite Hcorte.
  assert (parsearLineaCSV (comas n0 +:+ (familia +:+ comas n1))
          = {| sol_familia := strncpy familia 127;
               sol_hora := 0; sol_personas := 0 |}) as Hparse.
  { unfold parsearLineaCSV. rewrite strncpy_corto by exact Hlen.
    destruct n1 as [|n1].
    - rewrite append_vacio, (strtok_ultimo n0 familia Hf), strtok_fin.
      reflexivity.
    - cbn [comas].
      rewrite (strtok_campo n0 familia _ Hf), (strtok_vacio n1), strtok_fin.
      reflexivity. }
  rewrite Hparse.
  eexists. split; [reflexivity|]. cbn [m_horaSolicitada m_numPersonas sol_hora
    sol_personas]. split; [reflexivity|]. split; [reflexivity|].
  intros cfg st. now apply procesar_fuera_de_rango.
Qed.

(** ** Opening the pipe of the controller *)

Lemma abrir_desde_spec (aperturas : nat -> Apertura) (k : nat) :
  forall (n : nat),
  (forall i, abrir_desde aperturas k n = Conectado i <->
     (n <= i < n + k)%nat /\ aperturas i = Abierta /\
     forall j, (n <= j < i)%nat -> aperturas j = SinLector) /\
  (abrir_desde aperturas k n = Agotado <->
     forall j, (n <= j < n + k)%nat -> aperturas j = SinLector) /\
  (abrir_desde aperturas k n = ErrorFatal <->
     exists i, (n <= i < n + k)%nat /\ aperturas i = OtroError /\
       forall j, (n <= j < i)%nat -> aperturas j = SinLector).
Proof.
  induction k as [|k IH]; intros n; cbn [abrir_desde].
  - split; [|split].
    + intros i. split; [discriminate|intros (Hi & _); lia].
    + split; [intros _ j Hj; lia|reflexivity].
    + split; [discriminate|intros (i & Hi & _); lia].
  - destruct (IH (S n)) as (IHc & IHa & IHf).
    destruct (aperturas n) eqn:Hn.
    + split; [|split].
      * intros i. split.
        -- intros [= <-]. split; [lia|]. split; [exact Hn|intros j Hj; lia].
        -- intros (Hi & Hab & Hprev). destruct (Nat.eq_dec i n) as [->|Hne];
             [reflexivity|]. specialize (Hprev n ltac:(lia)). congruence.
      * split; [discriminate|]. intros Hall. specialize (Hall n ltac:(lia)).
        congruence.
      * split; [discriminate|]. intros (i & Hi & Herr & Hprev).
        destruct (Nat.eq_dec i n) as [->|Hne]; [congruence|].
        specialize (Hprev n ltac:(lia)). congruence.
    + split; [|split].
      * intros i. rewrite IHc. split.
        -- intros (Hi & Hab & Hprev). split; [lia|]. split; [exact Hab|].
           intros j Hj. destruct (Nat.eq_dec j n) as [->|Hne]; [exact Hn|].
           apply Hprev. lia.
        -- intros (Hi & Hab & Hprev).
           destruct (Nat.eq_dec i n) as [->|Hne]; [congruence|].
           split; [lia|]. split; [exact Hab|]. intros j Hj. apply Hprev. lia.
      * rewrite IHa. split.
        -- intros Hall j Hj. destruct (Nat.eq_dec j n) as [->|Hne]; [exact Hn|].
           apply Hall. lia.
        -- intros Hall j Hj. apply Hall. lia.
      * rewrite IHf. split.
        -- intros (i & Hi & Herr & Hprev). exists i. split; [lia|].
           split; [exact Herr|]. intros j Hj.
           destruct (Nat.eq_dec j n) as [->|Hne]; [exact Hn|]. apply Hprev. lia.
        -- intros (i & Hi & Herr & Hprev).
           destruct (Nat.eq_dec i n) as [->|Hne]; [congruence|].
           exists i. split; [lia|]. split; [exact Herr|].
           intros j Hj. apply Hprev. lia.
    + split; [|split].
      * intros i. split; [discriminate|]. intros (Hi & Hab & Hprev).
        destruct (Nat.eq_dec i n) as [->|Hne]; [congruence|].
        specialize (Hprev n ltac:(lia)). congruence.
      * split; [discriminate|]. intros Hall. specialize (Hall n ltac:(lia)).
        congruence.
      * split; [intros _|reflexivity]. exists n. split; [lia|].
        split; [exact Hn|intros j Hj; lia].
Qed.

(** X27.  The agent connects at the first attempt whose [open] succeeds,
    provided it is one of the first five and every attempt before it
    found no reader; it gives up exactly when the first five attempts
    all find no reader, and stops at once on any other error.  It never
    calls [open] a sixth time. *)
Theorem abrirPipeControlador_intentos (aperturas : nat -> Apertura) :
  (forall i, abrirPipeControlador aperturas = Conectado i <->
     (i < 5)%nat /\ aperturas i = Abierta /\
     forall j, (j < i)%nat -> aperturas j = SinLector) /\
  (abrirPipeControlador aperturas = Agotado <->
     forall j, (j < 5)%nat -> aperturas j = SinLector) /\
  (abrirPipeControlador aperturas = ErrorFatal <->
     exists i, (i < 5)%nat /\ aperturas i = OtroError /\
       forall j, (j < i)%nat -> aperturas j = SinLector).
Proof.
  unfold abrirPipeControlador, maxIntentos.
  destruct (abrir_desde_spec aperturas 5 0) as (Hc & Ha & Hf).
  split; [|split].
  - intros i. rewrite Hc. split; intros (Hi & Hab & Hprev);
      (split; [lia|]; split; [exact Hab|]; intros j Hj; apply Hprev; lia).
  - rewrite Ha. split; intros Hall j Hj; apply Hall; lia.
  - rewrite Hf. split; intros (i & Hi & Herr & Hprev); exists i;
      (split; [lia|]; split; [exact Herr|]; intros j Hj; apply Hprev; lia).
Qed.

(** * Instances *)

Ltac cfg_ejemplo_valida := repeat split; simpl; lia.

Ltac sin_desborde_inicial :=
  intros ? _; simpl; rewrite contador_inicial;
  unfold en_int, INT_MIN, INT_MAX; lia.

Ltac sin_negativas :=
  simpl; repeat (apply Forall_cons_2; [simpl; lia|]); apply Forall_nil_2.

Ltac hora_en_ventana h Hh :=
  apply validarHora_true in Hh; unfold HORAS_MIN, HORAS_MAX in Hh;
  assert (h = 7 \/ h = 8 \/ h = 9 \/ h = 10 \/ h = 11 \/ h = 12 \/ h = 13 \/
          h = 14 \/ h = 15 \/ h = 16 \/ h = 17 \/ h = 18 \/ h = 19) as Hcasos
    by lia;
  repeat (destruct Hcasos as [->|Hcasos]); try subst h.

Lemma aprobada_sii_witness :
  exists st' resp,
    procesarSolicitudReserva cfg_ejemplo (inicializarServidor cfg_ejemplo)
      (solicitud "A" 10 50) = Some (st', resp) /\
    (resp_tipo resp = RESP_RESERVA_OK <->
     causa_aprobada cfg_ejemplo (inicializarServidor cfg_ejemplo)
       (solicitud "A" 10 50)).
Proof.
  eexists _, _. split; [reflexivity|].
  eapply aprobada_sii;
    [apply tabla_ok_inicial | sin_desborde_inicial | reflexivity].
Defined.

Lemma reprogramada_sii_witness :
  exists st' resp,
    procesarSolicitudReserva cfg_ejemplo (estado_en 12 tabla_mediodia [])
      (solicitud "C" 9 10) = Some (st', resp) /\
    (resp_tipo resp = RESP_RESERVA_REPROG <->
     causa_reprogramada cfg_ejemplo (estado_en 12 tabla_mediodia [])
       (solicitud "C" 9 10)).
Proof.
  eexists _, _. split; [reflexivity|].
  eapply reprogramada_sii; [reflexivity | celdas_entre 0 100 | reflexivity].
Defined.

Lemma negada_sii_witness :
  exists st' resp,
    procesarSolicitudReserva cfg_ejemplo (inicializarServidor cfg_ejemplo)
      (solicitud "E" 10 150) = Some (st', resp) /\
    (resp_tipo resp = RESP_RESERVA_NEGADA <->
     causa_negada cfg_ejemplo (inicializarServidor cfg_ejemplo)
       (solicitud "E" 10 150)).
Proof.
  eexists _, _. split; [reflexivity|].
  eapply negada_sii;
    [apply tabla_ok_inicial | sin_desborde_inicial | reflexivity].
Defined.

Lemma hora_asignada_en_el_dia_witness :
  validarHora 14 = true /\
  12 <= 14 <= 19 /\
  14 <> 9 /\ validarHora (14 + 1) = true /\ 14 + 1 <= 19 /\
  primera_candidata cfg_ejemplo (estado_en 12 tabla_mediodia []) 10 14.
Proof.
  destruct (procesarSolicitudReserva cfg_ejemplo
              (estado_en 12 tabla_mediodia []) (solicitud "C" 9 10))
    as [[st' resp]|] eqn:Hrun; [|vm_compute in Hrun; discriminate].
  pose proof (hora_asignada_en_el_dia cfg_ejemplo
                (estado_en 12 tabla_mediodia []) (solicitud "C" 9 10)
                st' resp 14) as H.
  vm_compute in Hrun. injection Hrun as <- <-.
  destruct H as (Hv & Hr & Hre); [reflexivity | reflexivity | reflexivity |].
  destruct (Hre eq_refl) as (Hne & Hv1 & Hle & Hprim).
  split; [exact Hv|]. split; [exact Hr|]. split; [exact Hne|].
  split; [exact Hv1|]. split; [exact Hle|].
  apply Hprim. celdas_entre 0 100.
Defined.

Lemma reprogramada_puede_adelantar_witness : 7 <= 7 /\ 7 < 10.
Proof.
  destruct (procesarSolicitudReserva cfg_ejemplo
              (estado_en 7 [0; 0; 0; 50; 50; 0; 0; 0; 0; 0; 0; 0; 0] [])
              (solicitud "B" 10 60))
    as [[st' resp]|] eqn:Hrun; [|vm_compute in Hrun; discriminate].
  pose proof (reprogramada_puede_adelantar cfg_ejemplo
                (estado_en 7 [0; 0; 0; 50; 50; 0; 0; 0; 0; 0; 0; 0; 0] [])
                (solicitud "B" 10 60) st' resp 7 7) as H.
  vm_compute in Hrun. injection Hrun as <- <-.
  apply H; try reflexivity; [celdas_entre 0 50 | simpl; lia|].
  intros offset Ho. unfold DURACION_RESERVA in Ho.
  assert (offset = 0 \/ offset = 1) as [->| ->] by lia;
    (split; [reflexivity | vm_compute; congruence]).
Defined.

Lemma reservas_nunca_se_pierden_witness :
  exists st' r',
    ejecutar cfg_ejemplo estado_a_las_9
      [EvTick; EvMensaje (solicitud "T" 12 4); EvTick] = Some st' /\
    reservas st' !! 0%nat = Some r' /\
    misma_reserva (reserva_ejemplo "P" 8 true) r'.
Proof.
  destruct (ejecutar cfg_ejemplo estado_a_las_9
              [EvTick; EvMensaje (solicitud "T" 12 4); EvTick])
    as [st'|] eqn:Hrun; [|vm_compute in Hrun; discriminate].
  destruct (reservas_nunca_se_pierden cfg_ejemplo _ estado_a_las_9 st' 0%nat
              (reserva_ejemplo "P" 8 true) Hrun) as (r' & Hr' & Hm);
    [reflexivity|].
  now exists st', r'.
Defined.

Lemma reserva_de_la_hora_actual_nunca_activa_witness :
  exists st' r',
    ejecutar cfg_ejemplo
      (estado_en 9 tabla_mediodia [reserva_ejemplo "S" 9 false])
      [EvTick; EvTick; EvTick] = Some st' /\
    reservas st' !! 0%nat = Some r' /\
    misma_reserva (reserva_ejemplo "S" 9 false) r' /\
    r_activa r' = false.
Proof.
  destruct (ejecutar cfg_ejemplo
              (estado_en 9 tabla_mediodia [reserva_ejemplo "S" 9 false])
              [EvTick; EvTick; EvTick])
    as [st'|] eqn:Hrun; [|vm_compute in Hrun; discriminate].
  destruct (reserva_de_la_hora_actual_nunca_activa cfg_ejemplo _ _ st' 0%nat
              (reserva_ejemplo "S" 9 false) Hrun) as (r' & Hr' & Hm & Ha);
    [reflexivity | reflexivity | simpl; lia |].
  now exists st', r'.
Defined.

Lemma tabla_coincide_con_reservas_witness :
  exists st,
    ejecutar cfg_ejemplo (inicializarServidor cfg_ejemplo) dia_ejemplo = Some st /\
    contador (ocupacionPorHora st) 10 = personas_en (reservas st) 10.
Proof.
  destruct (ejecutar cfg_ejemplo (inicializarServidor cfg_ejemplo) dia_ejemplo)
    as [st|] eqn:Hrun; [|vm_compute in Hrun; discriminate].
  exists st. split; [reflexivity|].
  apply (tabla_coincide_con_reservas cfg_ejemplo dia_ejemplo st);
    [cfg_ejemplo_valida | unfold INT_MAX; simpl; lia | sin_negativas
    | exact Hrun | reflexivity].
Defined.

Lemma reservas_dentro_del_dia_witness :
  validarHora 10 = true /\ 11 = 10 + 1 /\ 7 <= 10 <= 19 /\ 50 <= 100.
Proof.
  destruct (ejecutar cfg_ejemplo (inicializarServidor cfg_ejemplo) dia_ejemplo)
    as [st|] eqn:Hrun; [|vm_compute in Hrun; discriminate].
  pose proof (reservas_dentro_del_dia cfg_ejemplo dia_ejemplo st
                (nuevaReserva (solicitud "A" 10 50) 10)) as H.
  vm_compute in Hrun. injection Hrun as <-.
  apply H; [cfg_ejemplo_valida | reflexivity | left].
Defined.

Lemma reserva_activa_en_curso_witness :
  (exists st r,
     ejecutar cfg_ejemplo (inicializarServidor cfg_ejemplo)
       (dia_ejemplo ++ [EvTick]) = Some st /\
     r ∈ reservas st /\ r_nombreFamilia r = "A"%string /\
     r_activa r = true /\
     r_horaInicio r <= horaActual st <= r_horaFin r) /\
  (exists st r,
     ejecutar cfg_ejemplo (inicializarServidor cfg_ejemplo)
       (dia_ejemplo ++ [EvTick; EvTick; EvTick]) = Some st /\
     r ∈ reservas st /\ r_nombreFamilia r = "A"%string /\
     r_horaFin r < horaActual st /\
     r_activa r = false).
Proof.
  split.
  - destruct (ejecutar cfg_ejemplo (inicializarServidor cfg_ejemplo)
                (dia_ejemplo ++ [EvTick]))
      as [st|] eqn:Hrun; [|vm_compute in Hrun; discriminate].
    exists st, {| r_nombreFamilia := "A"; r_nombreAgente := "agente1";
                  r_horaInicio := 10; r_horaFin := 11;
                  r_numPersonas := 50; r_activa := true |}.
    split; [reflexivity|].
    destruct (reserva_activa_en_curso cfg_ejemplo (dia_ejemplo ++ [EvTick]) st
                {| r_nombreFamilia := "A"; r_nombreAgente := "agente1";
                   r_horaInicio := 10; r_horaFin := 11;
                   r_numPersonas := 50; r_activa := true |})
      as [Hactiva _];
      [cfg_ejemplo_valida | exact Hrun
      | vm_compute in Hrun; injection Hrun as <-; left |].
    split; [vm_compute in Hrun; injection Hrun as <-; left|].
    split; [reflexivity|]. split; [reflexivity|]. now apply Hactiva.
  - destruct (ejecutar cfg_ejemplo (inicializarServidor cfg_ejemplo)
                (dia_ejemplo ++ [EvTick; EvTick; EvTick]))
      as [st|] eqn:Hrun; [|vm_compute in Hrun; discriminate].
    exists st, {| r_nombreFamilia := "A"; r_nombreAgente := "agente1";
                  r_horaInicio := 10; r_horaFin := 11;
                  r_numPersonas := 50; r_activa := false |}.
    split; [reflexivity|].
    destruct (reserva_activa_en_curso cfg_ejemplo
                (dia_ejemplo ++ [EvTick; EvTick; EvTick]) st
                {| r_nombreFamilia := "A"; r_nombreAgente := "agente1";
                   r_horaInicio := 10; r_horaFin := 11;
                   r_numPersonas := 50; r_activa := false |})
      as [_ Hpasada];
      [cfg_ejemplo_valida | exact Hrun
      | vm_compute in Hrun; injection Hrun as <-; left |].
    assert (11 < horaActual st) as Hfin
      by (vm_compute in Hrun; injection Hrun as <-; reflexivity).
    split; [vm_compute in Hrun; injection Hrun as <-; left|].
    split; [reflexivity|]. split; [exact Hfin|]. now apply Hpasada.
Defined.

Lemma estadisticas_cuadran_witness :
  exists st,
    ejecutar cfg_ejemplo (inicializarServidor cfg_ejemplo) dia_ejemplo = Some st /\
    solicitudesAceptadas st + solicitudesReprogramadas st
      + solicitudesNegadas st = 4 /\
    numReservas st = solicitudesAceptadas st + solicitudesReprogramadas st.
Proof.
  destruct (ejecutar cfg_ejemplo (inicializarServidor cfg_ejemplo) dia_ejemplo)
    as [st|] eqn:Hrun; [|vm_compute in Hrun; discriminate].
  exists st. split; [reflexivity|].
  destruct (estadisticas_cuadran cfg_ejemplo dia_ejemplo st)
    as (Htot & Hnum & _); [cfg_ejemplo_valida | exact Hrun |].
  split; [exact Htot | exact Hnum].
Defined.

Lemma reloj_tras_n_ticks_witness :
  horaActual (hiloReloj cfg_ejemplo (fun i => Nat.leb 2 i)
                (estado_en 10 tabla_mediodia [])) = Z.min (10 + 2) (19 + 1) /\
  horaActual (hiloReloj cfg_ejemplo (fun i => Nat.leb 5 i)
                (estado_en 18 tabla_mediodia [])) = Z.min (18 + 5) (19 + 1).
Proof.
  split.
  - apply (reloj_tras_n_ticks cfg_ejemplo (fun i => Nat.leb 2 i) 2
             (estado_en 10 tabla_mediodia [])).
    + simpl; lia.
    + intros j Hj. destruct j as [|[|j]]; [reflexivity|reflexivity|lia].
    + reflexivity.
  - apply (reloj_tras_n_ticks cfg_ejemplo (fun i => Nat.leb 5 i) 5
             (estado_en 18 tabla_mediodia [])).
    + simpl; lia.
    + intros j Hj.
      destruct j as [|[|[|[|[|j]]]]]; [reflexivity..|lia].
    + reflexivity.
Defined.

Lemma reloj_en_rango_witness :
  exists st,
    ejecutar cfg_ejemplo (inicializarServidor cfg_ejemplo) dia_ejemplo = Some st /\
    7 <= horaActual st <= 19 + 1.
Proof.
  destruct (ejecutar cfg_ejemplo (inicializarServidor cfg_ejemplo) dia_ejemplo)
    as [st|] eqn:Hrun; [|vm_compute in Hrun; discriminate].
  exists st. split; [reflexivity|].
  apply (reloj_en_rango cfg_ejemplo dia_ejemplo st);
    [cfg_ejemplo_valida | exact Hrun].
Defined.

Lemma hiloReloj_termina_el_dia_witness :
  exists st,
    ejecutar cfg_ejemplo (inicializarServidor cfg_ejemplo) dia_ejemplo = Some st /\
    horaActual (hiloReloj cfg_ejemplo (fun _ => false) st) = 19 + 1 /\
    ocupacionPorHora (hiloReloj cfg_ejemplo (fun _ => false) st)
    = ocupacionPorHora st.
Proof.
  destruct (ejecutar cfg_ejemplo (inicializarServidor cfg_ejemplo) dia_ejemplo)
    as [st|] eqn:Hrun; [|vm_compute in Hrun; discriminate].
  exists st. split; [reflexivity|].
  destruct (hiloReloj_termina_el_dia cfg_ejemplo (fun _ => false)
              dia_ejemplo st)
    as (_ & Ht & _ & _ & Hfin); [cfg_ejemplo_valida | exact Hrun |].
  destruct (Hfin (fun _ => eq_refl)) as [Hh _].
  split; [exact Hh | exact Ht].
Defined.

Lemma registro_acotado_witness :
  exists st',
    ejecutar cfg_ejemplo (inicializarServidor cfg_ejemplo)
      [EvMensaje (mensajeRegistro "agente1" "pipe_agente1_17"); EvTick;
       EvMensaje (mensajeRegistro "agente2" "pipe_agente2_18")] = Some st' /\
    numAgentes st' = Z.min MAX_AGENTES (0 + 2).
Proof.
  destruct (ejecutar cfg_ejemplo (inicializarServidor cfg_ejemplo)
              [EvMensaje (mensajeRegistro "agente1" "pipe_agente1_17"); EvTick;
               EvMensaje (mensajeRegistro "agente2" "pipe_agente2_18")])
    as [st'|] eqn:Hrun; [|vm_compute in Hrun; discriminate].
  exists st'. split; [reflexivity|].
  apply (registro_acotado cfg_ejemplo
           [EvMensaje (mensajeRegistro "agente1" "pipe_agente1_17"); EvTick;
            EvMensaje (mensajeRegistro "agente2" "pipe_agente2_18")]
           (inicializarServidor cfg_ejemplo) st');
    [vm_compute; congruence | exact Hrun].
Defined.

Lemma informe_hora_balance_witness :
  exists st eh,
    ejecutar cfg_ejemplo (inicializarServidor cfg_ejemplo) dia_ejemplo = Some st /\
    imprimirEstadoHora cfg_ejemplo st = Some eh /\
    eh_ocupacionActual eh
    = eh_totalEntran eh + personas_desde (reservas st) (horaActual st - 1).
Proof.
  destruct (ejecutar cfg_ejemplo (inicializarServidor cfg_ejemplo) dia_ejemplo)
    as [st|] eqn:Hrun; [|vm_compute in Hrun; discriminate].
  destruct (informe_hora_balance cfg_ejemplo dia_ejemplo st)
    as (eh & Heh & _ & Hbal & _);
    [cfg_ejemplo_valida | unfold INT_MAX; simpl; lia | sin_negativas
    | exact Hrun
    | vm_compute in Hrun; injection Hrun as <-; reflexivity |].
  exists st, eh. split; [reflexivity|]. split; [exact Heh|exact Hbal].
Defined.

Lemma informe_hora_en_rango_witness :
  exists st eh,
    ejecutar cfg_ejemplo (inicializarServidor cfg_ejemplo) dia_ejemplo = Some st /\
    imprimirEstadoHora cfg_ejemplo st = Some eh /\
    0 <= eh_porcentaje eh <= 100.
Proof.
  destruct (ejecutar cfg_ejemplo (inicializarServidor cfg_ejemplo) dia_ejemplo)
    as [st|] eqn:Hrun; [|vm_compute in Hrun; discriminate].
  destruct (informe_hora_en_rango cfg_ejemplo dia_ejemplo st)
    as (eh & Heh & _ & Hp & _).
  - cfg_ejemplo_valida.
  - unfold INT_MAX. simpl. lia.
  - sin_negativas.
  - exact Hrun.
  - exists st, eh. split; [reflexivity|]. split; [exact Heh|exact Hp].
Defined.

Lemma reporte_horas_pico_witness :
  exists rep,
    generarReporte cfg_ejemplo estado_a_las_9 = Some rep /\
    rep_maxOcupacion rep = 8 /\
    ((11, 8) ∈ rep_horasPico rep <->
     validarHora 11 = true /\
     8 = contador (ocupacionPorHora estado_a_las_9) 11 /\
     8 = rep_maxOcupacion rep /\ 0 < rep_maxOcupacion rep).
Proof.
  destruct (reporte_horas_pico cfg_ejemplo estado_a_las_9)
    as (rep & Hrep & _ & _ & _ & Hmem); [reflexivity | simpl; lia |].
  exists rep. split; [exact Hrep|]. split; [|apply Hmem].
  vm_compute in Hrep. now injection Hrep as <-.
Defined.

Lemma reporte_horas_valle_witness :
  exists rep,
    generarReporte cfg_ejemplo estado_a_las_9 = Some rep /\
    rep_minOcupacion rep = 0 /\
    rep_horasValle rep <> [].
Proof.
  destruct (reporte_horas_valle cfg_ejemplo estado_a_las_9)
    as (rep & Hrep & _ & _ & _ & Hne).
  - reflexivity.
  - simpl; lia.
  - unfold INT_MIN, INT_MAX. simpl. lia.
  - intros h Hh. hora_en_ventana h Hh; vm_compute; congruence.
  - exists rep. split; [exact Hrep|]. split; [|exact Hne].
    vm_compute in Hrep. now injection Hrep as <-.
Defined.

Lemma reporte_tabla_por_hora_witness :
  exists rep,
    generarReporte cfg_ejemplo estado_a_las_9 = Some rep /\
    ((11, 8, 8) ∈ rep_tabla rep <->
     validarHora 11 = true /\ 11 <= 19 /\
     8 = contador (ocupacionPorHora estado_a_las_9) 11 /\
     8 = Z.quot (8 * 100) 100).
Proof.
  destruct (reporte_tabla_por_hora cfg_ejemplo estado_a_las_9)
    as (rep & Hrep & Hmem); [reflexivity | simpl; lia | |].
  - intros h Hh. unfold en_int, INT_MIN, INT_MAX.
    hora_en_ventana h Hh; vm_compute; split; congruence.
  - exists rep. split; [exact Hrep|apply Hmem].
Defined.

Lemma reporte_del_dia_witness :
  exists st rep,
    ejecutar cfg_ejemplo (inicializarServidor cfg_ejemplo) dia_ejemplo = Some st /\
    generarReporte cfg_ejemplo st = Some rep /\
    rep_total rep = 4 /\
    rep_maxOcupacion rep <= 100.
Proof.
  destruct (ejecutar cfg_ejemplo (inicializarServidor cfg_ejemplo) dia_ejemplo)
    as [st|] eqn:Hrun; [|vm_compute in Hrun; discriminate].
  destruct (reporte_del_dia cfg_ejemplo dia_ejemplo st)
    as (rep & Hrep & Htot & _ & Hmax & _).
  - cfg_ejemplo_valida.
  - unfold INT_MAX. simpl. lia.
  - sin_negativas.
  - exact Hrun.
  - exists st, rep. split; [reflexivity|]. split; [exact Hrep|].
    split; [exact Htot|exact Hmax].
Defined.

Lemma parsearLineaCSV_campos_witness :
  parsearLineaCSV "Perez,10,5"
  = {| sol_familia := strncpy "Perez" 127;
       sol_hora := atoi "10"; sol_personas := atoi "5" |} /\
  parsearLineaCSV ",Perez,,10,5,nota"
  = {| sol_familia := strncpy "Perez" 127;
       sol_hora := atoi "10"; sol_personas := atoi "5" |}.
Proof.
  split.
  - apply (parsearLineaCSV_campos 0 0 0 "Perez" "10" "5" "").
    + split; [discriminate|]. repeat split; discriminate.
    + split; [discriminate|]. repeat split; discriminate.
    + split; [discriminate|]. repeat split; discriminate.
    + now left.
    + simpl; lia.
  - apply (parsearLineaCSV_campos 1 1 0 "Perez" "10" "5" ",nota").
    + split; [discriminate|]. repeat split; discriminate.
    + split; [discriminate|]. repeat split; discriminate.
    + split; [discriminate|]. repeat split; discriminate.
    + right. now exists "nota".
    + simpl; lia.
Defined.

Lemma parsearLineaCSV_faltan_campos_witness :
  parsearLineaCSV "Perez"
  = {| sol_familia := strncpy "Perez" 127; sol_hora := 0; sol_personas := 0 |} /\
  parsearLineaCSV "Perez,,5"
  = {| sol_familia := strncpy "Perez" 127;
       sol_hora := atoi "5"; sol_personas := 0 |} /\
  parsearLineaCSV EmptyString
  = {| sol_familia := EmptyString; sol_hora := 0; sol_personas := 0 |}.
Proof.
  apply (parsearLineaCSV_faltan_campos 0 0 0 "Perez" "5").
  - split; [discriminate|]. repeat split; discriminate.
  - split; [discriminate|]. repeat split; discriminate.
  - simpl; lia.
Defined.


Lemma linea_sin_hora_negada_witness :
  exists msg,
    procesarLinea "agente1" "pipe_agente1_17"
      ((comas 0 +:+ ("Perez" +:+ comas 1)) +:+ String "010"%char EmptyString)
    = Some msg /\
    m_horaSolicitada msg = 0 /\
    m_numPersonas msg = 0 /\
    forall cfg st,
      procesarSolicitudReserva cfg st msg
      = Some (contarNegada st,
              respNegada st (TxtFueraDeRango HORAS_MIN HORAS_MAX)).
Proof.
  apply (linea_sin_hora_negada "agente1" "pipe_agente1_17" "Perez"
           (String "010"%char EmptyString) 0 1).
  - split; [discriminate|]. repeat split; discriminate.
  - repeat split; discriminate.
  - right. now exists EmptyString.
  - simpl; lia.
Defined.
